(** * liblava: window/config persistence, the frame orchestration steps,
      file-name utilities and pipeline flags

    A shallow embedding of
    - [liblava/app/app.cpp]        (window-state and config persistence, the
                                    run-loop steps registered by [app::setup],
                                    the key listener, the update step and the
                                    teardown at the end of the run),
    - [liblava/file/file_utils.cpp] ([read_file], [write_file], [extension],
                                    [remove_existing_path], [load_file_data]),
    - [liblava/block/pipeline.hpp] ([pipeline_layout] and the flags of
                                    [pipeline] and [graphics_pipeline]).

    C++ exceptions are modelled by the [outcome] type, the application object
    by the record [app] threaded through a state-and-exception monad, and the
    calls into collaborators that are not part of these files (window,
    device, target, plotter, gui, block, camera) by an event trace plus an
    oracle record that fixes what each fallible collaborator call answers. *)

From Stdlib Require Import ZArith Bool Ascii String PrimFloat SpecFloat FloatOps Lia.
From stdpp Require Import base option strings list gmap.

#[local] Set Warnings "-register-all".
#[local] Open Scope Z_scope.

(** ** Exceptions *)

(** The exceptions that the modelled code can raise: the JSON library's
    [parse_error], [type_error] and [out_of_range], the standard library's
    [std::out_of_range] (from [std::string::substr]) and [std::length_error]
    (from a [std::vector::resize] beyond [max_size]), and a failed
    [assert]. *)
Inductive exn : Type :=
  | json_parse_error
  | json_type_error
  | json_out_of_range
  | std_out_of_range
  | std_length_error
  | assertion_failed.

Inductive outcome (A : Type) : Type :=
  | Ret (a : A)
  | Throw (e : exn).
Arguments Ret {A} a.
Arguments Throw {A} e.

#[global] Instance outcome_ret : MRet outcome := λ A a, Ret a.
#[global] Instance outcome_bind : MBind outcome := λ A B k m,
  match m with
  | Ret a => k a
  | Throw e => Throw e
  end.

Definition returns {A : Type} (m : outcome A) : Prop := ∃ a, m = Ret a.

(** ** Machine integers *)

(** The integral types the code converts JSON numbers to. *)
Inductive integral : Type := i32 | u32 | i64.

Definition integral_bits (t : integral) : Z :=
  match t with i32 | u32 => 32 | i64 => 64 end.

Definition integral_signed (t : integral) : bool :=
  match t with i32 | i64 => true | u32 => false end.

(** [static_cast<T>] of an integer value: reduction modulo [2^bits], read as
    two's complement for the signed types. *)
Definition wrap (t : integral) (z : Z) : Z :=
  let m := 2 ^ integral_bits t in
  let r := z mod m in
  if integral_signed t && (m / 2 <=? r) then r - m else r.

Definition in_range (t : integral) (z : Z) : Prop :=
  if integral_signed t
  then - 2 ^ (integral_bits t - 1) <= z < 2 ^ (integral_bits t - 1)
  else 0 <= z < 2 ^ integral_bits t.

(** ** JSON values (the [json] type of the JSON library) *)

(** [number_integer] and [number_unsigned] are merged into [JInt]; a
    [number_float] is a binary64 value. An object is a map with unique keys
    ([std::map<std::string, json>]). *)
Inductive json : Type :=
  | JNull
  | JBool (b : bool)
  | JInt (z : Z)
  | JFloat (f : float)
  | JString (s : string)
  | JArray (l : list json)
  | JObject (m : gmap string json).

Definition is_object (j : json) : bool :=
  match j with JObject _ => true | _ => false end.

Definition is_null (j : json) : bool :=
  match j with JNull => true | _ => false end.

(** [j.count(key)]: the number of entries under [key] for an object, [0] for
    every other kind of value. *)
Definition json_count (j : json) (key : string) : nat :=
  match j with
  | JObject m => match m !! key with Some _ => 1%nat | None => 0%nat end
  | _ => 0%nat
  end.

(** A [size_t] used as an [if] condition. *)
Definition nonzero (n : nat) : bool := negb (Nat.eqb n 0).

(** [j.at(key)]: checked access. *)
Definition json_at (j : json) (key : string) : outcome json :=
  match j with
  | JObject m =>
      match m !! key with
      | Some v => Ret v
      | None => Throw json_out_of_range
      end
  | _ => Throw json_type_error
  end.

(** [j[key]] on a non-const value, read access: a null value silently becomes
    an object, a missing key is created with a null value, any other kind of
    value raises [type_error]. Only the value read is returned; every use in
    the modelled code is guarded by [count] or reads a local. *)
Definition json_index (j : json) (key : string) : outcome json :=
  match j with
  | JObject m => Ret (default JNull (m !! key))
  | JNull => Ret JNull
  | _ => Throw json_type_error
  end.

(** [j[key] = v]: assignment through [operator[]]. *)
Definition json_set (j : json) (key : string) (v : json) : outcome json :=
  match j with
  | JObject m => Ret (JObject (<[key := v]> m))
  | JNull => Ret (JObject {[key := v]})
  | _ => Throw json_type_error
  end.

(** [target.merge_patch(patch)] (RFC 7386): an object patch is applied key by
    key, a null member erases the key, any other member is merged recursively
    into [target[key]] (created as null when missing); a patch that is not an
    object replaces the target. *)
Fixpoint merge_patch (target patch : json) {struct patch} : json :=
  match patch with
  | JObject pm =>
      let tm := match target with JObject tm => tm | _ => ∅ end in
      JObject (map_fold (λ k p acc,
                 match p with
                 | JNull => delete k acc
                 | _ => <[k := merge_patch (default JNull (acc !! k)) p]> acc
                 end) tm pm)
  | _ => patch
  end.

(** ** What the platform and the libraries contribute *)

Module window.

(** [window::state]: the ten persisted fields. *)
Record state : Type := State {
  x : Z;
  y : Z;
  width : Z;
  height : Z;
  fullscreen : bool;
  floating : bool;
  resizable : bool;
  decorated : bool;
  maximized : bool;
  monitor : Z;
}.

Definition set_x (v : Z) (w : state) : state :=
  State v (y w) (width w) (height w) (fullscreen w) (floating w)
        (resizable w) (decorated w) (maximized w) (monitor w).
Definition set_y (v : Z) (w : state) : state :=
  State (x w) v (width w) (height w) (fullscreen w) (floating w)
        (resizable w) (decorated w) (maximized w) (monitor w).
Definition set_width (v : Z) (w : state) : state :=
  State (x w) (y w) v (height w) (fullscreen w) (floating w)
        (resizable w) (decorated w) (maximized w) (monitor w).
Definition set_height (v : Z) (w : state) : state :=
  State (x w) (y w) (width w) v (fullscreen w) (floating w)
        (resizable w) (decorated w) (maximized w) (monitor w).
Definition set_fullscreen (v : bool) (w : state) : state :=
  State (x w) (y w) (width w) (height w) v (floating w)
        (resizable w) (decorated w) (maximized w) (monitor w).
Definition set_floating (v : bool) (w : state) : state :=
  State (x w) (y w) (width w) (height w) (fullscreen w) v
        (resizable w) (decorated w) (maximized w) (monitor w).
Definition set_resizable (v : bool) (w : state) : state :=
  State (x w) (y w) (width w) (height w) (fullscreen w) (floating w)
        v (decorated w) (maximized w) (monitor w).
Definition set_decorated (v : bool) (w : state) : state :=
  State (x w) (y w) (width w) (height w) (fullscreen w) (floating w)
        (resizable w) v (maximized w) (monitor w).
Definition set_maximized (v : bool) (w : state) : state :=
  State (x w) (y w) (width w) (height w) (fullscreen w) (floating w)
        (resizable w) (decorated w) v (monitor w).
Definition set_monitor (v : Z) (w : state) : state :=
  State (x w) (y w) (width w) (height w) (fullscreen w) (floating w)
        (resizable w) (decorated w) (maximized w) v.

(** The integer fields hold C++ [int] values. *)
Definition valid (w : state) : Prop :=
  in_range i32 (x w) ∧ in_range i32 (y w) ∧ in_range i32 (width w) ∧
  in_range i32 (height w) ∧ in_range i32 (monitor w).

#[global] Instance state_eq_dec : EqDecision state.
Proof. solve_decision. Defined.

End window.

(** The parts of the C++ implementation, the JSON library and the command
    line library that the modelled files rely on without defining them:
    - the bytes of a file, with [json::parse] ([None]: [parse_error]) and
      [json::dump] (the argument is the indentation, [None] for the default);
    - numeric conversions that involve floating point;
    - the [index] typedef and the default-constructed [window::state];
    - stream extraction [stream >> value] from the text of a command line
      parameter ([None]: the stream fails before a value is stored, so the
      target keeps its value). *)
Class platform : Type := Platform {
  bytes : Type;
  json_parse : bytes → option json;
  json_dump : option nat → json → bytes;
  float_to_integral : integral → float → Z;
  integral_to_r32 : Z → float;
  double_to_r32 : float → float;
  index_type : integral;
  default_window_state : window.state;
  extract_bool : string → option bool;
  extract_index : string → option Z;
}.

(** [json::parse(dump(j))] gives [j] back. *)
Definition codec_round_trip `{platform} : Prop :=
  ∀ indent j, json_parse (json_dump indent j) = Some j.

(** ** Conversions [j.get<T>()] *)

(** [get<bool>()]: only a boolean converts. *)
Definition get_bool (j : json) : outcome bool :=
  match j with
  | JBool b => Ret b
  | _ => Throw json_type_error
  end.

(** [get<T>()] for an arithmetic type other than the library's own number
    types ([int], [unsigned], [float]): numbers and booleans convert by
    [static_cast]. *)
Definition get_integral `{platform} (t : integral) (j : json) : outcome Z :=
  match j with
  | JInt z => Ret (wrap t z)
  | JFloat f => Ret (float_to_integral t f)
  | JBool b => Ret (if b then 1 else 0)
  | _ => Throw json_type_error
  end.

(** [get<std::int64_t>()], the library's [number_integer_t]: numbers only. *)
Definition get_i64 `{platform} (j : json) : outcome Z :=
  match j with
  | JInt z => Ret (wrap i64 z)
  | JFloat f => Ret (float_to_integral i64 f)
  | _ => Throw json_type_error
  end.

(** [get<r32>()]. *)
Definition get_r32 `{platform} (j : json) : outcome float :=
  match j with
  | JInt z => Ret (integral_to_r32 z)
  | JFloat f => Ret (double_to_r32 f)
  | JBool b => Ret (if b then 1%float else 0%float)
  | _ => Throw json_type_error
  end.

Definition get_int `{platform} : json → outcome Z := get_integral i32.

(** ** State-and-exception monad *)

(** A computation over a mutable object of type [S]: the object survives an
    exception, as a C++ object passed by reference does. *)
Definition M (S A : Type) : Type := S → outcome A * S.

#[global] Instance M_ret {S} : MRet (M S) := λ A a s, (Ret a, s).
#[global] Instance M_bind {S} : MBind (M S) := λ A B k m s,
  match m s with
  | (Ret a, s') => k a s'
  | (Throw e, s') => (Throw e, s')
  end.

Definition get_state {S} : M S S := λ s, (Ret s, s).
Definition gets {S A} (f : S → A) : M S A := λ s, (Ret (f s), s).
Definition modify {S} (f : S → S) : M S () := λ s, (Ret (), f s).
Definition lift {S A} (o : outcome A) : M S A := λ s, (o, s).
Definition when {S} (c : bool) (m : M S ()) : M S () :=
  if c then m else mret ().

(** ** Key names *)

(** Modelled from the spec: the key constants [_x_] ... [_physical_device_]
    are declared in [liblava/app/def.hpp], which is not among the modelled
    files; the spec's external interface lists the field names of both
    persisted records. *)
Definition _x_ : string := "x".
Definition _y_ : string := "y".
Definition _width_ : string := "width".
Definition _height_ : string := "height".
Definition _fullscreen_ : string := "fullscreen".
Definition _floating_ : string := "floating".
Definition _resizable_ : string := "resizable".
Definition _decorated_ : string := "decorated".
Definition _maximized_ : string := "maximized".
Definition _monitor_ : string := "monitor".

Definition _paused_ : string := "paused".
Definition _speed_ : string := "speed".
Definition _auto_save_ : string := "auto_save".
Definition _save_interval_ : string := "save_interval".
Definition _auto_load_ : string := "auto_load".
Definition _fixed_delta_ : string := "fixed_delta".
Definition _delta_ : string := "delta".
Definition _gui_ : string := "gui".
Definition _v_sync_ : string := "v_sync".
Definition _physical_device_ : string := "physical_device".

Definition _window_file_ : string := "window.json".

(** ** [to_json] and [from_json] for [window::state] *)

Definition to_json (w : window.state) : json :=
  JObject (list_to_map
    [ (_x_, JInt (window.x w)); (_y_, JInt (window.y w));
      (_width_, JInt (window.width w)); (_height_, JInt (window.height w));
      (_fullscreen_, JBool (window.fullscreen w));
      (_floating_, JBool (window.floating w));
      (_resizable_, JBool (window.resizable w));
      (_decorated_, JBool (window.decorated w));
      (_maximized_, JBool (window.maximized w));
      (_monitor_, JInt (window.monitor w)) ]).

(** [j.at(key).get<int>()] and [j.at(key).get<bool>()]. *)
Definition at_int `{platform} (j : json) (key : string) : outcome Z :=
  v ← json_at j key; get_int v.
Definition at_bool (j : json) (key : string) : outcome bool :=
  v ← json_at j key; get_bool v.

Definition from_json `{platform} (j : json) : M window.state () :=
  when (nonzero (json_count j _x_))
    (v ← lift (at_int j _x_); modify (window.set_x v));;
  when (nonzero (json_count j _y_))
    (v ← lift (at_int j _y_); modify (window.set_y v));;
  when (nonzero (json_count j _width_))
    (v ← lift (at_int j _width_); modify (window.set_width v));;
  when (nonzero (json_count j _height_))
    (v ← lift (at_int j _height_); modify (window.set_height v));;
  when (nonzero (json_count j _fullscreen_))
    (v ← lift (at_bool j _fullscreen_); modify (window.set_fullscreen v));;
  when (nonzero (json_count j _floating_))
    (v ← lift (at_bool j _floating_); modify (window.set_floating v));;
  when (nonzero (json_count j _resizable_))
    (v ← lift (at_bool j _resizable_); modify (window.set_resizable v));;
  when (nonzero (json_count j _decorated_))
    (v ← lift (at_bool j _decorated_); modify (window.set_decorated v));;
  when (nonzero (json_count j _maximized_))
    (v ← lift (at_bool j _maximized_); modify (window.set_maximized v));;
  when (nonzero (json_count j _monitor_))
    (v ← lift (at_int j _monitor_); modify (window.set_monitor v)).

(** [state = j] for a [window::state]: the implicit conversion
    [j.get<window::state>()] default-constructs a state, runs [from_json] on
    it and returns it by value. *)
Definition get_window_state `{platform} (j : json) : outcome window.state :=
  match from_json j default_window_state with
  | (Ret _, w) => Ret w
  | (Throw e, _) => Throw e
  end.

(** ** Files *)

(** The file system: the contents of the files that exist, by name. *)
Abbreviation file_system := (gmap string bytes).

(** What the file layer answers during one operation on one file. The
    [file] class and [scope_data] are not part of the modelled files; every
    call that can fail there is an answer of this record:
    - [open_read_ok]: an existing file opens for reading
      ([file(name).opened()]);
    - [alloc_ok]: [target.set(size)] leaves a non-null [target.ptr];
    - [read_ok]: [file.read(ptr)] reports no [file_error];
    - [open_write_ok]: the file opens for writing ([file(name, true)]);
    - [written data]: what the file holds after [file.write(data, size)],
      whose result the callers do not check ([data] itself when the write
      succeeds). *)
Record io `{platform} : Type := IO {
  open_read_ok : bool;
  alloc_ok : bool;
  read_ok : bool;
  open_write_ok : bool;
  written : bytes → bytes;
}.
Arguments IO {_} _ _ _ _ _.

(** The file can be read entirely. *)
Definition reads `{platform} (o : io) : Prop :=
  open_read_ok o = true ∧ alloc_ok o = true ∧ read_ok o = true.

(** The file can be opened for writing and the write is complete. *)
Definition writes `{platform} (o : io) : Prop :=
  open_write_ok o = true ∧ ∀ data, written o data = data.

(** [file_system::exists(name)]. *)
Definition file_exists `{platform} (fs : file_system) (name : string) : bool :=
  bool_decide (is_Some (fs !! name)).

(** [file(name).opened()] for reading. *)
Definition opened_for_read `{platform}
    (o : io) (fs : file_system) (name : string) : bool :=
  file_exists fs name && open_read_ok o.

(** What [std::ifstream] does with a name that holds no regular file: on
    some platforms a directory opens, and [tellg] then has no position to
    give. *)
Class streams : Type := Streams {
  opens_without_size : string → bool;
}.

(** [read_file(out, filename)]: [Ret None] is the [false] result, [Ret (Some
    data)] the [true] result with [out] filled. The [assert] is compiled in
    unless [ndebug] holds. A regular file opens if the file layer lets it,
    and [tellg] at its end gives its size: [out] is resized to it and read
    (an empty file leaves [out] cleared). A name that opens without being a
    regular file has no size: [tellg] gives -1, [to_size_t] makes the
    largest [size_t] of it, and [out.resize] raises. *)
Definition read_file `{platform} `{streams} (ndebug : bool)
    (o : io) (fs : file_system) (filename : string) : outcome (option bytes) :=
  let regular := fs !! filename in
  let is_open :=
    match regular with
    | Some _ => open_read_ok o
    | None => opens_without_size filename
    end in
  if negb ndebug && negb is_open then Throw assertion_failed
  else if negb is_open then Ret None
  else
    match regular with
    | Some data => Ret (Some data)
    | None => Throw std_length_error
    end.

(** [write_file(filename, data, data_size)]: the result and the file system
    afterwards. *)
Definition write_file `{platform} (ndebug : bool) (o : io) (filename : string)
    (data : bytes) : M file_system bool :=
  let is_open := open_write_ok o in
  if negb ndebug && negb is_open then lift (Throw assertion_failed)
  else if negb is_open then mret false
  else modify (<[filename := written o data]>);; mret true.

(** [load_file_data(filename, target)]: [None] is the [false] result, [Some
    data] the [true] result with [target] filled. *)
Definition load_file_data `{platform}
    (o : io) (fs : file_system) (filename : string) : option bytes :=
  if negb (opened_for_read o fs filename) then None
  else if negb (alloc_ok o) then None
  else if negb (read_ok o) then None
  else fs !! filename.

(** [json::parse(data.ptr, data.ptr + data.size)]. *)
Definition parse `{platform} (data : bytes) : outcome json :=
  match json_parse data with
  | Some j => Ret j
  | None => Throw json_parse_error
  end.

(** ** The window file *)

Definition window_file `{platform} (fs : file_system) : bool :=
  file_exists fs _window_file_.

Definition load_window_file `{platform} (o : io) (fs : file_system)
    (save_name : string) : M window.state bool :=
  match load_file_data o fs _window_file_ with
  | None => mret false
  | Some data =>
      j ← lift (parse data);
      if negb (nonzero (json_count j save_name)) then mret false
      else
        v ← lift (json_index j save_name);
        w ← lift (get_window_state v);
        modify (λ _, w);;
        mret true
  end.

(** The result is the [window::state::optional]. *)
Definition load_window_state `{platform} (o : io) (fs : file_system)
    (save_name : string) : outcome (option window.state) :=
  if negb (window_file fs) then Ret None
  else
    match load_window_file o fs save_name default_window_state with
    | (Ret true, window_state) => Ret (Some window_state)
    | (Ret false, _) => Ret None
    | (Throw e, _) => Throw e
    end.

(** What [save_window_file] asks of the window: [window.get_state()] and
    [window.get_save_name()]. *)
Record window_ref : Type := WindowRef {
  get_window_state_of : window.state;
  get_save_name : string;
}.

Definition save_window_file `{platform} (o : io) (window : window_ref)
    : M file_system () :=
  let state := get_window_state_of window in
  let index := get_save_name window in
  fs ← get_state;
  j ← match load_file_data o fs _window_file_ with
      | Some data =>
          j ← lift (parse data);
          d ← lift (json_set JNull index (to_json state));
          mret (merge_patch j d)
      | None => lift (json_set JNull index (to_json state))
      end;
  if negb (open_write_ok o) then mret ()
  else modify (<[_window_file_ := written o (json_dump (Some 4%nat) j)]>).

(** ** The application object *)

(** The members of [app::config] that the modelled code reads or writes. *)
Record app_config : Type := AppConfig {
  v_sync : bool;
  physical_device : Z;
  save_window : bool;
  auto_save : bool;
  save_interval : Z;
  auto_load : bool;
  handle_key_events : bool;
}.

(** The members of [run_time] that the modelled code reads or writes
    ([save_interval] above is in seconds, [fix_delta] in milliseconds). *)
Record run_time_config : Type := RunTime {
  paused : bool;
  speed : float;
  use_fix_delta : bool;
  fix_delta : Z;
}.

(** Calls into the collaborators, in the order they happen. *)
Inductive event : Type :=
  | ev_shut_down
  | ev_wait_for_idle
  | ev_on_destroy
  | ev_plotter_destroy
  | ev_shading_destroy
  | ev_target_destroy
  | ev_gui_destroy
  | ev_fonts_destroy
  | ev_save_window_file
  | ev_load_window_state
  | ev_switch_mode (window_state : option window.state)
  | ev_set_window_icon
  | ev_create_target (v_sync : bool)
  | ev_shading_create
  | ev_plotter_create
  | ev_window_assign_input
  | ev_on_create
  | ev_setup_font
  | ev_gui_setup
  | ev_gui_create
  | ev_pass_add_gui_pipeline
  | ev_upload_fonts
  | ev_staging_add_fonts
  | ev_block_create
  | ev_block_add_cmd
  | ev_block_destroy
  | ev_camera_update_projection
  | ev_window_handle_resize
  | ev_sleep
  | ev_begin_frame
  | ev_block_process (frame_index : Z)
  | ev_end_frame
  | ev_file_system_initialize
  | ev_mount_res
  | ev_config_file_load
  | ev_window_create (window_state : option window.state)
  | ev_create_device (physical_device : Z)
  | ev_camera_create
  | ev_camera_stop
  | ev_camera_handle
  | ev_window_set_fullscreen (value : bool)
  | ev_camera_destroy
  | ev_window_destroy
  | ev_config_file_save
  | ev_file_system_terminate
  | ev_input_add_gui
  | ev_add_listener (input : string)
  | ev_add_run (step : string)
  | ev_add_run_end (step : string)
  | ev_add_run_once.

#[global] Instance event_eq_dec : EqDecision event.
Proof. solve_decision. Defined.

(** The application object: the members of [app] that the modelled code
    reads or writes, the file system, and the trace of collaborator calls.
    [window_save_name] is [window.get_save_name()], [cmd_line] the parsed
    [name=value] parameters of the command line, [config_file_path] the
    path of [config_file]. *)
Record app `{platform} : Type := App {
  config : app_config;
  run_time : run_time_config;
  gui_active : bool;
  toggle_v_sync : bool;
  frame_counter : Z;
  device : bool;
  window_save_name : string;
  cmd_line : gmap string string;
  config_file_path : string;
  files : file_system;
  trace : list event;
}.
Arguments App {_} _ _ _ _ _ _ _ _ _ _ _.

Definition set_config `{platform} (f : app_config → app_config) (a : app) : app :=
  App (f (config a)) (run_time a) (gui_active a) (toggle_v_sync a)
      (frame_counter a) (device a) (window_save_name a) (cmd_line a)
      (config_file_path a) (files a) (trace a).
Definition set_run_time `{platform}
    (f : run_time_config → run_time_config) (a : app) : app :=
  App (config a) (f (run_time a)) (gui_active a) (toggle_v_sync a)
      (frame_counter a) (device a) (window_save_name a) (cmd_line a)
      (config_file_path a) (files a) (trace a).
Definition set_gui_active `{platform} (v : bool) (a : app) : app :=
  App (config a) (run_time a) v (toggle_v_sync a)
      (frame_counter a) (device a) (window_save_name a) (cmd_line a)
      (config_file_path a) (files a) (trace a).
Definition set_toggle_v_sync `{platform} (v : bool) (a : app) : app :=
  App (config a) (run_time a) (gui_active a) v
      (frame_counter a) (device a) (window_save_name a) (cmd_line a)
      (config_file_path a) (files a) (trace a).
Definition set_frame_counter `{platform} (v : Z) (a : app) : app :=
  App (config a) (run_time a) (gui_active a) (toggle_v_sync a)
      v (device a) (window_save_name a) (cmd_line a)
      (config_file_path a) (files a) (trace a).
Definition set_device `{platform} (v : bool) (a : app) : app :=
  App (config a) (run_time a) (gui_active a) (toggle_v_sync a)
      (frame_counter a) v (window_save_name a) (cmd_line a)
      (config_file_path a) (files a) (trace a).
Definition set_files `{platform} (v : file_system) (a : app) : app :=
  App (config a) (run_time a) (gui_active a) (toggle_v_sync a)
      (frame_counter a) (device a) (window_save_name a) (cmd_line a)
      (config_file_path a) v (trace a).
Definition set_trace `{platform} (v : list event) (a : app) : app :=
  App (config a) (run_time a) (gui_active a) (toggle_v_sync a)
      (frame_counter a) (device a) (window_save_name a) (cmd_line a)
      (config_file_path a) (files a) v.

Definition set_v_sync (v : bool) (c : app_config) : app_config :=
  AppConfig v (physical_device c) (save_window c) (auto_save c)
            (save_interval c) (auto_load c) (handle_key_events c).
Definition set_physical_device (v : Z) (c : app_config) : app_config :=
  AppConfig (v_sync c) v (save_window c) (auto_save c)
            (save_interval c) (auto_load c) (handle_key_events c).
Definition set_auto_save (v : bool) (c : app_config) : app_config :=
  AppConfig (v_sync c) (physical_device c) (save_window c) v
            (save_interval c) (auto_load c) (handle_key_events c).
Definition set_save_interval (v : Z) (c : app_config) : app_config :=
  AppConfig (v_sync c) (physical_device c) (save_window c) (auto_save c)
            v (auto_load c) (handle_key_events c).
Definition set_auto_load (v : bool) (c : app_config) : app_config :=
  AppConfig (v_sync c) (physical_device c) (save_window c) (auto_save c)
            (save_interval c) v (handle_key_events c).

Definition set_paused (v : bool) (r : run_time_config) : run_time_config :=
  RunTime v (speed r) (use_fix_delta r) (fix_delta r).
Definition set_speed (v : float) (r : run_time_config) : run_time_config :=
  RunTime (paused r) v (use_fix_delta r) (fix_delta r).
Definition set_use_fix_delta (v : bool) (r : run_time_config) : run_time_config :=
  RunTime (paused r) (speed r) v (fix_delta r).
Definition set_fix_delta (v : Z) (r : run_time_config) : run_time_config :=
  RunTime (paused r) (speed r) (use_fix_delta r) v.

(** One more collaborator call. *)
Definition emit `{platform} (e : event) : M app () :=
  modify (λ a, set_trace (trace a ++ [e]) a).

(** A file operation run on the application's file system. *)
Definition on_files `{platform} {A} (m : M file_system A) : M app A := λ a,
  match m (files a) with
  | (r, fs) => (r, set_files fs a)
  end.

(** [if (!step) return false; rest]. *)
Definition and_then {S} (step rest : M S bool) : M S bool :=
  step ≫= λ ok : bool, if ok then rest else mret false.
Infix "&>" := and_then (at level 65, right associativity).

(** What the collaborators answer during one step ([setup], or one run of a
    registered step within a tick). The window and target requests are read
    from the platform; each fallible call has one answer; [on_create] is
    [None] when no callback is installed and [Some b] when the installed
    callback returns [b]. *)
Record oracle `{platform} : Type := Oracle {
  close_request : bool;
  switch_mode_request : bool;
  reload_request : bool;
  resize_request : bool;
  iconified : bool;
  window_fullscreen : bool;
  window_get_state : window.state;
  gui_capture_keyboard : bool;
  camera_activated : bool;
  camera_handle_result : bool;
  has_on_destroy : bool;
  on_create : option bool;
  shut_down_result : bool;
  switch_mode_ok : bool;
  create_target_ok : bool;
  shading_create_ok : bool;
  plotter_create_ok : bool;
  gui_create_ok : bool;
  upload_fonts_ok : bool;
  handle_resize_ok : bool;
  begin_frame : option Z;
  block_process_ok : bool;
  end_frame_ok : bool;
  frame_ready : bool;
  file_system_initialize_ok : bool;
  window_create_ok : bool;
  create_device_ok : bool;
  camera_create_ok : bool;
  block_create_ok : bool;
  config_io : io;
  save_io : io;
  load_io : io;
}.
Arguments Oracle {_} _ _ _ _ _ _ _ _ _ _ _ _ _ _ _ _ _ _ _ _ _ _ _ _ _ _ _ _ _ _ _ _.

(** [shut_down()] of the frame. *)
Definition shut_down `{platform} (p : oracle) : M app bool :=
  emit ev_shut_down;; mret (shut_down_result p).

(** *** The config file *)

(** The [on_load] callback installed by [app::handle_config]. *)
Definition on_load `{platform} (j : json) : M app () :=
  when (nonzero (json_count j _paused_))
    (v ← lift (json_index j _paused_ ≫= get_bool);
     modify (set_run_time (set_paused v)));;
  when (nonzero (json_count j _speed_))
    (v ← lift (json_index j _speed_ ≫= get_r32);
     modify (set_run_time (set_speed v)));;
  when (nonzero (json_count j _auto_save_))
    (v ← lift (json_index j _auto_save_ ≫= get_bool);
     modify (set_config (set_auto_save v)));;
  when (nonzero (json_count j _save_interval_))
    (v ← lift (json_index j _save_interval_ ≫= get_i64);
     modify (set_config (set_save_interval v)));;
  when (nonzero (json_count j _auto_load_))
    (v ← lift (json_index j _auto_load_ ≫= get_bool);
     modify (set_config (set_auto_load v)));;
  when (nonzero (json_count j _fixed_delta_))
    (v ← lift (json_index j _fixed_delta_ ≫= get_bool);
     modify (set_run_time (set_use_fix_delta v)));;
  when (nonzero (json_count j _delta_))
    (v ← lift (json_index j _delta_ ≫= get_i64);
     modify (set_run_time (set_fix_delta v)));;
  when (nonzero (json_count j _gui_))
    (v ← lift (json_index j _gui_ ≫= get_bool);
     modify (set_gui_active v));;
  when (nonzero (json_count j _v_sync_))
    (v ← lift (json_index j _v_sync_ ≫= get_bool);
     modify (set_config (set_v_sync v)));;
  when (nonzero (json_count j _physical_device_))
    (v ← lift (json_index j _physical_device_ ≫= get_integral index_type);
     modify (set_config (set_physical_device v))).

(** The [on_save] callback installed by [app::handle_config]: the document
    after the ten assignments. *)
Definition on_save `{platform} (a : app) (j : json) : outcome json :=
  j ← json_set j _paused_ (JBool (paused (run_time a)));
  j ← json_set j _speed_ (JFloat (speed (run_time a)));
  j ← json_set j _auto_save_ (JBool (auto_save (config a)));
  j ← json_set j _save_interval_ (JInt (save_interval (config a)));
  j ← json_set j _auto_load_ (JBool (auto_load (config a)));
  j ← json_set j _fixed_delta_ (JBool (use_fix_delta (run_time a)));
  j ← json_set j _delta_ (JInt (fix_delta (run_time a)));
  j ← json_set j _gui_ (JBool (gui_active a));
  j ← json_set j _v_sync_ (JBool (v_sync (config a)));
  json_set j _physical_device_ (JInt (physical_device (config a))).

(** Modelled from the spec: [json_file::load] (the class of [config_file])
    is not among the modelled files. The spec's error handling design has a
    file that cannot be read reported and the values in memory kept; a file
    that is read is parsed and handed to the registered [on_load]. *)
Definition json_file_load `{platform} (o : io) (path : string)
    (callback : json → M app ()) : M app bool :=
  fs ← gets files;
  match load_file_data o fs path with
  | None => mret false
  | Some data =>
      j ← lift (parse data);
      callback j;;
      mret true
  end.

(** Modelled from the spec: [json_file::save] is not among the modelled
    files. The spec's data model has the run-time/config record merged
    non-destructively into any existing persisted document: the registered
    [on_save] assigns its keys in the document found on disk (a null document
    when none is found), and a file that cannot be opened for writing is
    reported by the result. *)
Definition json_file_save `{platform} (o : io) (path : string)
    (callback : app → json → outcome json) : M app bool :=
  a ← get_state;
  j ← match load_file_data o (files a) path with
      | Some data => lift (parse data)
      | None => mret JNull
      end;
  j ← lift (callback a j);
  if negb (open_write_ok o) then mret false
  else
    on_files (modify (<[path := written o (json_dump (Some 4%nat) j)]>));;
    mret true.

(** [app::handle_config]: installs the callbacks and calls
    [config_file.load()], whose result is not looked at. *)
Definition handle_config `{platform} (p : oracle) : M app () :=
  emit ev_config_file_load;;
  path ← gets config_file_path;
  json_file_load (config_io p) path on_load;;
  mret ().

(** *** Command line *)

(** The command line library strips the leading dashes of a name. *)
Fixpoint trim_leading_dashes (name : string) : string :=
  match name with
  | String "-"%char rest => trim_leading_dashes rest
  | _ => name
  end.

(** [cmd_line({ name1, name2 })]: the text of the first name that is a
    parameter of the command line, [None] (a stream in the failed state) when
    none is. *)
Fixpoint cmd_line_stream (params : gmap string string) (names : list string)
    : option string :=
  match names with
  | [] => None
  | name :: names =>
      match params !! trim_leading_dashes name with
      | Some text => Some text
      | None => cmd_line_stream params names
      end
  end.

(** [stream >> value]: the value afterwards. *)
Definition extract {A} (stream : option string) (extractor : string → option A)
    (value : A) : A :=
  match stream with
  | Some text => default value (extractor text)
  | None => value
  end.

(** *** Building and tearing down *)

Definition set_window_icon `{platform} : M app () := emit ev_set_window_icon.

Definition create_block `{platform} (p : oracle) : M app bool :=
  emit ev_block_create;;
  if negb (block_create_ok p) then mret false
  else emit ev_block_add_cmd;; mret true.

(** [app::create_gui]. The choice of the font file and the ini directory,
    which no collaborator call depends on here, are part of [ev_setup_font]
    and [ev_gui_setup]. *)
Definition create_gui `{platform} (p : oracle) : M app bool :=
  emit ev_setup_font;;
  emit ev_gui_setup;;
  emit ev_gui_create;;
  if negb (gui_create_ok p) then mret false
  else
    emit ev_pass_add_gui_pipeline;;
    emit ev_upload_fonts;;
    if negb (upload_fonts_ok p) then mret false
    else emit ev_staging_add_fonts;; mret true.

Definition destroy_gui `{platform} : M app () :=
  emit ev_gui_destroy;;
  emit ev_fonts_destroy.

Definition create_target `{platform} (p : oracle) : M app bool :=
  c ← gets config;
  emit (ev_create_target (v_sync c));;
  if negb (create_target_ok p) then mret false
  else
    emit ev_shading_create;;
    if negb (shading_create_ok p) then mret false
    else
      emit ev_plotter_create;;
      if negb (plotter_create_ok p) then mret false
      else
        emit ev_window_assign_input;;
        match on_create p with
        | Some result => emit ev_on_create;; mret result
        | None => mret true
        end.

Definition destroy_target `{platform} (p : oracle) : M app () :=
  when (has_on_destroy p) (emit ev_on_destroy);;
  emit ev_plotter_destroy;;
  emit ev_shading_destroy;;
  emit ev_target_destroy.

(** [save_window_file(window)] and [load_window_state(window.get_save_name())]
    as the application calls them. *)
Definition app_save_window_file `{platform} (p : oracle) : M app () :=
  emit ev_save_window_file;;
  name ← gets window_save_name;
  on_files (save_window_file (save_io p) (WindowRef (window_get_state p) name)).

Definition app_load_window_state `{platform} (p : oracle)
    : M app (option window.state) :=
  emit ev_load_window_state;;
  a ← get_state;
  lift (load_window_state (load_io p) (files a) (window_save_name a)).

(** *** Input *)

(** A key event, as the listener sees it: what [event.pressed(key)] and
    [event.pressed(key, mod)] answer for the keys it asks about (the event
    type is declared in the input header). *)
Record key_event : Type := KeyEvent {
  pressed_tab : bool;
  pressed_escape : bool;
  pressed_enter_alt : bool;
  pressed_backspace_alt : bool;
  pressed_space : bool;
}.

(** The key listener installed by [app::handle_input]. *)
Definition key_listener `{platform} (p : oracle) (e : key_event) : M app bool :=
  if gui_capture_keyboard p then emit ev_camera_stop;; mret false
  else
    c ← gets config;
    let rest : M app bool :=
      if camera_activated p
      then emit ev_camera_handle;; mret (camera_handle_result p)
      else mret false in
    if handle_key_events c then
      when (pressed_tab e)
        (g ← gets gui_active; modify (set_gui_active (negb g)));;
      if pressed_escape e then shut_down p
      else if pressed_enter_alt e then
        emit (ev_window_set_fullscreen (negb (window_fullscreen p)));;
        mret true
      else if pressed_backspace_alt e then
        modify (set_toggle_v_sync true);;
        mret true
      else
        when (pressed_space e)
          (modify (set_run_time (λ r, set_paused (negb (paused r)) r)));;
        rest
    else rest.

(** [app::handle_input]: registrations only. *)
Definition handle_input `{platform} : M app () :=
  emit ev_input_add_gui;;
  emit (ev_add_listener "key");;
  emit (ev_add_listener "mouse_button");;
  emit (ev_add_listener "scroll");;
  emit (ev_add_run "input");;
  emit (ev_add_run_end "input").

(** *** The registered steps *)

(** The step registered by [app::handle_window]. *)
Definition handle_window_run `{platform} (p : oracle) : M app bool :=
  if close_request p then shut_down p
  else
    toggle ← gets toggle_v_sync;
    if switch_mode_request p || toggle || reload_request p then
      emit ev_wait_for_idle;;
      destroy_target p;;
      destroy_gui;;
      (if switch_mode_request p then
         c ← gets config;
         when (save_window c) (app_save_window_file p);;
         window_state ← app_load_window_state p;
         let window_state :=
           window.set_fullscreen (negb (window_fullscreen p)) <$> window_state in
         emit (ev_switch_mode window_state);;
         if negb (switch_mode_ok p) then mret false
         else set_window_icon;; mret true
       else mret true) &>
      (toggle ← gets toggle_v_sync;
       when toggle
         (modify (set_config (λ c, set_v_sync (negb (v_sync c)) c));;
          modify (set_toggle_v_sync false));;
       create_target p &>
       create_gui p)
    else if resize_request p then
      emit ev_camera_update_projection;;
      emit ev_window_handle_resize;;
      mret (handle_resize_ok p)
    else mret true.

Definition handle_window `{platform} : M app () := emit (ev_add_run "window").

(** [app::update]: the registration; the step itself, which advances the
    clocks of [run_time], is [update_run]. *)
Definition update `{platform} : M app () := emit (ev_add_run "update").

(** The step registered by [app::render]. The counter is incremented on [Z];
    its C++ type is declared in the application header. *)
Definition render_run `{platform} (p : oracle) : M app bool :=
  if iconified p then emit ev_sleep;; mret true
  else
    emit ev_begin_frame;;
    match begin_frame p with
    | None => mret true
    | Some frame_index =>
        modify (λ a, set_frame_counter (frame_counter a + 1) a);;
        emit (ev_block_process frame_index);;
        if negb (block_process_ok p) then mret false
        else emit ev_end_frame;; mret (end_frame_ok p)
    end.

Definition render `{platform} : M app () := emit (ev_add_run "render").

(** The teardown registered by [app::setup] for the end of the run. *)
Definition run_end `{platform} (p : oracle) : M app () :=
  emit ev_camera_destroy;;
  destroy_gui;;
  emit ev_block_destroy;;
  destroy_target p;;
  c ← gets config;
  when (save_window c) (app_save_window_file p);;
  emit ev_window_destroy;;
  emit ev_config_file_save;;
  path ← gets config_file_path;
  json_file_save (config_io p) path on_save;;
  emit ev_file_system_terminate.

(** [app::setup]. *)
Definition setup `{platform} (p : oracle) : M app bool :=
  if negb (frame_ready p) then mret false
  else
    emit ev_file_system_initialize;;
    if negb (file_system_initialize_ok p) then mret false
    else
      emit ev_mount_res;;
      handle_config p;;
      params ← gets cmd_line;
      modify (set_config (λ c,
        set_v_sync
          (extract (cmd_line_stream params ["-vs"; "--v_sync"])
                   extract_bool (v_sync c)) c));;
      modify (set_config (λ c,
        set_physical_device
          (extract (cmd_line_stream params ["-pd"; "--physical_device"])
                   extract_index (physical_device c)) c));;
      window_state ← app_load_window_state p;
      emit (ev_window_create window_state);;
      if negb (window_create_ok p) then mret false
      else
        set_window_icon;;
        (has_device ← gets device;
         if negb has_device then
           c ← gets config;
           emit (ev_create_device (physical_device c));;
           modify (set_device (create_device_ok p));;
           mret (create_device_ok p)
         else mret true) &>
        create_target p &>
        (emit ev_camera_create;; mret (camera_create_ok p)) &>
        create_gui p &>
        create_block p &>
        (handle_input;;
         handle_window;;
         update;;
         render;;
         emit (ev_add_run_end "app");;
         emit ev_add_run_once;;
         modify (set_frame_counter 0);;
         mret true).

(** [n] runs of the window step in a row, with no key event in between: the
    application object afterwards, and how often [config.v_sync] changed. *)
Fixpoint run_window_steps `{platform} (ps : list oracle) (a : app) : app :=
  match ps with
  | [] => a
  | p :: ps => run_window_steps ps (handle_window_run p a).2
  end.

Fixpoint v_sync_inversions `{platform} (ps : list oracle) (a : app) : nat :=
  match ps with
  | [] => 0%nat
  | p :: ps =>
      let a' := (handle_window_run p a).2 in
      ((if bool_decide (v_sync (config a') = v_sync (config a))
        then 0 else 1) + v_sync_inversions ps a')%nat
  end.

(** ** File names ([file_utils.cpp]) *)

(** [std::string::npos] and [size_t] addition. *)
Definition npos : Z := 2 ^ 64 - 1.
Definition size_t_add (a b : Z) : Z := (a + b) mod 2 ^ 64.

(** The index of the last occurrence of [c], if any. *)
Fixpoint last_index (s : string) (c : ascii) : option nat :=
  match s with
  | EmptyString => None
  | String a rest =>
      match last_index rest c with
      | Some i => Some (S i)
      | None => if Ascii.eqb a c then Some 0%nat else None
      end
  end.

(** [s.find_last_of(c)]. *)
Definition find_last_of (s : string) (c : ascii) : Z :=
  match last_index s c with
  | Some i => Z.of_nat i
  | None => npos
  end.

Fixpoint drop_chars (n : nat) (s : string) : string :=
  match n, s with
  | S n, String _ rest => drop_chars n rest
  | _, _ => s
  end.

(** [s.substr(pos)]: the rest of the string from [pos], [std::out_of_range]
    when [pos] is past the end. *)
Definition substr (s : string) (pos : Z) : outcome string :=
  if Z.of_nat (String.length s) <? pos then Throw std_out_of_range
  else Ret (drop_chars (Z.to_nat pos) s).

(** [::tolower] in the C locale: the letters [A]-[Z] move to [a]-[z]. *)
Definition is_upper (c : ascii) : bool :=
  let n := N_of_ascii c in (65 <=? n)%N && (n <=? 90)%N.
Definition tolower (c : ascii) : ascii :=
  if is_upper c then ascii_of_N (N_of_ascii c + 32) else c.

(** [std::transform(s.begin(), s.end(), s.begin(), ::tolower)]. *)
Fixpoint transform_tolower (s : string) : string :=
  match s with
  | EmptyString => EmptyString
  | String a rest => String (tolower a) (transform_tolower rest)
  end.

(** [extension(file_name, extension)]. *)
Definition extension (file_name extension : string) : outcome bool :=
  let fn := file_name in
  let ext := extension in
  to_check ← substr fn (size_t_add (find_last_of fn ".") 1);
  let to_check := transform_tolower to_check in
  let ext := transform_tolower ext in
  Ret (bool_decide (to_check = ext)).

(** [extension(filename, extensions)]. *)
Fixpoint extension_of (filename : string) (extensions : list string)
    : outcome bool :=
  match extensions with
  | [] => Ret false
  | ex :: extensions =>
      extension filename ex ≫= λ found : bool,
        if found then Ret true else extension_of filename extensions
  end.

(** The specification's words for what [extension] decides: [t] is the part
    of [file_name] after its last dot, the whole name when it has no dot
    ... *)
Definition has_dot (s : string) : Prop :=
  ∃ pre post, s = (pre ++ String "." post)%string.

Definition after_last_dot (file_name t : string) : Prop :=
  (∃ pre, file_name = (pre ++ String "." t)%string ∧ ¬ has_dot t) ∨
  (¬ has_dot file_name ∧ t = file_name).

(** ... and two strings are equal up to the case of their letters. *)
Definition lower_of (u : ascii) : ascii := ascii_of_N (N_of_ascii u + 32).

Definition same_letter (a b : ascii) : Prop :=
  a = b ∨ (is_upper a = true ∧ b = lower_of a) ∨
          (is_upper b = true ∧ a = lower_of b).

Fixpoint equal_ignoring_case (s t : string) : Prop :=
  match s, t with
  | EmptyString, EmptyString => True
  | String a s, String b t => same_letter a b ∧ equal_ignoring_case s t
  | _, _ => False
  end.

(** ** Pipelines ([pipeline.hpp]) *)

Module pipeline.

(** The members of [pipeline] with a default member initializer; a handle
    is [None] when it is [nullptr]. *)
Record t : Type := Make {
  dev : option Z;
  _pipeline : option Z;
  pipeline_cache : option Z;
  active : bool;
  auto_bind : bool;
}.

(** [pipeline(device, pipeline_cache)]: the constructor stores its arguments;
    every other member keeps its default member initializer. *)
Definition make (device pipeline_cache : option Z) : t :=
  Make device None pipeline_cache true false.

Definition set_active (value : bool) (p : t) : t :=
  Make (dev p) (_pipeline p) (pipeline_cache p) value (auto_bind p).
Definition is_active (p : t) : bool := active p.
Definition toggle (p : t) : t :=
  Make (dev p) (_pipeline p) (pipeline_cache p) (negb (active p)) (auto_bind p).
Definition set_auto_bind (value : bool) (p : t) : t :=
  Make (dev p) (_pipeline p) (pipeline_cache p) (active p) value.
Definition is_auto_bind (p : t) : bool := auto_bind p.
Definition is_ready (p : t) : bool :=
  match _pipeline p with Some _ => true | None => false end.

End pipeline.

Module graphics_pipeline.

Inductive size_type : Type := input | absolute | relative.

(** The base object and the members of [graphics_pipeline] with a default
    member initializer. *)
Record t : Type := Make {
  base : pipeline.t;
  render_pass : option Z;
  _size_type : size_type;
  auto_size : bool;
  auto_line_width : bool;
  line_width : float;
}.

Definition make (device pipeline_cache : option Z) : t :=
  Make (pipeline.make device pipeline_cache) None input true false 1%float.

Definition is_ready (p : t) : bool := pipeline.is_ready (base p).
Definition is_active (p : t) : bool := pipeline.is_active (base p).
Definition is_auto_bind (p : t) : bool := pipeline.is_auto_bind (base p).
Definition toggle (p : t) : t :=
  Make (pipeline.toggle (base p)) (render_pass p) (_size_type p)
       (auto_size p) (auto_line_width p) (line_width p).
Definition get_size_type (p : t) : size_type := _size_type p.
Definition is_auto_size (p : t) : bool := auto_size p.
Definition is_auto_line_width (p : t) : bool := auto_line_width p.
Definition get_line_width (p : t) : float := line_width p.

End graphics_pipeline.

(** ** Reading a document *)

(** The members of an object; no members for any other kind of value. *)
Definition object_map (j : json) : gmap string json :=
  match j with
  | JObject m => m
  | _ => ∅
  end.

(** The value a load finds under [key], if the document has the key. *)
Definition member (j : json) (key : string) : option json := object_map j !! key.

(** A field loaded through the conversion [get]: when the document has the
    key, the new value is the converted member; when it has not, the new
    value is the old one. *)
Definition loaded {A} (get : json → outcome A) (j : json) (key : string)
    (old new : A) : Prop :=
  match member j key with
  | Some v => get v = Ret new
  | None => new = old
  end.

(** The member under [key], when there is one, converts. *)
Definition converts {A} (get : json → outcome A) (j : json) (key : string)
    : Prop :=
  match member j key with
  | Some v => returns (get v)
  | None => True
  end.

(** Every window-state field present in the document holds a value of a kind
    that converts to the field's type. *)
Definition window_document `{platform} (j : json) : Prop :=
  converts get_int j _x_ ∧ converts get_int j _y_ ∧
  converts get_int j _width_ ∧ converts get_int j _height_ ∧
  converts get_bool j _fullscreen_ ∧ converts get_bool j _floating_ ∧
  converts get_bool j _resizable_ ∧ converts get_bool j _decorated_ ∧
  converts get_bool j _maximized_ ∧ converts get_int j _monitor_.

(** The same for the run-time/config record. *)
Definition config_document `{platform} (j : json) : Prop :=
  converts get_bool j _paused_ ∧ converts get_r32 j _speed_ ∧
  converts get_bool j _auto_save_ ∧ converts get_i64 j _save_interval_ ∧
  converts get_bool j _auto_load_ ∧ converts get_bool j _fixed_delta_ ∧
  converts get_i64 j _delta_ ∧ converts get_bool j _gui_ ∧
  converts get_bool j _v_sync_ ∧
  converts (get_integral index_type) j _physical_device_.

(** What one guarded assignment of a load does to the record: the member
    under [key], converted, is stored by [set]; without the member (or
    without a conversion) the record stays as it is. *)
Definition field_update {S A} (get : json → outcome A) (set : A → S → S)
    (j : json) (key : string) (s : S) : S :=
  match member j key with
  | Some v =>
      match get v with
      | Ret x => set x s
      | Throw _ => s
      end
  | None => s
  end.

(** ** A reference platform *)

(** A platform on which the definitions above run: a file holds a document
    ([Some j]) or bytes that do not parse ([None]), floating-point
    conversions truncate towards zero and round to binary32, [index] is
    [ui32], a default-constructed window state is all zero with [resizable]
    and [decorated] set, and stream extraction reads the number a text
    begins with. *)
Definition float_trunc (f : float) : Z :=
  match Prim2SF f with
  | S754_finite s m e =>
      cond_Zopp s (if 0 <=? e then Z.pos m * 2 ^ e else Z.pos m / 2 ^ (- e))
  | _ => 0
  end.

Definition round_to_r32 (f : float) : float :=
  match Prim2SF f with
  | S754_finite s m e =>
      SF2Prim (binary_normalize 24 128 (cond_Zopp s (Z.pos m)) e s)
  | _ => f
  end.

Definition digit (c : ascii) : option Z :=
  let n := Z.of_N (N_of_ascii c) in
  if (48 <=? n) && (n <=? 57) then Some (n - 48) else None.

(** The digits a text begins with, read as a decimal number; [acc] when it
    begins with no digit ([None] at the start: no digit was read). *)
Fixpoint leading_digits (acc : option Z) (s : string) : option Z :=
  match s with
  | EmptyString => acc
  | String c rest =>
      match digit c with
      | Some d => leading_digits (Some (10 * default 0 acc + d)) rest
      | None => acc
      end
  end.

(** The number a text begins with: an optional sign and digits; what follows
    the digits stays in the stream. *)
Definition leading_number (text : string) : option Z :=
  match text with
  | String "-" rest => Z.opp <$> leading_digits None rest
  | String "+" rest => leading_digits None rest
  | _ => leading_digits None text
  end.

(** [stream >> value] for an [index] ([ui32]): nothing is stored from an
    empty text; a text that begins with no number stores zero; a number
    whose magnitude does not fit stores the largest value; a negative number
    is negated in the unsigned type. *)
Definition reference_extract_index (text : string) : option Z :=
  match text with
  | EmptyString => None
  | _ =>
      Some (match leading_number text with
            | None => 0
            | Some z =>
                if 2 ^ 32 <=? Z.abs z then 2 ^ 32 - 1 else wrap u32 z
            end)
  end.

(** [stream >> value] for a [bool] (without [boolalpha]): the number the
    text begins with is read; zero stores false, any other number true, and
    a text that begins with no number false. *)
Definition reference_extract_bool (text : string) : option bool :=
  match text with
  | EmptyString => None
  | _ =>
      Some (match leading_number text with
            | None | Some 0 => false
            | Some _ => true
            end)
  end.

Definition reference_platform : platform :=
  Platform (option json) (λ data, data) (λ _ j, Some j)
    (λ t f, wrap t (float_trunc f))
    (λ z, SF2Prim (binary_normalize 24 128 z 0 false))
    round_to_r32
    u32
    (window.State 0 0 0 0 false false true true false 0)
    reference_extract_bool
    reference_extract_index.

(** ** Concrete values for the examples *)

Definition example_state : window.state :=
  window.State 100 50 800 600 false false true true false 0.

Definition example_config : app_config :=
  AppConfig false 0 true false 0 false true.

Definition example_run_time : run_time_config :=
  RunTime false 1%float false 0.

Definition example_app : @app reference_platform :=
  App example_config example_run_time true false 0 false "main" ∅
      "config.json" ∅ [].

(** A window entry with two of the ten fields, and a config document with
    two of the ten fields. *)
Definition partial_window_entry : json :=
  JObject (list_to_map [ (_x_, JInt 7); (_fullscreen_, JBool true) ]).

Definition partial_config_document : json :=
  JObject (list_to_map [ (_v_sync_, JBool true); (_speed_, JInt 2) ]).

(** The document [j] has the ten fields of [w] as its members. *)
Definition holds_state (j : json) (w : window.state) : Prop :=
  member j _x_ = Some (JInt (window.x w)) ∧
  member j _y_ = Some (JInt (window.y w)) ∧
  member j _width_ = Some (JInt (window.width w)) ∧
  member j _height_ = Some (JInt (window.height w)) ∧
  member j _fullscreen_ = Some (JBool (window.fullscreen w)) ∧
  member j _floating_ = Some (JBool (window.floating w)) ∧
  member j _resizable_ = Some (JBool (window.resizable w)) ∧
  member j _decorated_ = Some (JBool (window.decorated w)) ∧
  member j _maximized_ = Some (JBool (window.maximized w)) ∧
  member j _monitor_ = Some (JInt (window.monitor w)).

(** A file layer on which every call succeeds. *)
Definition reference_io : @io reference_platform :=
  IO true true true true (λ data, data).

(** The document [save_window_file] builds: the state under [index], merged
    into the document read from the file when one was read. *)
Definition saved_document (existing : option json) (index : string)
    (state : window.state) : json :=
  match existing with
  | Some j => merge_patch j (JObject {[index := to_json state]})
  | None => JObject {[index := to_json state]}
  end.

(** The file system after [save_window_file] has built document [j]. *)
Definition after_save `{platform} (o : io) (fs : file_system) (j : json)
    : file_system :=
  if open_write_ok o
  then <[_window_file_ := written o (json_dump (Some 4%nat) j)]> fs
  else fs.

(** A window document on the reference platform with one entry, under
    "secondary". *)
Definition secondary_state : window.state :=
  window.State 10 20 640 480 true false true false false 1.

Definition secondary_document : json :=
  JObject {[ "secondary" := to_json secondary_state ]}.

Definition secondary_files : gmap string (option json) :=
  {[ _window_file_ := Some secondary_document ]}.

(** A file layer on which no file opens, for reading or for writing, one on
    which a file opens for writing but its read fails, and an oracle that
    answers with a given file layer. *)
Definition failing_io : @io reference_platform :=
  IO false true true false (λ data, data).

Definition read_failing_io : @io reference_platform :=
  IO true true false true (λ data, data).

(** A window file whose bytes do not parse. *)
Definition garbage_files : gmap string (option json) :=
  {[ _window_file_ := None ]}.

Definition example_oracle (o : @io reference_platform)
    : @oracle reference_platform :=
  {| close_request := false; switch_mode_request := false;
     reload_request := false; resize_request := false; iconified := false;
     window_fullscreen := false; window_get_state := example_state;
     gui_capture_keyboard := false; camera_activated := false;
     camera_handle_result := false; has_on_destroy := false;
     on_create := None; shut_down_result := true; switch_mode_ok := true;
     create_target_ok := true; shading_create_ok := true;
     plotter_create_ok := true; gui_create_ok := true;
     upload_fonts_ok := true; handle_resize_ok := true;
     begin_frame := Some 0; block_process_ok := true; end_frame_ok := true;
     frame_ready := true; file_system_initialize_ok := true;
     window_create_ok := true; create_device_ok := true;
     camera_create_ok := true; block_create_ok := true;
     config_io := o; save_io := o; load_io := o |}.

(** The example application with a window file and a config file on disk. *)
Definition app_with_files : @app reference_platform :=
  @set_files reference_platform
    (<["config.json" := Some partial_config_document]> secondary_files)
    example_app.

(** ** The rebuild of the target, as sequences of collaborator calls *)

(** The calls of each part when every call succeeds. *)
Definition destroy_target_sequence (with_on_destroy : bool) : list event :=
  (if with_on_destroy then [ev_on_destroy] else []) ++
  [ev_plotter_destroy; ev_shading_destroy; ev_target_destroy].

Definition destroy_gui_sequence : list event :=
  [ev_gui_destroy; ev_fonts_destroy].

Definition switch_mode_sequence (save : bool) (applied : option window.state)
    : list event :=
  (if save then [ev_save_window_file] else []) ++
  [ev_load_window_state; ev_switch_mode applied; ev_set_window_icon].

Definition create_target_sequence (v_sync : bool) (with_on_create : bool)
    : list event :=
  [ev_create_target v_sync; ev_shading_create; ev_plotter_create;
   ev_window_assign_input] ++
  (if with_on_create then [ev_on_create] else []).

Definition create_gui_sequence : list event :=
  [ev_setup_font; ev_gui_setup; ev_gui_create; ev_pass_add_gui_pipeline;
   ev_upload_fonts; ev_staging_add_fonts].

(** The rebuild as the window step performs it: [switch] is [Some (save,
    applied)] on a mode switch, with [save] telling whether the window state
    is persisted first and [applied] the state handed to
    [window.switch_mode]; [v_sync] is the setting the target is created
    with. *)
Definition rebuild_sequence (with_on_destroy : bool)
    (switch : option (bool * option window.state)) (v_sync : bool)
    (with_on_create : bool) : list event :=
  [ev_wait_for_idle] ++
  destroy_target_sequence with_on_destroy ++
  destroy_gui_sequence ++
  match switch with
  | Some (save, applied) => switch_mode_sequence save applied
  | None => []
  end ++
  create_target_sequence v_sync with_on_create ++
  create_gui_sequence.

(** The order the specification gives for a rebuild without a mode switch:
    idle wait, GUI destroyed, Render Block destroyed, Target destroyed,
    Target recreated, GUI recreated and its pipeline registered, Render Block
    recreated and its command callback registered. *)
Definition claimed_rebuild_order (v_sync : bool) : list event :=
  [ev_wait_for_idle; ev_gui_destroy; ev_block_destroy; ev_target_destroy;
   ev_create_target v_sync; ev_gui_create; ev_pass_add_gui_pipeline;
   ev_block_create; ev_block_add_cmd].

(** [l1] occurs in [l2] in order, other calls in between allowed. *)
Fixpoint occurs_in_order (l1 l2 : list event) {struct l2} : bool :=
  match l1, l2 with
  | [], _ => true
  | _ :: _, [] => false
  | x :: l1', y :: l2' =>
      if decide (x = y) then occurs_in_order l1' l2'
      else occurs_in_order l1 l2'
  end.

(** The alt+backspace key event, an application object with a v-sync toggle
    pending, and an oracle
    without any window or target request, every call succeeding. *)
Definition alt_backspace : key_event :=
  KeyEvent false false false true false.

Definition toggling_app : @app reference_platform :=
  set_toggle_v_sync true example_app.

Definition quiet_oracle : @oracle reference_platform :=
  example_oracle reference_io.

(** ** [setup], as a sequence of collaborator calls *)

Definition create_block_sequence : list event :=
  [ev_block_create; ev_block_add_cmd].

Definition registration_sequence : list event :=
  [ev_input_add_gui; ev_add_listener "key"; ev_add_listener "mouse_button";
   ev_add_listener "scroll"; ev_add_run "input"; ev_add_run_end "input";
   ev_add_run "window"; ev_add_run "update"; ev_add_run "render";
   ev_add_run_end "app"; ev_add_run_once].

(** The calls of a [setup] on which every call succeeds: [loaded] is the
    window state handed to [window.create], [has_device] tells whether a
    device was set beforehand, [pd] and [v_sync] are the settings the device
    and the target are created with. *)
Definition setup_sequence (loaded : option window.state) (has_device : bool)
    (pd : Z) (v_sync : bool) (with_on_create : bool) : list event :=
  [ev_file_system_initialize; ev_mount_res; ev_config_file_load;
   ev_load_window_state; ev_window_create loaded; ev_set_window_icon] ++
  (if has_device then [] else [ev_create_device pd]) ++
  create_target_sequence v_sync with_on_create ++
  [ev_camera_create] ++
  create_gui_sequence ++
  create_block_sequence ++
  registration_sequence.

(** The members of the application that loading the config does not touch. *)
Definition same_environment `{platform} (s s' : app) : Prop :=
  cmd_line s' = cmd_line s ∧ device s' = device s ∧ files s' = files s ∧
  window_save_name s' = window_save_name s ∧
  config_file_path s' = config_file_path s ∧
  toggle_v_sync s' = toggle_v_sync s ∧ frame_counter s' = frame_counter s.

(** A computation that leaves those members and the trace alone, also when
    it raises. *)
Definition keeps_environment `{platform} {A} (m : M app A) : Prop :=
  ∀ s, same_environment s (m s).2 ∧ trace (m s).2 = trace s.

(** A command line with both overrides, and the example application started
    with it next to a config file that says otherwise. *)
Definition override_params : gmap string string :=
  {[ "v_sync" := "0"; "pd" := "1" ]}.

Definition persisted_config : json :=
  JObject (list_to_map
    [ (_v_sync_, JBool true); (_physical_device_, JInt 3) ]).

Definition overriding_app : @app reference_platform :=
  @App reference_platform example_config example_run_time true false 0 false
    "main" override_params "config.json"
    (<["config.json" := Some persisted_config]> secondary_files) [].

(** The part of the name that [extension] compares. *)
Definition checked_part (file_name : string) : string :=
  match last_index file_name "." with
  | Some i => drop_chars (S i) file_name
  | None => file_name
  end.

(** ** What a load leaves behind *)

(** The value of a field after its guarded assignment has run: the converted
    member when the document has the key, the old value otherwise. *)
Definition loaded_value {A} (get : json → outcome A) (j : json) (key : string)
    (old : A) : A :=
  match member j key with
  | Some v =>
      match get v with
      | Ret x => x
      | Throw _ => old
      end
  | None => old
  end.

(** The window state after the ten guarded assignments of [from_json]. *)
Definition decoded `{platform} (j : json) (w : window.state) : window.state :=
  window.State
    (loaded_value get_int j _x_ (window.x w))
    (loaded_value get_int j _y_ (window.y w))
    (loaded_value get_int j _width_ (window.width w))
    (loaded_value get_int j _height_ (window.height w))
    (loaded_value get_bool j _fullscreen_ (window.fullscreen w))
    (loaded_value get_bool j _floating_ (window.floating w))
    (loaded_value get_bool j _resizable_ (window.resizable w))
    (loaded_value get_bool j _decorated_ (window.decorated w))
    (loaded_value get_bool j _maximized_ (window.maximized w))
    (loaded_value get_int j _monitor_ (window.monitor w)).

(** ** Parts of the object a computation leaves alone *)

(** The computation [m] leaves the part [proj] of its object as it was,
    also when it raises. *)
Definition preserves {S A B} (proj : S → B) (m : M S A) : Prop :=
  ∀ s, proj (m s).2 = proj s.

(** The document [on_save] leaves: the ten assignments, in the order of the
    source, on the members [m] of the document it is handed. *)
Definition saved_config `{platform} (a : app) (m : gmap string json)
    : gmap string json :=
  <[_physical_device_ := JInt (physical_device (config a))]>
  (<[_v_sync_ := JBool (v_sync (config a))]>
  (<[_gui_ := JBool (gui_active a)]>
  (<[_delta_ := JInt (fix_delta (run_time a))]>
  (<[_fixed_delta_ := JBool (use_fix_delta (run_time a))]>
  (<[_auto_load_ := JBool (auto_load (config a))]>
  (<[_save_interval_ := JInt (save_interval (config a))]>
  (<[_auto_save_ := JBool (auto_save (config a))]>
  (<[_speed_ := JFloat (speed (run_time a))]>
  (<[_paused_ := JBool (paused (run_time a))]> m))))))))).

(** The keys of the run-time/config record. *)
Definition config_keys : list string :=
  [_paused_; _speed_; _auto_save_; _save_interval_; _auto_load_;
   _fixed_delta_; _delta_; _gui_; _v_sync_; _physical_device_].

(** A config document whose [speed] is a string. *)
Definition half_loaded_document : json :=
  JObject (list_to_map [ (_paused_, JBool true); (_speed_, JString "fast") ]).

(** The document [j] has the ten members [on_save] writes for [a]. *)
Definition holds_config `{platform} (j : json) (a : app) : Prop :=
  member j _paused_ = Some (JBool (paused (run_time a))) ∧
  member j _speed_ = Some (JFloat (speed (run_time a))) ∧
  member j _auto_save_ = Some (JBool (auto_save (config a))) ∧
  member j _save_interval_ = Some (JInt (save_interval (config a))) ∧
  member j _auto_load_ = Some (JBool (auto_load (config a))) ∧
  member j _fixed_delta_ = Some (JBool (use_fix_delta (run_time a))) ∧
  member j _delta_ = Some (JInt (fix_delta (run_time a))) ∧
  member j _gui_ = Some (JBool (gui_active a)) ∧
  member j _v_sync_ = Some (JBool (v_sync (config a))) ∧
  member j _physical_device_ = Some (JInt (physical_device (config a))).

(** What [on_load] stores: the persisted members of [a] are those of
    [saved]. *)
Definition same_settings `{platform} (saved a : app) : Prop :=
  paused (run_time a) = paused (run_time saved) ∧
  speed (run_time a) = speed (run_time saved) ∧
  auto_save (config a) = auto_save (config saved) ∧
  save_interval (config a) = save_interval (config saved) ∧
  auto_load (config a) = auto_load (config saved) ∧
  use_fix_delta (run_time a) = use_fix_delta (run_time saved) ∧
  fix_delta (run_time a) = fix_delta (run_time saved) ∧
  gui_active a = gui_active saved ∧
  v_sync (config a) = v_sync (config saved) ∧
  physical_device (config a) = physical_device (config saved).

(** The persisted numbers of [a] are values of their C++ types: the counts
    of [seconds] and [ms] are 64-bit, the device index an [index], and the
    speed an [r32]. *)
Definition valid_settings `{platform} (a : app) : Prop :=
  in_range i64 (save_interval (config a)) ∧
  in_range i64 (fix_delta (run_time a)) ∧
  in_range index_type (physical_device (config a)) ∧
  double_to_r32 (speed (run_time a)) = speed (run_time a).

(** An application object whose settings all differ from the example's. *)
Definition other_app : @app reference_platform :=
  @App reference_platform (AppConfig true 2 false true 30 true false)
    (RunTime true 2%float true 16) false true 5 true "other" ∅
    "config.json" ∅ [].

(** ** Patches *)

(** A value that [merge_patch] stores as it is: neither null (which erases)
    nor an object (which is merged). *)
Definition is_scalar (j : json) : bool :=
  match j with
  | JNull | JObject _ => false
  | _ => true
  end.

(** The keys of a window state. *)
Definition window_keys : list string :=
  [_x_; _y_; _width_; _height_; _fullscreen_; _floating_; _resizable_;
   _decorated_; _maximized_; _monitor_].

(** A window file whose entry for "main" has a member of a later version. *)
Definition extended_document : json :=
  JObject {[ "main" := JObject (list_to_map
               [ (_x_, JInt 1); ("opacity", JInt 90) ]) ]}.

Definition extended_files : gmap string (option json) :=
  {[ _window_file_ := Some extended_document ]}.

(** A window file that holds an array. *)
Definition array_files : gmap string (option json) :=
  {[ _window_file_ := Some (JArray [JInt 1]) ]}.

(** ** Removing a path from a string ([file_utils.cpp]) *)

(** [s] begins with [p]. *)
Fixpoint starts_with (p s : string) : bool :=
  match p, s with
  | EmptyString, _ => true
  | String a p, String b s => Ascii.eqb a b && starts_with p s
  | String _ _, EmptyString => false
  end.

(** The index of the first occurrence of [str] in [s], if any; the empty
    string occurs at index 0 of every string. *)
Fixpoint first_index (s str : string) {struct s} : option nat :=
  if starts_with str s then Some 0%nat
  else
    match s with
    | EmptyString => None
    | String _ rest => S <$> first_index rest str
    end.

(** [s.find(str)]. *)
Definition find (s str : string) : Z :=
  match first_index s str with
  | Some i => Z.of_nat i
  | None => npos
  end.

Fixpoint take_chars (n : nat) (s : string) : string :=
  match n, s with
  | S n, String a rest => String a (take_chars n rest)
  | _, _ => EmptyString
  end.

(** [s.erase(pos, len)]: the characters from [pos] on, at most [len] of
    them, are removed; [std::out_of_range] when [pos] is past the end. *)
Definition erase (pos len : Z) (s : string) : outcome string :=
  if Z.of_nat (String.length s) <? pos then Throw std_out_of_range
  else Ret (take_chars (Z.to_nat pos) s ++
            drop_chars (Z.to_nat pos + Z.to_nat len) s)%string.

(** [std::replace(s.begin(), s.end(), old, new)]. *)
Fixpoint replace (old new : ascii) (s : string) : string :=
  match s with
  | EmptyString => EmptyString
  | String a rest =>
      String (if Ascii.eqb a old then new else a) (replace old new rest)
  end.

(** [remove_existing_path(target, path)]; [win32] tells whether [_WIN32] is
    defined. *)
Definition remove_existing_path (win32 : bool) (path : string)
    : M string bool :=
  target ← get_state;
  let pos := find target path in
  if negb (pos =? npos) then
    erased ← lift (erase pos (Z.of_nat (String.length path)) target);
    modify (λ _, erased);;
    when win32 (modify (replace "\" "/"));;
    mret true
  else mret false.

(** [path] occurs in [target], and [pre] is what comes before its first
    occurrence, [post] what comes after it. *)
Definition first_occurrence (target path pre post : string) : Prop :=
  target = (pre ++ path ++ post)%string ∧
  ∀ pre' post', target = (pre' ++ path ++ post')%string →
                (String.length pre ≤ String.length pre')%nat.

Definition occurs (target path : string) : Prop :=
  ∃ pre post, target = (pre ++ path ++ post)%string.

(** ** What a step leaves of the application object *)

(** [a'] is [a] with other collaborator calls recorded: every member the
    model has, the trace apart, is the same. *)
Definition only_calls `{platform} (a a' : app) : Prop :=
  config a' = config a ∧ run_time a' = run_time a ∧
  gui_active a' = gui_active a ∧ same_environment a a'.

(** A key event with every key the listener asks about pressed at once, and
    one with the tab and the space key. *)
Definition all_keys : key_event := KeyEvent true true true true true.
Definition tab_and_space : key_event := KeyEvent true false false false true.

(** An oracle on which the GUI captures the keyboard. *)
Definition capturing_oracle : @oracle reference_platform :=
  {| close_request := false; switch_mode_request := false;
     reload_request := false; resize_request := false; iconified := false;
     window_fullscreen := false; window_get_state := example_state;
     gui_capture_keyboard := true; camera_activated := true;
     camera_handle_result := true; has_on_destroy := false;
     on_create := None; shut_down_result := true; switch_mode_ok := true;
     create_target_ok := true; shading_create_ok := true;
     plotter_create_ok := true; gui_create_ok := true;
     upload_fonts_ok := true; handle_resize_ok := true;
     begin_frame := Some 0; block_process_ok := true; end_frame_ok := true;
     frame_ready := true; file_system_initialize_ok := true;
     window_create_ok := true; create_device_ok := true;
     camera_create_ok := true; block_create_ok := true;
     config_io := reference_io; save_io := reference_io;
     load_io := reference_io |}.

(** An oracle with the given window and target requests and the given
    answer of [window.switch_mode], every other call succeeding. *)
Definition requesting_oracle (close switch reload resize switch_ok : bool)
    : @oracle reference_platform :=
  {| close_request := close; switch_mode_request := switch;
     reload_request := reload; resize_request := resize; iconified := false;
     window_fullscreen := false; window_get_state := example_state;
     gui_capture_keyboard := false; camera_activated := false;
     camera_handle_result := false; has_on_destroy := true;
     on_create := Some true; shut_down_result := true;
     switch_mode_ok := switch_ok;
     create_target_ok := true; shading_create_ok := true;
     plotter_create_ok := true; gui_create_ok := true;
     upload_fonts_ok := true; handle_resize_ok := true;
     begin_frame := Some 0; block_process_ok := true; end_frame_ok := true;
     frame_ready := true; file_system_initialize_ok := true;
     window_create_ok := true; create_device_ok := true;
     camera_create_ok := true; block_create_ok := true;
     config_io := reference_io; save_io := reference_io;
     load_io := reference_io |}.

(** The teardown every rebuild begins with. *)
Definition teardown_sequence (with_on_destroy : bool) : list event :=
  [ev_wait_for_idle] ++ destroy_target_sequence with_on_destroy ++
  destroy_gui_sequence.

(** ** The teardown at the end of the run, as a sequence of calls *)

(** The collaborators are destroyed first: camera, GUI, Render Block,
    target. *)
Definition destroy_sequence (with_on_destroy : bool) : list event :=
  [ev_camera_destroy] ++ destroy_gui_sequence ++ [ev_block_destroy] ++
  destroy_target_sequence with_on_destroy.

(** Then the window state is saved if [save] is set, the window destroyed,
    the config saved and the file system terminated. *)
Definition run_end_sequence (with_on_destroy save : bool) : list event :=
  destroy_sequence with_on_destroy ++
  (if save then [ev_save_window_file] else []) ++
  [ev_window_destroy; ev_config_file_save; ev_file_system_terminate].

(** ** The update step ([app::update]) *)

(** The clocks of [run_time], as counts of milliseconds: the system time of
    the last tick, the real time between the last two ticks, and the
    simulated time. The counts are kept on [Z]; their C++ type is declared
    in the time header. *)
Record clocks : Type := Clocks {
  system : Z;
  delta : Z;
  current : Z;
}.

(** What one run of the update step leaves: the result, the clocks, and the
    delta handed to [on_update] (also computed when no callback is
    installed). *)
Record updated : Type := Updated {
  update_result : bool;
  update_clocks : clocks;
  update_delta : Z;
}.

(** The step registered by [app::update]. [time] is what [now()] answers,
    [scale dt speed] stands for [to_ms(to_sec(dt) * speed)], whose
    conversions are declared in the time header, and [on_update] is the
    callback composed with [to_delta], [None] when none is installed. *)
Definition update_run (scale : Z → float → Z) (on_update : option (Z → bool))
    (r : run_time_config) (time : Z) (c : clocks) : updated :=
  let dt := 0 in
  let '(dt, system) :=
    if negb (system c =? time) then (time - system c, time)
    else (dt, system c) in
  let delta := dt in
  let '(dt, current) :=
    if negb (paused r) then
      let dt := if use_fix_delta r then fix_delta r else dt in
      let dt := scale dt (speed r) in
      (dt, current c + dt)
    else (0, current c) in
  Updated (match on_update with
           | Some callback => callback dt
           | None => true
           end)
          (Clocks system delta current) dt.

(** The update steps of consecutive ticks, at the given times: the clocks
    afterwards, and the real-time and simulated deltas of the ticks. *)
Fixpoint run_updates (scale : Z → float → Z) (on_update : option (Z → bool))
    (r : run_time_config) (times : list Z) (c : clocks)
    : clocks * list Z * list Z :=
  match times with
  | [] => (c, [], [])
  | time :: times =>
      let u := update_run scale on_update r time c in
      let '(c', real, simulated) :=
        run_updates scale on_update r times (update_clocks u) in
      (c', delta (update_clocks u) :: real, update_delta u :: simulated)
  end.

Definition sum_ms (l : list Z) : Z := foldr Z.add 0 l.

(** ** Saving several windows *)

(** The entry a save writes for a state into a document with members [m]:
    the ten fields of the state and the other members of the entry already
    there. *)
Definition saved_entry (m : gmap string json) (index : string)
    (w : window.state) : json :=
  JObject (object_map (to_json w) ∪ object_map (default JNull (m !! index))).

(** A second window. *)
Definition secondary_window : window_ref :=
  WindowRef secondary_state "secondary".

(** ** Pipeline layouts and flag calls ([pipeline.hpp]) *)

Module push_constant_range.

(** [VkPushConstantRange]. *)
Record t : Type := Make {
  stage_flags : Z;
  offset : Z;
  size : Z;
}.

End push_constant_range.

Module pipeline_layout.

(** The members of [pipeline_layout]; a descriptor is the object its
    [descriptor::ptr] points to, a handle is [None] when it is [nullptr]. *)
Record t : Type := Make {
  dev : option Z;
  layout : option Z;
  descriptors : list Z;
  push_constant_ranges : list push_constant_range.t;
}.

(** [make()]: every member at its default member initializer. *)
Definition make : t := Make None None [] [].

(** The two overloads of [add]. *)
Definition add_descriptor (descriptor : Z) (p : t) : t :=
  Make (dev p) (layout p) (descriptors p ++ [descriptor])
       (push_constant_ranges p).
Definition add_push_constant_range (range : push_constant_range.t) (p : t) : t :=
  Make (dev p) (layout p) (descriptors p) (push_constant_ranges p ++ [range]).

Definition add_layout (layout : Z) (p : t) : t := add_descriptor layout p.
Definition add_range (range : push_constant_range.t) (p : t) : t :=
  add_push_constant_range range p.

Definition get (p : t) : option Z := layout p.
Definition get_descriptors (p : t) : list Z := descriptors p.
Definition get_push_constant_ranges (p : t) : list push_constant_range.t :=
  push_constant_ranges p.

(** A call of one of the four adding members. *)
Inductive call : Type :=
  | call_add_descriptor (descriptor : Z)
  | call_add_push_constant_range (range : push_constant_range.t)
  | call_add_layout (layout : Z)
  | call_add_range (range : push_constant_range.t).

Definition run (c : call) (p : t) : t :=
  match c with
  | call_add_descriptor d => add_descriptor d p
  | call_add_push_constant_range r => add_push_constant_range r p
  | call_add_layout d => add_layout d p
  | call_add_range r => add_range r p
  end.

(** The calls in the order they are made. *)
Definition run_all (calls : list call) (p : t) : t :=
  foldl (λ p c, run c p) p calls.

(** The descriptors and the ranges a list of calls hands over. *)
Definition descriptors_of (calls : list call) : list Z :=
  omap (λ c, match c with
             | call_add_descriptor d | call_add_layout d => Some d
             | _ => None
             end) calls.
Definition ranges_of (calls : list call) : list push_constant_range.t :=
  omap (λ c, match c with
             | call_add_push_constant_range r | call_add_range r => Some r
             | _ => None
             end) calls.

End pipeline_layout.

Module pipeline_calls.

(** A call of one of the flag members of [pipeline]. *)
Inductive call : Type :=
  | call_set_active (value : bool)
  | call_toggle
  | call_set_auto_bind (value : bool).

Definition run (c : call) (p : pipeline.t) : pipeline.t :=
  match c with
  | call_set_active value => pipeline.set_active value p
  | call_toggle => pipeline.toggle p
  | call_set_auto_bind value => pipeline.set_auto_bind value p
  end.

Definition run_all (calls : list call) (p : pipeline.t) : pipeline.t :=
  foldl (λ p c, run c p) p calls.

(** The calls that are about the active flag. *)
Definition about_active (c : call) : bool :=
  match c with
  | call_set_auto_bind _ => false
  | _ => true
  end.

End pipeline_calls.

(** ** Calls and their answers *)

(** What a call answers: it succeeds, it reports a failure by its result,
    or it raises. *)
Inductive answer : Type :=
  | succeeded
  | failed
  | raised (e : exn).

(** A plan: the calls of a step in their order, each with its answer. *)
Definition plan : Type := list (event * answer).

Definition answered (ok : bool) : answer := if ok then succeeded else failed.

Definition answered_by {A} (r : outcome A) : answer :=
  match r with
  | Ret _ => succeeded
  | Throw e => raised e
  end.

Definition all_succeed (calls : list event) : plan :=
  (λ e, (e, succeeded)) <$> calls.

(** The calls of a plan that are performed when the step stops at the first
    call that does not succeed: that call is the last one made. *)
Fixpoint performed (steps : plan) : list event :=
  match steps with
  | [] => []
  | (e, succeeded) :: steps => e :: performed steps
  | (e, _) :: _ => [e]
  end.

(** The result of a step that stops at the first call that does not
    succeed: true when every call succeeds, false when a call reports a
    failure, the exception when a call raises. *)
Fixpoint plan_result (steps : plan) : outcome bool :=
  match steps with
  | [] => Ret true
  | (_, succeeded) :: steps => plan_result steps
  | (_, failed) :: _ => Ret false
  | (_, raised e) :: _ => Throw e
  end.

(** The file system after the save of a mode switch (the save is made when
    [save] is set), and what the load after it answers. *)
Definition switch_saved `{platform} (p : oracle) (a : app)
    : outcome () * file_system :=
  save_window_file (save_io p)
    (WindowRef (window_get_state p) (window_save_name a)) (files a).

Definition switch_loaded `{platform} (p : oracle) (a : app)
    : outcome (option window.state) :=
  load_window_state (load_io p)
    (if save_window (config a) then (switch_saved p a).2 else files a)
    (window_save_name a).

(** The state handed to [window.switch_mode]: the loaded one, if any, with
    [fullscreen] set to the opposite of what the window reports. *)
Definition switch_applied `{platform} (p : oracle) (a : app)
    : option window.state :=
  match switch_loaded p a with
  | Ret window_state =>
      window.set_fullscreen (negb (window_fullscreen p)) <$> window_state
  | Throw _ => None
  end.

(** The rebuild of the window step as a plan: every call of the rebuild in
    the order of [rebuild_sequence], with what the oracle (and, for the
    window file, the file layer) answers to it. *)
Definition rebuild_plan `{platform} (p : oracle) (a : app) : plan :=
  all_succeed ([ev_wait_for_idle] ++
               destroy_target_sequence (has_on_destroy p) ++
               destroy_gui_sequence) ++
  (if switch_mode_request p then
     (if save_window (config a)
      then [(ev_save_window_file, answered_by (switch_saved p a).1)]
      else []) ++
     [(ev_load_window_state, answered_by (switch_loaded p a));
      (ev_switch_mode (switch_applied p a), answered (switch_mode_ok p));
      (ev_set_window_icon, succeeded)]
   else []) ++
  [(ev_create_target (xorb (v_sync (config a)) (toggle_v_sync a)),
    answered (create_target_ok p));
   (ev_shading_create, answered (shading_create_ok p));
   (ev_plotter_create, answered (plotter_create_ok p));
   (ev_window_assign_input, succeeded)] ++
  match on_create p with
  | Some result => [(ev_on_create, answered result)]
  | None => []
  end ++
  [(ev_setup_font, succeeded); (ev_gui_setup, succeeded);
   (ev_gui_create, answered (gui_create_ok p));
   (ev_pass_add_gui_pipeline, succeeded);
   (ev_upload_fonts, answered (upload_fonts_ok p));
   (ev_staging_add_fonts, succeeded)].

(** An oracle with a reload request pending on which the shading pass is not
    created, every other call succeeding. *)
Definition shading_failing_oracle : @oracle reference_platform :=
  {| close_request := false; switch_mode_request := false;
     reload_request := true; resize_request := false; iconified := false;
     window_fullscreen := false; window_get_state := example_state;
     gui_capture_keyboard := false; camera_activated := false;
     camera_handle_result := false; has_on_destroy := false;
     on_create := None; shut_down_result := true; switch_mode_ok := true;
     create_target_ok := true; shading_create_ok := false;
     plotter_create_ok := true; gui_create_ok := true;
     upload_fonts_ok := true; handle_resize_ok := true;
     begin_frame := Some 0; block_process_ok := true; end_frame_ok := true;
     frame_ready := true; file_system_initialize_ok := true;
     window_create_ok := true; create_device_ok := true;
     camera_create_ok := true; block_create_ok := true;
     config_io := reference_io; save_io := reference_io;
     load_io := reference_io |}.

(** An oracle on which [block.process] fails, and one on which
    [plotter.end_frame] fails, every other call succeeding. *)
Definition failing_render_oracle (process_ok end_ok : bool)
    : @oracle reference_platform :=
  {| close_request := false; switch_mode_request := false;
     reload_request := false; resize_request := false; iconified := false;
     window_fullscreen := false; window_get_state := example_state;
     gui_capture_keyboard := false; camera_activated := false;
     camera_handle_result := false; has_on_destroy := false;
     on_create := None; shut_down_result := true; switch_mode_ok := true;
     create_target_ok := true; shading_create_ok := true;
     plotter_create_ok := true; gui_create_ok := true;
     upload_fonts_ok := true; handle_resize_ok := true;
     begin_frame := Some 2; block_process_ok := process_ok;
     end_frame_ok := end_ok;
     frame_ready := true; file_system_initialize_ok := true;
     window_create_ok := true; create_device_ok := true;
     camera_create_ok := true; block_create_ok := true;
     config_io := reference_io; save_io := reference_io;
     load_io := reference_io |}.

(** Streams on which no name opens unless it holds a regular file, and
    streams on which the directory "res" opens. *)
#[global] Instance regular_streams : streams := Streams (λ _, false).

Definition directory_streams : streams :=
  Streams (λ name, bool_decide (name = "res"%string)).

(** A file layer on which a file is read but does not open for writing. *)
Definition unwritable_io : @io reference_platform :=
  IO true true true false (λ data, data).

(** The calls [setup] begins with when the frame is ready and the file
    system initializes, up to the creation of the window with the window
    state [loaded]. *)
Definition startup_sequence (loaded : option window.state) : list event :=
  [ev_file_system_initialize; ev_mount_res; ev_config_file_load;
   ev_load_window_state; ev_window_create loaded].

(** * Properties *)

(** ** The monads *)

Lemma M_bind_run {S A B} (m : M S A) (k : A → M S B) (s : S) :
  (m ≫= k) s = match m s with
               | (Ret a, s') => k a s'
               | (Throw e, s') => (Throw e, s')
               end.
Proof. reflexivity. Qed.

Lemma M_bind_ret {S A B} (m : M S A) (k : A → M S B) (s s' : S) (a : A) :
  m s = (Ret a, s') → (m ≫= k) s = k a s'.
Proof. intros Hm. rewrite M_bind_run, Hm. reflexivity. Qed.

(** ** [merge_patch] *)

(** The members of a target patched by an object. *)
Lemma merge_patch_object (target : json) (pm : gmap string json) :
  ∃ m, merge_patch target (JObject pm) = JObject m ∧
       ∀ k, m !! k =
            match pm !! k with
            | None => object_map target !! k
            | Some JNull => None
            | Some p =>
                Some (merge_patch (default JNull (object_map target !! k)) p)
            end.
Proof.
  cbn [merge_patch]. eexists. split; [reflexivity|].
  change (match target with JObject tm => tm | _ => ∅ end)
    with (object_map target).
  generalize (object_map target). intros tm.
  apply (map_fold_weak_ind (λ r pm, ∀ k, r !! k = match pm !! k with
            | None => tm !! k
            | Some JNull => None
            | Some p => Some (merge_patch (default JNull (tm !! k)) p)
            end)).
  - intros k. by rewrite lookup_empty.
  - intros i p m r Hi IH k.
    destruct (decide (i = k)) as [->|Hne].
    + rewrite lookup_insert_eq.
      specialize (IH k). rewrite Hi in IH.
      destruct p; rewrite ?lookup_delete_eq, ?lookup_insert_eq, ?IH; done.
    + rewrite (lookup_insert_ne m) by done.
      rewrite <- IH.
      destruct p; rewrite ?lookup_delete_ne, ?lookup_insert_ne; done.
Qed.

(** ** Guarded assignments of a load *)

Lemma member_some (j : json) (key : string) (v : json) :
  member j key = Some v →
  nonzero (json_count j key) = true ∧ json_at j key = Ret v ∧
  json_index j key = Ret v.
Proof.
  unfold member. destruct j; cbn; try (rewrite lookup_empty; discriminate).
  intros ->. done.
Qed.

Lemma member_none (j : json) (key : string) :
  member j key = None → nonzero (json_count j key) = false.
Proof.
  unfold member. destruct j; cbn; try done.
  by intros ->.
Qed.

Lemma load_step_at {S A} (get : json → outcome A) (set : A → S → S)
    (j : json) (key : string) (s : S) :
  converts get j key →
  when (nonzero (json_count j key))
    (v ← lift (json_at j key ≫= get); modify (set v)) s
  = (Ret (), field_update get set j key s).
Proof.
  unfold converts, field_update.
  destruct (member j key) as [v|] eqn:Hm.
  - destruct (member_some _ _ _ Hm) as (-> & Hat & _).
    intros [x Hx]. cbn. unfold lift. rewrite M_bind_run, Hat. cbn.
    by rewrite Hx.
  - by rewrite (member_none _ _ Hm).
Qed.

Lemma load_step_index {S A} (get : json → outcome A) (set : A → S → S)
    (j : json) (key : string) (s : S) :
  converts get j key →
  when (nonzero (json_count j key))
    (v ← lift (json_index j key ≫= get); modify (set v)) s
  = (Ret (), field_update get set j key s).
Proof.
  unfold converts, field_update.
  destruct (member j key) as [v|] eqn:Hm.
  - destruct (member_some _ _ _ Hm) as (-> & _ & Hidx).
    intros [x Hx]. cbn. unfold lift. rewrite M_bind_run, Hidx. cbn.
    by rewrite Hx.
  - by rewrite (member_none _ _ Hm).
Qed.

(** A field that the assignment does not store keeps its value. *)
Lemma field_update_frame {S A B} (proj : S → B) (get : json → outcome A)
    (set : A → S → S) (j : json) (key : string) (s : S) :
  (∀ x s, proj (set x s) = proj s) →
  proj (field_update get set j key s) = proj s.
Proof.
  intros Hframe. unfold field_update.
  destruct (member j key); [destruct (get _)|]; auto.
Qed.

(** The field that the assignment stores is loaded. *)
Lemma field_update_loaded {S A} (proj : S → A) (get : json → outcome A)
    (set : A → S → S) (j : json) (key : string) (s : S) :
  (∀ x s, proj (set x s) = x) →
  converts get j key →
  loaded get j key (proj s) (proj (field_update get set j key s)).
Proof.
  intros Hset. unfold converts, loaded, field_update.
  destruct (member j key); [|done].
  intros [x Hx]. rewrite Hx. by rewrite Hset.
Qed.

(** [from_json] as the ten assignments in a row. *)
Lemma from_json_run `{platform} (j : json) (w : window.state) :
  window_document j →
  from_json j w =
  (Ret (),
   field_update get_int window.set_monitor j _monitor_
   (field_update get_bool window.set_maximized j _maximized_
   (field_update get_bool window.set_decorated j _decorated_
   (field_update get_bool window.set_resizable j _resizable_
   (field_update get_bool window.set_floating j _floating_
   (field_update get_bool window.set_fullscreen j _fullscreen_
   (field_update get_int window.set_height j _height_
   (field_update get_int window.set_width j _width_
   (field_update get_int window.set_y j _y_
   (field_update get_int window.set_x j _x_ w)))))))))).
Proof.
  intros (?&?&?&?&?&?&?&?&?&?). unfold from_json, at_int, at_bool.
  do 9 (erewrite M_bind_ret; [|by apply load_step_at]).
  by apply load_step_at.
Qed.

(** The same two facts for a member of a member ([run_time.paused]). *)
Lemma field_update_frame2 {S T A B} (outer : S → T) (inner : T → B)
    (get : json → outcome A) (set : A → S → S) (j : json) (key : string)
    (s : S) :
  (∀ x s, inner (outer (set x s)) = inner (outer s)) →
  inner (outer (field_update get set j key s)) = inner (outer s).
Proof. apply (field_update_frame (λ s, inner (outer s))). Qed.

Lemma field_update_loaded2 {S T A} (outer : S → T) (inner : T → A)
    (get : json → outcome A) (set : A → S → S) (j : json) (key : string)
    (s : S) :
  (∀ x s, inner (outer (set x s)) = x) →
  converts get j key →
  loaded get j key (inner (outer s))
         (inner (outer (field_update get set j key s))).
Proof. apply (field_update_loaded (λ s, inner (outer s))). Qed.

(** [on_load] as the ten assignments in a row. *)
Lemma on_load_run `{platform} (j : json) (a : app) :
  config_document j →
  on_load j a =
  (Ret (),
   field_update (get_integral index_type)
     (λ v, set_config (set_physical_device v)) j _physical_device_
   (field_update get_bool (λ v, set_config (set_v_sync v)) j _v_sync_
   (field_update get_bool set_gui_active j _gui_
   (field_update get_i64 (λ v, set_run_time (set_fix_delta v)) j _delta_
   (field_update get_bool (λ v, set_run_time (set_use_fix_delta v)) j
      _fixed_delta_
   (field_update get_bool (λ v, set_config (set_auto_load v)) j _auto_load_
   (field_update get_i64 (λ v, set_config (set_save_interval v)) j
      _save_interval_
   (field_update get_bool (λ v, set_config (set_auto_save v)) j _auto_save_
   (field_update get_r32 (λ v, set_run_time (set_speed v)) j _speed_
   (field_update get_bool (λ v, set_run_time (set_paused v)) j _paused_
      a)))))))))).
Proof.
  intros (?&?&?&?&?&?&?&?&?&?). unfold on_load.
  erewrite M_bind_ret;
    [|by apply (load_step_index _ (λ v, set_run_time (set_paused v)))].
  erewrite M_bind_ret;
    [|by apply (load_step_index _ (λ v, set_run_time (set_speed v)))].
  erewrite M_bind_ret;
    [|by apply (load_step_index _ (λ v, set_config (set_auto_save v)))].
  erewrite M_bind_ret;
    [|by apply (load_step_index _ (λ v, set_config (set_save_interval v)))].
  erewrite M_bind_ret;
    [|by apply (load_step_index _ (λ v, set_config (set_auto_load v)))].
  erewrite M_bind_ret;
    [|by apply (load_step_index _ (λ v, set_run_time (set_use_fix_delta v)))].
  erewrite M_bind_ret;
    [|by apply (load_step_index _ (λ v, set_run_time (set_fix_delta v)))].
  erewrite M_bind_ret; [|by apply (load_step_index _ set_gui_active)].
  erewrite M_bind_ret;
    [|by apply (load_step_index _ (λ v, set_config (set_v_sync v)))].
  by apply (load_step_index _ (λ v, set_config (set_physical_device v))).
Qed.

(** Peels the assignments that do not store the field off the new record,
    then reads the one that does. *)
Ltac peel proj :=
  repeat (rewrite (field_update_frame proj) by (intros; reflexivity)).
Ltac peel2 outer inner :=
  repeat (rewrite (field_update_frame2 outer inner) by (intros; reflexivity)).

Ltac field_loaded proj :=
  peel proj;
  lazymatch goal with
  | |- loaded _ _ _ (proj ?old) (proj (field_update _ _ _ _ ?s)) =>
      replace (proj old) with (proj s) by (peel proj; reflexivity);
      apply (field_update_loaded proj); [intros; reflexivity | assumption]
  end.
Ltac field_loaded2 outer inner :=
  peel2 outer inner;
  lazymatch goal with
  | |- loaded _ _ _ (inner (outer ?old))
              (inner (outer (field_update _ _ _ _ ?s))) =>
      replace (inner (outer old)) with (inner (outer s))
        by (peel2 outer inner; reflexivity);
      apply (field_update_loaded2 outer inner);
      [intros; reflexivity | assumption]
  end.

(** C5. A load from a persisted document is field-wise: for the ten fields of
    the window state ([from_json]) and the ten fields of the run-time/config
    record ([on_load]), a field present in the document is overwritten with
    the document's value, converted to the field's type, and a field missing
    from the document keeps the value it had in memory. The documents are
    such that the fields present hold values of a kind that converts. *)
Theorem partial_document_load `{platform}
    (jw jc : json) (w : window.state) (a : app) :
  window_document jw →
  config_document jc →
  (∃ w', from_json jw w = (Ret (), w') ∧
     loaded get_int jw _x_ (window.x w) (window.x w') ∧
     loaded get_int jw _y_ (window.y w) (window.y w') ∧
     loaded get_int jw _width_ (window.width w) (window.width w') ∧
     loaded get_int jw _height_ (window.height w) (window.height w') ∧
     loaded get_bool jw _fullscreen_
            (window.fullscreen w) (window.fullscreen w') ∧
     loaded get_bool jw _floating_ (window.floating w) (window.floating w') ∧
     loaded get_bool jw _resizable_
            (window.resizable w) (window.resizable w') ∧
     loaded get_bool jw _decorated_
            (window.decorated w) (window.decorated w') ∧
     loaded get_bool jw _maximized_
            (window.maximized w) (window.maximized w') ∧
     loaded get_int jw _monitor_ (window.monitor w) (window.monitor w')) ∧
  (∃ a', on_load jc a = (Ret (), a') ∧
     loaded get_bool jc _paused_
            (paused (run_time a)) (paused (run_time a')) ∧
     loaded get_r32 jc _speed_ (speed (run_time a)) (speed (run_time a')) ∧
     loaded get_bool jc _auto_save_
            (auto_save (config a)) (auto_save (config a')) ∧
     loaded get_i64 jc _save_interval_
            (save_interval (config a)) (save_interval (config a')) ∧
     loaded get_bool jc _auto_load_
            (auto_load (config a)) (auto_load (config a')) ∧
     loaded get_bool jc _fixed_delta_
            (use_fix_delta (run_time a)) (use_fix_delta (run_time a')) ∧
     loaded get_i64 jc _delta_
            (fix_delta (run_time a)) (fix_delta (run_time a')) ∧
     loaded get_bool jc _gui_ (gui_active a) (gui_active a') ∧
     loaded get_bool jc _v_sync_ (v_sync (config a)) (v_sync (config a')) ∧
     loaded (get_integral index_type) jc _physical_device_
            (physical_device (config a)) (physical_device (config a'))).
Proof.
  intros Hw Hc. split.
  - eexists. split; [by apply from_json_run|].
    destruct Hw as (?&?&?&?&?&?&?&?&?&?).
    repeat split.
    + field_loaded window.x.
    + field_loaded window.y.
    + field_loaded window.width.
    + field_loaded window.height.
    + field_loaded window.fullscreen.
    + field_loaded window.floating.
    + field_loaded window.resizable.
    + field_loaded window.decorated.
    + field_loaded window.maximized.
    + field_loaded window.monitor.
  - eexists. split; [by apply on_load_run|].
    destruct Hc as (?&?&?&?&?&?&?&?&?&?).
    repeat split.
    + field_loaded2 (@run_time _) paused.
    + field_loaded2 (@run_time _) speed.
    + field_loaded2 (@config _) auto_save.
    + field_loaded2 (@config _) save_interval.
    + field_loaded2 (@config _) auto_load.
    + field_loaded2 (@run_time _) use_fix_delta.
    + field_loaded2 (@run_time _) fix_delta.
    + field_loaded (@gui_active _).
    + field_loaded2 (@config _) v_sync.
    + field_loaded2 (@config _) physical_device.
Qed.

Lemma partial_document_load_witness :
  @window_document reference_platform partial_window_entry ∧
  @config_document reference_platform partial_config_document ∧
  ∃ w' a',
    @from_json reference_platform partial_window_entry example_state
      = (Ret (), w') ∧
    on_load partial_config_document example_app = (Ret (), a') ∧
    window.x w' = 7 ∧ window.y w' = 50 ∧ window.fullscreen w' = true ∧
    v_sync (config a') = true ∧ physical_device (config a') = 0.
Proof.
  assert (Hw : @window_document reference_platform partial_window_entry).
  { repeat split; vm_compute; eauto. }
  assert (Hc : @config_document reference_platform partial_config_document).
  { repeat split; vm_compute; eauto. }
  split; [exact Hw|]. split; [exact Hc|].
  destruct (partial_document_load partial_window_entry
              partial_config_document example_state example_app Hw Hc)
    as [(w' & Hrun & Hx & Hy & _ & _ & Hf & _)
        (a' & Hload & _ & _ & _ & _ & _ & _ & _ & _ & Hv & Hp)].
  exists w', a'.
  vm_compute in Hx, Hy, Hf, Hv, Hp.
  injection Hx as Hx. injection Hf as Hf. injection Hv as Hv.
  repeat split; first [assumption | symmetry; assumption].
Defined.

(** ** The window state as a document *)

Lemma wrap_in_range (t : integral) (z : Z) : in_range t z → wrap t z = z.
Proof.
  unfold in_range, wrap.
  destruct t; cbn [integral_signed integral_bits andb]; intros Hz.
  - change (2 ^ 32) with 4294967296. change (4294967296 / 2) with 2147483648.
    change (2 ^ (32 - 1)) with 2147483648 in Hz.
    destruct (Z.leb_spec 2147483648 (z mod 4294967296));
      Z.div_mod_to_equations; lia.
  - change (2 ^ 32) with 4294967296 in *. apply Z.mod_small. lia.
  - change (2 ^ 64) with 18446744073709551616.
    change (18446744073709551616 / 2) with 9223372036854775808.
    change (2 ^ (64 - 1)) with 9223372036854775808 in Hz.
    destruct (Z.leb_spec 9223372036854775808 (z mod 18446744073709551616));
      Z.div_mod_to_equations; lia.
Qed.

Lemma to_json_holds_state (w : window.state) : holds_state (to_json w) w.
Proof. repeat split. Qed.

Lemma holds_state_document `{platform} (j : json) (w : window.state) :
  holds_state j w → window_document j.
Proof.
  intros (Hx&Hy&Hwi&Hh&Hfu&Hfl&Hr&Hd&Hma&Hmo).
  unfold window_document, converts.
  rewrite Hx, Hy, Hwi, Hh, Hfu, Hfl, Hr, Hd, Hma, Hmo.
  repeat split; eexists; reflexivity.
Qed.

(** A document that holds the ten fields of a state converts to that state,
    whatever the default-constructed state is. *)
Lemma get_window_state_holds `{platform} (j : json) (w : window.state) :
  window.valid w → holds_state j w → get_window_state j = Ret w.
Proof.
  intros (Vx&Vy&Vw&Vh&Vm) Hj.
  unfold get_window_state.
  rewrite (from_json_run j _ (holds_state_document j w Hj)).
  destruct Hj as (Hx&Hy&Hwi&Hh&Hfu&Hfl&Hr&Hd&Hma&Hmo).
  unfold field_update.
  rewrite Hx, Hy, Hwi, Hh, Hfu, Hfl, Hr, Hd, Hma, Hmo.
  cbn [get_int get_integral get_bool].
  rewrite !wrap_in_range by assumption.
  by destruct w.
Qed.

(** Patching any entry with a state gives an entry that holds the state. *)
Lemma merge_patch_holds_state (entry : json) (w : window.state) :
  holds_state (merge_patch entry (to_json w)) w.
Proof.
  unfold to_json.
  destruct (merge_patch_object entry (list_to_map
    [ (_x_, JInt (window.x w)); (_y_, JInt (window.y w));
      (_width_, JInt (window.width w)); (_height_, JInt (window.height w));
      (_fullscreen_, JBool (window.fullscreen w));
      (_floating_, JBool (window.floating w));
      (_resizable_, JBool (window.resizable w));
      (_decorated_, JBool (window.decorated w));
      (_maximized_, JBool (window.maximized w));
      (_monitor_, JInt (window.monitor w)) ])) as (m & -> & Hm).
  unfold holds_state, member. cbn [object_map].
  repeat split; rewrite Hm; reflexivity.
Qed.

(** ** Saving and loading the window file *)

Lemma load_file_data_reads `{platform} (o : io) (fs : file_system)
    (name : string) :
  reads o → load_file_data o fs name = fs !! name.
Proof.
  intros (Ho & Ha & Hr). unfold load_file_data, opened_for_read, file_exists.
  rewrite Ho, Ha, Hr. case_bool_decide as E; cbn; [done|].
  destruct (fs !! name) eqn:E2; [|done].
  exfalso. apply E. eauto.
Qed.

Lemma load_file_data_some `{platform} (o : io) (fs : file_system)
    (name : string) (data : bytes) :
  load_file_data o fs name = Some data → fs !! name = Some data.
Proof.
  unfold load_file_data.
  repeat (destruct (negb _); [discriminate|]). done.
Qed.

(** The entry saved under [index] holds the state ... *)
Lemma saved_document_entry (existing : option json) (index : string)
    (state : window.state) :
  ∃ entry, member (saved_document existing index state) index = Some entry ∧
           holds_state entry state.
Proof.
  destruct existing as [j|]; cbn [saved_document].
  - destruct (merge_patch_object j {[index := to_json state]})
      as (m & -> & Hm).
    eexists. split.
    + unfold member. cbn [object_map]. rewrite Hm, lookup_singleton_eq.
      reflexivity.
    + apply merge_patch_holds_state.
  - exists (to_json state). split; [|apply to_json_holds_state].
    unfold member. cbn [object_map]. apply lookup_singleton_eq.
Qed.

(** ... and the entries under the other names are those of the document
    that was read. *)
Lemma saved_document_other (j : json) (index other : string)
    (state : window.state) :
  index ≠ other →
  member (saved_document (Some j) index state) other = member j other.
Proof.
  intros Hne. cbn [saved_document].
  destruct (merge_patch_object j {[index := to_json state]}) as (m & -> & Hm).
  unfold member. cbn [object_map].
  by rewrite Hm, lookup_singleton_ne.
Qed.

(** [save_window_file] when the file is not read: the document is the new
    entry alone. *)
Lemma save_window_file_fresh `{platform} (o : io) (window : window_ref)
    (fs : file_system) :
  load_file_data o fs _window_file_ = None →
  save_window_file o window fs =
  (Ret (), after_save o fs
     (saved_document None (get_save_name window) (get_window_state_of window))).
Proof.
  intros Hload. unfold save_window_file, after_save.
  rewrite M_bind_run. cbn [get_state]. rewrite Hload.
  rewrite M_bind_run. cbn [json_set lift saved_document].
  destruct (open_write_ok o); reflexivity.
Qed.

(** [save_window_file] when the file is read and parses: the document is
    the one read, patched. *)
Lemma save_window_file_merge `{platform} (o : io) (window : window_ref)
    (fs : file_system) (data : bytes) (j : json) :
  load_file_data o fs _window_file_ = Some data →
  json_parse data = Some j →
  save_window_file o window fs =
  (Ret (), after_save o fs
     (saved_document (Some j) (get_save_name window)
                     (get_window_state_of window))).
Proof.
  intros Hload Hparse. unfold save_window_file, after_save.
  rewrite M_bind_run. cbn [get_state]. rewrite Hload.
  rewrite M_bind_run. unfold parse at 1. rewrite Hparse.
  cbn [json_set lift saved_document mbind M_bind mret M_ret].
  destruct (open_write_ok o); reflexivity.
Qed.

(** [load_window_state] on a file that is read and parses. *)
Lemma load_window_state_parsed `{platform} (o : io) (fs : file_system)
    (name : string) (data : bytes) (j : json) :
  load_file_data o fs _window_file_ = Some data →
  json_parse data = Some j →
  load_window_state o fs name =
  match member j name with
  | Some entry => w ← get_window_state entry; Ret (Some w)
  | None => Ret None
  end.
Proof.
  intros Hload Hparse. unfold load_window_state, window_file, file_exists.
  rewrite (load_file_data_some _ _ _ _ Hload).
  rewrite bool_decide_true by eauto. cbn [negb].
  unfold load_window_file. rewrite Hload.
  rewrite M_bind_run. unfold parse, lift. rewrite Hparse.
  destruct (member j name) as [entry|] eqn:Hm.
  - destruct (member_some _ _ _ Hm) as (-> & _ & Hidx). cbn [negb].
    rewrite M_bind_run, Hidx, M_bind_run.
    destruct (get_window_state entry); reflexivity.
  - rewrite (member_none _ _ Hm). reflexivity.
Qed.

(** [load_window_state] on a file that is not read. *)
Lemma load_window_state_unread `{platform} (o : io) (fs : file_system)
    (name : string) :
  load_file_data o fs _window_file_ = None →
  load_window_state o fs name = Ret None.
Proof.
  intros Hload. unfold load_window_state, load_window_file.
  rewrite Hload. by destruct (negb _).
Qed.

Lemma after_save_reads `{platform} (o : io) (fs : file_system) (j : json) :
  writes o →
  after_save o fs j !! _window_file_ = Some (json_dump (Some 4%nat) j).
Proof.
  intros [Hopen Hwritten]. unfold after_save.
  by rewrite Hopen, Hwritten, lookup_insert_eq.
Qed.

(** C2. Saving a window state under a save-name and then loading by that
    save-name returns the state, equal in all ten fields; loading a save-name
    that the persisted document has no entry for returns the empty optional.
    The state's integers are C++ [int]s, [parse] inverts [dump], what the
    save reads (if it reads anything) parses, the save can write and the
    load can read. *)
Theorem window_state_round_trip `{platform}
    (o1 o2 : io) (window : window_ref) (fs : file_system) :
  codec_round_trip →
  window.valid (get_window_state_of window) →
  (∀ data, load_file_data o1 fs _window_file_ = Some data →
           is_Some (json_parse data)) →
  writes o1 →
  reads o2 →
  (∃ fs', save_window_file o1 window fs = (Ret (), fs') ∧
          load_window_state o2 fs' (get_save_name window)
          = Ret (Some (get_window_state_of window))) ∧
  (∀ (o : io) (fs0 : file_system) (name : string),
     match fs0 !! _window_file_ with
     | Some data => ∃ j, json_parse data = Some j ∧ member j name = None
     | None => True
     end →
     load_window_state o fs0 name = Ret None).
Proof.
  intros Hcodec Hvalid Hparses Hwrites Hreads. split.
  - assert (∃ existing,
      save_window_file o1 window fs =
      (Ret (), after_save o1 fs
         (saved_document existing (get_save_name window)
                         (get_window_state_of window)))) as [existing Hsave].
    { destruct (load_file_data o1 fs _window_file_) as [data|] eqn:Hload.
      - destruct (Hparses data eq_refl) as [j Hj].
        exists (Some j). by eapply save_window_file_merge.
      - exists None. by apply save_window_file_fresh. }
    eexists. split; [exact Hsave|].
    destruct (saved_document_entry existing (get_save_name window)
                (get_window_state_of window)) as (entry & Hentry & Hholds).
    erewrite load_window_state_parsed.
    + rewrite Hentry. by rewrite (get_window_state_holds entry _ Hvalid Hholds).
    + rewrite load_file_data_reads by done. by apply after_save_reads.
    + apply Hcodec.
  - intros o fs0 name Hdoc.
    destruct (load_file_data o fs0 _window_file_) as [data|] eqn:Hload.
    + rewrite (load_file_data_some _ _ _ _ Hload) in Hdoc.
      destruct Hdoc as (j & Hj & Habsent).
      rewrite (load_window_state_parsed _ _ _ _ _ Hload Hj). by rewrite Habsent.
    + by apply load_window_state_unread.
Qed.

Lemma reference_codec_round_trip : @codec_round_trip reference_platform.
Proof. intros indent j. reflexivity. Qed.

Lemma reference_io_reads : reads reference_io.
Proof. repeat split. Qed.

Lemma reference_io_writes : writes reference_io.
Proof. split; [reflexivity | intros data; reflexivity]. Qed.

Lemma example_state_valid : window.valid example_state.
Proof. repeat split; cbn; lia. Qed.

(** The spec's scenario: the record saved under "main" is loaded back under
    "main" and not found under "secondary". *)
Lemma window_state_round_trip_witness :
  ∃ fs', save_window_file reference_io (WindowRef example_state "main") ∅
         = (Ret (), fs') ∧
         load_window_state reference_io fs' "main" = Ret (Some example_state) ∧
         load_window_state reference_io fs' "secondary" = Ret None.
Proof.
  destruct (window_state_round_trip reference_io reference_io
              (WindowRef example_state "main") ∅
              reference_codec_round_trip example_state_valid)
    as [(fs' & Hsave & Hload) Habsent].
  - intros data Hdata. vm_compute in Hdata. discriminate.
  - exact reference_io_writes.
  - exact reference_io_reads.
  - exists fs'. split; [exact Hsave|]. split; [exact Hload|].
    apply Habsent.
    assert (Hfs : save_window_file reference_io (WindowRef example_state "main") ∅
            = (Ret (), after_save reference_io ∅
                 (saved_document None "main" example_state))).
    { apply (save_window_file_fresh reference_io). reflexivity. }
    rewrite Hsave in Hfs. injection Hfs as ->.
    rewrite (after_save_reads reference_io _ _ reference_io_writes).
    eexists. split; [reflexivity|]. reflexivity.
Defined.

(** C3. When the save reads an existing document that has an entry under
    another save-name, the document it builds and writes has that entry
    unchanged, next to the entry under the window's own save-name. *)
Theorem save_preserves_other_entries `{platform}
    (o : io) (window : window_ref) (fs : file_system)
    (data : bytes) (j : json) (other : string) (entry : json) :
  load_file_data o fs _window_file_ = Some data →
  json_parse data = Some j →
  member j other = Some entry →
  get_save_name window ≠ other →
  ∃ j', save_window_file o window fs = (Ret (), after_save o fs j') ∧
        member j' other = Some entry ∧
        (∃ own, member j' (get_save_name window) = Some own ∧
                holds_state own (get_window_state_of window)) ∧
        (writes o → codec_round_trip →
         ∃ data', after_save o fs j' !! _window_file_ = Some data' ∧
                  json_parse data' = Some j').
Proof.
  intros Hload Hparse Hentry Hne.
  exists (saved_document (Some j) (get_save_name window)
                         (get_window_state_of window)).
  split; [by eapply save_window_file_merge|].
  split; [by rewrite saved_document_other|].
  split; [apply saved_document_entry|].
  intros Hwrites Hcodec. eexists. split; [by apply after_save_reads|].
  apply Hcodec.
Qed.

Lemma save_preserves_other_entries_witness :
  ∃ j', save_window_file reference_io (WindowRef example_state "main")
          secondary_files
        = (Ret (), after_save reference_io secondary_files j') ∧
        member j' "secondary" = Some (to_json secondary_state) ∧
        after_save reference_io secondary_files j' !! _window_file_
        = Some (Some j').
Proof.
  destruct (save_preserves_other_entries reference_io
              (WindowRef example_state "main") secondary_files
              (Some secondary_document) secondary_document "secondary"
              (to_json secondary_state))
    as (j' & Hsave & Hother & _ & Hfile).
  - reflexivity.
  - reflexivity.
  - reflexivity.
  - discriminate.
  - exists j'. split; [exact Hsave|]. split; [exact Hother|].
    destruct (Hfile reference_io_writes reference_codec_round_trip)
      as (data' & Hdata' & Hparse).
    rewrite <- Hparse. exact Hdata'.
Defined.

(** ** Persistence errors *)

Lemma on_save_returns `{platform} (a : app) (j : json) :
  j = JNull ∨ is_object j = true → returns (on_save a j).
Proof.
  intros [-> | Hobj]; [|destruct j; try discriminate];
    unfold on_save; cbn; eexists; reflexivity.
Qed.

(** [read_file] on a name that does not open: the release build returns
    false, and with assertions compiled in the [assert] aborts. *)
Lemma read_file_unopened `{platform} `{streams} (o : io) (fs : file_system)
    (filename : string) :
  match fs !! filename with
  | Some _ => open_read_ok o
  | None => opens_without_size filename
  end = false →
  read_file false o fs filename = Throw assertion_failed ∧
  read_file true o fs filename = Ret None.
Proof. intros Hopen. unfold read_file. rewrite Hopen. done. Qed.


(** ** The registered steps *)

(** Runs the monadic operations of a step on a symbolic application object
    and flattens the trace. *)
Ltac run_step :=
  cbv beta iota zeta delta
    [mbind M_bind mret M_ret emit modify gets get_state lift when and_then
     on_files];
  cbn [fst snd
       trace set_trace frame_counter set_frame_counter config set_config
       run_time set_run_time gui_active set_gui_active toggle_v_sync
       set_toggle_v_sync device set_device files set_files window_save_name
       cmd_line config_file_path
       v_sync set_v_sync physical_device set_physical_device save_window
       negb];
  rewrite <- ?app_assoc; cbn [List.app].

(** Membership in an explicit list of events. *)
Ltac in_trace := apply list_elem_of_In; cbn; tauto.
Ltac not_in_trace H :=
  apply list_elem_of_In in H; cbn in H; intuition discriminate.

(** C6. The render step, call by call. An iconified window makes it sleep
    and return [true]; no available frame index makes it return [true]
    after [begin_frame] alone, with the frame counter where it was. With a
    frame index the counter advances by one and the Render Block processes
    that frame: if [block.process] fails the step returns [false] and the
    frame is not ended; otherwise the frame is ended and the result is what
    [plotter.end_frame] answers. So the step returns [false] exactly when
    [block.process] fails, or succeeds and [plotter.end_frame] fails, on a
    window that is not iconified and has a frame index. It raises no
    exception and changes nothing but the counter. *)
Theorem render_step `{platform} (p : oracle) (a : app) :
  ∃ (result : bool) (a' : app) (done : list event),
    render_run p a = (Ret result, a') ∧
    trace a' = trace a ++ done ∧
    (iconified p = true →
       result = true ∧ done = [ev_sleep] ∧
       frame_counter a' = frame_counter a) ∧
    (iconified p = false → begin_frame p = None →
       result = true ∧ done = [ev_begin_frame] ∧
       frame_counter a' = frame_counter a) ∧
    (iconified p = false → is_Some (begin_frame p) →
       frame_counter a' = frame_counter a + 1) ∧
    (∀ i, iconified p = false → begin_frame p = Some i →
       done = [ev_begin_frame; ev_block_process i] ++
              (if block_process_ok p then [ev_end_frame] else []) ∧
       result = block_process_ok p && end_frame_ok p) ∧
    (result = false ↔
       (∃ i, ev_block_process i ∈ done ∧ block_process_ok p = false) ∨
       (ev_end_frame ∈ done ∧ end_frame_ok p = false)) ∧
    (result = false ↔
       iconified p = false ∧ is_Some (begin_frame p) ∧
       (block_process_ok p = false ∨ end_frame_ok p = false)) ∧
    config a' = config a ∧ run_time a' = run_time a ∧
    gui_active a' = gui_active a ∧ toggle_v_sync a' = toggle_v_sync a ∧
    files a' = files a.
Proof.
  unfold render_run.
  destruct (iconified p) eqn:Hicon.
  { exists true. do 2 eexists. run_step.
    split; [reflexivity|]. run_step. split; [reflexivity|].
    split; [done|]. split; [done|]. split; [done|]. split; [done|].
    split.
    { split; [done|].
      intros [(i & Hmem & Hfail) | (Hmem & Hfail)]; not_in_trace Hmem. }
    split; [|done].
    split; [done|]. by intros (? & _). }
  destruct (begin_frame p) as [i|] eqn:Hframe.
  2: { exists true. do 2 eexists. run_step.
       split; [reflexivity|]. run_step. split; [reflexivity|].
       split; [done|]. split; [done|].
       split; [by intros _ [? ?]|]. split; [done|].
       split.
       { split; [done|].
         intros [(i & Hmem & Hfail) | (Hmem & Hfail)]; not_in_trace Hmem. }
       split; [|done].
       split; [done|]. by intros (_ & [? ?] & _). }
  destruct (block_process_ok p) eqn:Hprocess.
  2: { exists false. do 2 eexists. run_step.
       split; [reflexivity|]. run_step. split; [reflexivity|].
       split; [done|]. split; [done|]. split; [done|].
       split; [by intros i' _ [= <-]|].
       split.
       { split; [|done]. intros _. left. exists i. split; [in_trace|done]. }
       split; [|done].
       split; [|done]. intros _. split; [done|]. split; [by eexists|].
       by left. }
  exists (end_frame_ok p). do 2 eexists. run_step.
  split; [reflexivity|]. run_step. split; [reflexivity|].
  split; [done|]. split; [done|]. split; [done|].
  split; [by intros i' _ [= <-]|].
  split.
  { split.
    - intros Hend. right. split; [in_trace|done].
    - intros [(i' & Hmem & Hfail) | (Hmem & Hend)]; [discriminate|done]. }
  split; [|done].
  split.
  - intros Hend. split; [done|]. split; [by eexists|]. by right.
  - intros (_ & _ & [?|?]); [discriminate|done].
Qed.

(** ** The parts of a rebuild *)

Lemma occurs_in_order_sublist (l1 l2 : list event) :
  occurs_in_order l1 l2 = true ↔ l1 `sublist_of` l2.
Proof.
  split.
  - revert l1. induction l2 as [|y l2 IH]; intros [|x l1] Hocc;
      cbn in Hocc; try done.
    + apply sublist_nil_l.
    + destruct (decide (x = y)) as [->|Hne].
      * apply sublist_skip. by apply IH.
      * apply sublist_cons. by apply IH.
  - revert l1. induction l2 as [|y l2 IH]; intros [|x l1] Hsub; cbn; try done.
    + by apply sublist_nil_r in Hsub.
    + apply sublist_cons_r in Hsub as [Hsub | (l' & Heq & Hsub)].
      * destruct (decide (x = y)) as [->|Hne]; [|by apply IH].
        apply IH. etrans; [|exact Hsub]. by apply sublist_cons.
      * injection Heq as -> ->. by rewrite decide_True; [apply IH|].
Qed.

Lemma emit_run `{platform} (e : event) (a : app) :
  emit e a = (Ret (), set_trace (trace a ++ [e]) a).
Proof. reflexivity. Qed.

Lemma destroy_target_run `{platform} (p : oracle) (a : app) :
  destroy_target p a =
  (Ret (), set_trace (trace a ++ destroy_target_sequence (has_on_destroy p)) a).
Proof.
  unfold destroy_target, destroy_target_sequence.
  destruct (has_on_destroy p); run_step; reflexivity.
Qed.

Lemma destroy_gui_run `{platform} (a : app) :
  destroy_gui a = (Ret (), set_trace (trace a ++ destroy_gui_sequence) a).
Proof. unfold destroy_gui, destroy_gui_sequence. run_step. reflexivity. Qed.

(** [create_target] performs its calls in order and stops at the first one
    that fails; it returns [true] only after all of them. *)
Lemma create_target_run `{platform} (p : oracle) (a : app) :
  ∃ (result : bool) (done : list event),
    create_target p a = (Ret result, set_trace (trace a ++ done) a) ∧
    done `prefix_of`
      create_target_sequence (v_sync (config a))
                             (bool_decide (is_Some (on_create p))) ∧
    (result = true →
     done = create_target_sequence (v_sync (config a))
                                   (bool_decide (is_Some (on_create p)))).
Proof.
  unfold create_target, create_target_sequence.
  destruct (create_target_ok p);
    [destruct (shading_create_ok p);
     [destruct (plotter_create_ok p);
      [destruct (on_create p) as [[|]|]|]|]|];
    run_step; do 2 eexists;
    (split; [reflexivity|]);
    (split; [by eexists|]); done.
Qed.

Lemma create_gui_run `{platform} (p : oracle) (a : app) :
  ∃ (result : bool) (done : list event),
    create_gui p a = (Ret result, set_trace (trace a ++ done) a) ∧
    done `prefix_of` create_gui_sequence ∧
    (result = true → done = create_gui_sequence).
Proof.
  unfold create_gui, create_gui_sequence.
  destruct (gui_create_ok p); [destruct (upload_fonts_ok p)|];
    run_step; do 2 eexists;
    (split; [reflexivity|]);
    (split; [by eexists|]); done.
Qed.

Lemma rebuild_sequence_leaves_block (with_on_destroy : bool)
    (switch : option (bool * option window.state)) (v_sync : bool)
    (with_on_create : bool) :
  let full := rebuild_sequence with_on_destroy switch v_sync with_on_create in
  (ev_block_destroy ∉ full) ∧ (ev_block_create ∉ full) ∧
  (ev_block_add_cmd ∉ full).
Proof.
  destruct with_on_destroy, switch as [[[] applied]|], with_on_create;
    repeat split; intros Hmem; not_in_trace Hmem.
Qed.

(** ** The window step *)

Ltac simpl_state_in H :=
  cbn [fst snd
       trace set_trace frame_counter set_frame_counter config set_config
       run_time set_run_time gui_active set_gui_active toggle_v_sync
       set_toggle_v_sync device set_device files set_files window_save_name
       cmd_line config_file_path
       v_sync set_v_sync physical_device set_physical_device save_window
       negb] in H.

Ltac use_create_target :=
  match goal with
  | |- context [create_target ?p ?s] =>
      let r := fresh "target_ok" in
      let d := fresh "target_done" in
      let Hp := fresh "Htarget_prefix" in
      let Hf := fresh "Htarget_full" in
      destruct (create_target_run p s) as (r & d & -> & Hp & Hf);
      run_step; simpl_state_in Hp; simpl_state_in Hf;
      destruct r; [specialize (Hf eq_refl); subst d|]
  end.

Ltac use_create_gui :=
  match goal with
  | |- context [create_gui ?p ?s] =>
      let r := fresh "gui_ok" in
      let d := fresh "gui_done" in
      let Hp := fresh "Hgui_prefix" in
      let Hf := fresh "Hgui_full" in
      destruct (create_gui_run p s) as (r & d & -> & Hp & Hf);
      run_step; destruct r; [specialize (Hf eq_refl); subst d|]
  end.

Lemma performed_prefix (steps : plan) : performed steps `prefix_of` steps.*1.
Proof.
  induction steps as [|[e []] steps IH]; cbn.
  - done.
  - by apply prefix_cons.
  - apply prefix_cons, prefix_nil.
  - apply prefix_cons, prefix_nil.
Qed.

Lemma performed_all (steps : plan) :
  plan_result steps = Ret true → performed steps = steps.*1.
Proof.
  induction steps as [|[e []] steps IH]; cbn; try done.
  intros Hr. by rewrite IH.
Qed.

Lemma rebuild_plan_calls `{platform} (p : oracle) (a : app) :
  (rebuild_plan p a).*1 =
  rebuild_sequence (has_on_destroy p)
    (if switch_mode_request p
     then Some (save_window (config a), switch_applied p a) else None)
    (xorb (v_sync (config a)) (toggle_v_sync a))
    (bool_decide (is_Some (on_create p))).
Proof.
  unfold rebuild_plan, rebuild_sequence, all_succeed, switch_mode_sequence,
    create_target_sequence, create_gui_sequence, destroy_target_sequence,
    destroy_gui_sequence.
  destruct (has_on_destroy p), (switch_mode_request p),
    (save_window (config a)), (on_create p); reflexivity.
Qed.

(** Rewrites with the answers found so far and evaluates the plan. *)
Ltac use_answers :=
  repeat (progress
    (repeat match goal with
            | H : _ = _ |- _ => rewrite H
            end;
     cbn [answered answered_by fst snd performed plan_result List.app
          fmap list_fmap option_fmap option_map negb xorb]));
  rewrite ?xorb_false_r, ?xorb_true_r.

Ltac close_plan :=
  eexists; unfold rebuild_plan, switch_applied, switch_loaded, switch_saved,
    all_succeed, destroy_target_sequence, destroy_gui_sequence;
  cbn [config toggle_v_sync files window_save_name v_sync save_window];
  use_answers; split; reflexivity.

(** One step on an application object given field by field: the object
    stays a plain record. *)
Ltac flat_step :=
  run_step;
  cbv beta iota delta [set_trace set_config set_toggle_v_sync set_files];
  cbn [trace config run_time gui_active toggle_v_sync frame_counter device
       window_save_name cmd_line config_file_path files].

(** The creation of the target and of the GUI, answer by answer. *)
Ltac create_both p :=
  unfold create_target, create_gui; flat_step;
  destruct (create_target_ok p) eqn:?; flat_step; [|close_plan];
  destruct (shading_create_ok p) eqn:?; flat_step; [|close_plan];
  destruct (plotter_create_ok p) eqn:?; flat_step; [|close_plan];
  destruct (on_create p) as [[]|] eqn:?; flat_step;
  [ | close_plan | ];
  (destruct (gui_create_ok p) eqn:?; flat_step; [|close_plan];
   destruct (upload_fonts_ok p) eqn:?; flat_step; close_plan).

(** The load and the switch of a mode switch, then the rest. *)
Ltac load_and_switch p :=
  unfold app_load_window_state; flat_step;
  lazymatch goal with
  | |- context [load_window_state ?o ?fs ?n] =>
      destruct (load_window_state o fs n) as [?|?] eqn:?
  end; flat_step; [|close_plan];
  destruct (switch_mode_ok p) eqn:?; flat_step; [|close_plan];
  unfold set_window_icon; flat_step;
  create_both p.

Lemma handle_window_run_plan `{platform} (p : oracle) (a : app) :
  close_request p = false →
  (switch_mode_request p || toggle_v_sync a || reload_request p) = true →
  ∃ a', handle_window_run p a = (plan_result (rebuild_plan p a), a') ∧
        trace a' = trace a ++ performed (rebuild_plan p a).
Proof.
  intros Hclose Hreq.
  destruct a as [c r g toggle fc d wn cl cp fs tr].
  cbn [toggle_v_sync] in Hreq.
  unfold handle_window_run. rewrite Hclose. flat_step. rewrite Hreq.
  clear Hreq.
  unfold destroy_target, destroy_gui. flat_step.
  destruct (has_on_destroy p) eqn:Hdestroy, toggle; flat_step.
  all: destruct (switch_mode_request p) eqn:Hswitch; flat_step;
         [|create_both p].
  all: destruct (save_window c) eqn:Hsave; flat_step;
         [|load_and_switch p].
  all: unfold app_save_window_file; flat_step;
       lazymatch goal with
       | |- context [save_window_file ?o ?w ?fs] =>
           destruct (save_window_file o w fs) as [[[]|?] ?] eqn:?
       end; flat_step; [|close_plan];
       load_and_switch p.
Qed.

(** C1, as the code has it. On a tick with a mode-switch, v-sync-toggle or
    reload request pending (and no close request), the window step performs
    the calls of its plan in their order and stops at the first call that
    does not succeed; that call is the last one made. The plan is: wait for
    GPU idle; the target teardown ([on_destroy] if installed, plotter,
    shading pass, target); the GUI teardown (GUI, fonts); on a mode switch,
    the save of the window file if [config.save_window] is set, the load of
    the window state, [window.switch_mode] and the window icon; the target
    creation with the current v-sync setting (inverted first when a toggle
    is pending), shading pass, plotter, input assignment and [on_create] if
    installed; the GUI creation with its pipeline added to the render pass
    and the fonts uploaded. The step returns [true] when every call
    succeeded, [false] when a call reported a failure, and raises what the
    window file raised. The Render Block is neither destroyed nor
    recreated. *)
Theorem handle_window_rebuild_order `{platform} (p : oracle) (a : app) :
  close_request p = false →
  (switch_mode_request p || toggle_v_sync a || reload_request p) = true →
  ∃ (r : outcome bool) (a' : app) (done : list event)
    (applied : option window.state),
    handle_window_run p a = (r, a') ∧
    trace a' = trace a ++ done ∧
    r = plan_result (rebuild_plan p a) ∧
    done = performed (rebuild_plan p a) ∧
    applied = switch_applied p a ∧
    let full :=
      rebuild_sequence (has_on_destroy p)
        (if switch_mode_request p
         then Some (save_window (config a), applied) else None)
        (xorb (v_sync (config a)) (toggle_v_sync a))
        (bool_decide (is_Some (on_create p))) in
    (rebuild_plan p a).*1 = full ∧
    (done `prefix_of` full ∧ (r = Ret true → done = full)) ∧
    (ev_block_destroy ∉ full) ∧ (ev_block_create ∉ full) ∧
    (ev_block_add_cmd ∉ full).
Proof.
  intros Hclose Hreq.
  destruct (handle_window_run_plan p a Hclose Hreq) as (a' & Hrun & Htrace).
  exists (plan_result (rebuild_plan p a)), a', (performed (rebuild_plan p a)),
    (switch_applied p a).
  split; [exact Hrun|]. split; [exact Htrace|].
  split; [reflexivity|]. split; [reflexivity|]. split; [reflexivity|].
  cbn zeta. split; [apply rebuild_plan_calls|].
  split; [split|].
  - rewrite <- rebuild_plan_calls. apply performed_prefix.
  - intros Hr. rewrite <- rebuild_plan_calls. by apply performed_all.
  - apply rebuild_sequence_leaves_block.
Qed.

Lemma handle_window_rebuild_order_witness :
  (∃ a', handle_window_run quiet_oracle toggling_app = (Ret true, a') ∧
         trace a' =
           [ev_wait_for_idle;
            ev_plotter_destroy; ev_shading_destroy; ev_target_destroy;
            ev_gui_destroy; ev_fonts_destroy;
            ev_create_target true; ev_shading_create; ev_plotter_create;
            ev_window_assign_input;
            ev_setup_font; ev_gui_setup; ev_gui_create;
            ev_pass_add_gui_pipeline; ev_upload_fonts;
            ev_staging_add_fonts]) ∧
  (∃ a', handle_window_run shading_failing_oracle example_app
         = (Ret false, a') ∧
         trace a' =
           [ev_wait_for_idle;
            ev_plotter_destroy; ev_shading_destroy; ev_target_destroy;
            ev_gui_destroy; ev_fonts_destroy;
            ev_create_target false; ev_shading_create]).
Proof.
  split.
  - destruct (handle_window_rebuild_order quiet_oracle toggling_app
                eq_refl eq_refl)
      as (r & a' & done & applied & Hrun & Htrace & -> & -> & _).
    exists a'. split; [exact Hrun | exact Htrace].
  - destruct (handle_window_rebuild_order shading_failing_oracle example_app
                eq_refl eq_refl)
      as (r & a' & done & applied & Hrun & Htrace & -> & -> & _).
    exists a'. split; [exact Hrun | exact Htrace].
Defined.

(** C1, as specified, fails: with a v-sync toggle pending and every
    call succeeding, the step returns [true] after the calls listed here. The
    target is destroyed before the GUI, no call destroys or recreates the
    Render Block, and so the claimed order (with either v-sync setting) does
    not occur in the trace. *)
Lemma handle_window_claimed_order_fails :
  (handle_window_run quiet_oracle toggling_app).1 = Ret true ∧
  trace (handle_window_run quiet_oracle toggling_app).2 =
    [ev_wait_for_idle;
     ev_plotter_destroy; ev_shading_destroy; ev_target_destroy;
     ev_gui_destroy; ev_fonts_destroy;
     ev_create_target true; ev_shading_create; ev_plotter_create;
     ev_window_assign_input;
     ev_setup_font; ev_gui_setup; ev_gui_create; ev_pass_add_gui_pipeline;
     ev_upload_fonts; ev_staging_add_fonts] ∧
  occurs_in_order (claimed_rebuild_order true)
    (trace (handle_window_run quiet_oracle toggling_app).2) = false ∧
  occurs_in_order (claimed_rebuild_order false)
    (trace (handle_window_run quiet_oracle toggling_app).2) = false ∧
  occurs_in_order [ev_gui_destroy; ev_target_destroy]
    (trace (handle_window_run quiet_oracle toggling_app).2) = false ∧
  occurs_in_order [ev_block_destroy]
    (trace (handle_window_run quiet_oracle toggling_app).2) = false.
Proof. repeat split; vm_compute; reflexivity. Qed.

(** The teardown at the end of the run, for comparison, destroys the GUI,
    then the Render Block, then the target. *)
Lemma run_end_order :
  occurs_in_order [ev_gui_destroy; ev_block_destroy; ev_target_destroy]
    (trace (run_end quiet_oracle example_app).2) = true.
Proof. vm_compute. reflexivity. Qed.

(** ** The v-sync toggle *)

(** Closes a leaf: the flag was consumed (cleared, the setting inverted), or
    the step left before the toggle and both are as they were. *)
Ltac close_toggle :=
  do 2 eexists; split; [reflexivity|]; run_step;
  match goal with
  | Htoggle : toggle_v_sync _ = _ |- _ => rewrite ?Htoggle
  end;
  first
    [ left; split; [reflexivity|];
      rewrite ?xorb_true_r, ?xorb_false_r; reflexivity
    | right; split; [reflexivity|]; split; [reflexivity|];
      first [ by left | right; discriminate ] ].

Ltac toggle_tail :=
  match goal with
  | Htoggle : toggle_v_sync _ = _ |- _ =>
      run_step; rewrite ?Htoggle; run_step
  end;
  use_create_target; [use_create_gui|]; close_toggle.

Ltac toggle_switch p :=
  unfold app_load_window_state; run_step;
  destruct (load_window_state _ _ _) as [?|?]; run_step;
  [ destruct (switch_mode_ok p); run_step;
    [ unfold set_window_icon; run_step; toggle_tail
    | close_toggle ]
  | close_toggle ].

Ltac toggle_rebuild p a :=
  rewrite destroy_target_run; run_step; rewrite destroy_gui_run; run_step;
  destruct (switch_mode_request p); [|toggle_tail];
  destruct (save_window (config a)) eqn:Hsave; run_step; rewrite Hsave;
  [ unfold app_save_window_file; run_step;
    destruct (save_window_file _ _ _) as [[[]|?] ?]; run_step;
    [ toggle_switch p | close_toggle ]
  | run_step; toggle_switch p ].

(** What one run of the window step does to the flag and the setting. *)
Lemma handle_window_run_v_sync `{platform} (p : oracle) (a : app) :
  ∃ (r : outcome bool) (a' : app),
    handle_window_run p a = (r, a') ∧
    ((toggle_v_sync a' = false ∧
      v_sync (config a') = xorb (v_sync (config a)) (toggle_v_sync a)) ∨
     (toggle_v_sync a' = toggle_v_sync a ∧
      v_sync (config a') = v_sync (config a) ∧
      (close_request p = true ∨ r ≠ Ret true))).
Proof.
  unfold handle_window_run.
  destruct (close_request p) eqn:Hclose.
  { unfold shut_down. run_step. do 2 eexists. split; [reflexivity|].
    right. run_step. auto. }
  run_step.
  destruct (toggle_v_sync a) eqn:Htoggle.
  - rewrite orb_true_r. cbn [orb]. toggle_rebuild p a.
  - rewrite orb_false_r.
    destruct (switch_mode_request p || reload_request p) eqn:Hreq.
    + toggle_rebuild p a.
    + destruct (resize_request p); run_step; close_toggle.
Qed.


Lemma v_sync_inversions_bound `{platform} (ps : list oracle) (a : app) :
  (v_sync_inversions ps a ≤ if toggle_v_sync a then 1 else 0)%nat.
Proof.
  revert a. induction ps as [|p ps IH]; intros a; cbn [v_sync_inversions].
  { destruct (toggle_v_sync a); lia. }
  destruct (handle_window_run_v_sync p a)
    as (r & a' & -> & [[Hflag Hsync] | (Hflag & Hsync & _)]);
    cbn [snd]; specialize (IH a').
  - rewrite Hflag in IH. rewrite Hsync.
    destruct (toggle_v_sync a), (v_sync (config a)); cbn [xorb negb];
      case_bool_decide; try done; lia.
  - rewrite Hflag in IH. rewrite Hsync, bool_decide_true by done.
    destruct (toggle_v_sync a); lia.
Qed.

(** C8. The v-sync toggle flag is edge-triggered: the key listener sets it
    on alt+backspace (key events handled, keyboard not captured by the GUI,
    the event not one of the keys checked before it) without touching the
    setting; a run of the window step that finds it set
    either consumes it, clearing it and inverting [config.v_sync] once, or
    leaves before the toggle (close request, or a failed or throwing mode
    switch) with flag and setting as they were; a run that finds it clear
    leaves the setting alone; and over any number of runs with no key event
    in between the setting is inverted at most once. *)
Theorem v_sync_toggle_consumed_once `{platform} :
  (∀ (p : oracle) (e : key_event) (a : app),
     gui_capture_keyboard p = false →
     handle_key_events (config a) = true →
     pressed_escape e = false → pressed_enter_alt e = false →
     pressed_backspace_alt e = true →
     ∃ a', key_listener p e a = (Ret true, a') ∧
           toggle_v_sync a' = true ∧
           v_sync (config a') = v_sync (config a)) ∧
  (∀ (p : oracle) (a : app),
     ∃ (r : outcome bool) (a' : app),
       handle_window_run p a = (r, a') ∧
       (toggle_v_sync a = false →
        toggle_v_sync a' = false ∧ v_sync (config a') = v_sync (config a)) ∧
       (toggle_v_sync a = true →
        (toggle_v_sync a' = false ∧
         v_sync (config a') = negb (v_sync (config a))) ∨
        (toggle_v_sync a' = true ∧ v_sync (config a') = v_sync (config a) ∧
         (close_request p = true ∨ r ≠ Ret true)))) ∧
  (∀ (ps : list oracle) (a : app),
     (v_sync_inversions ps a ≤ if toggle_v_sync a then 1 else 0)%nat).
Proof.
  split; [|split].
  - intros p e a Hcapture Hkeys Hescape Henter Hbackspace.
    unfold key_listener. rewrite Hcapture. run_step.
    rewrite Hkeys, Hescape, Henter, Hbackspace.
    destruct (pressed_tab e); run_step; eexists; (split; [reflexivity|]);
      done.
  - intros p a.
    destruct (handle_window_run_v_sync p a) as (r & a' & Hrun & Hcases).
    exists r, a'. split; [exact Hrun|]. split; intros Htoggle;
      rewrite Htoggle in Hcases.
    + destruct Hcases as [[Hflag Hsync] | (Hflag & Hsync & _)];
        rewrite ?xorb_false_r in Hsync; done.
    + destruct Hcases as [[Hflag Hsync] | (Hflag & Hsync & Hleft)];
        rewrite ?xorb_true_r in Hsync; [left | right]; done.
  - apply v_sync_inversions_bound.
Qed.

(** ** [setup] *)

Lemma keeps_bind `{platform} {A B} (m : M app A) (k : A → M app B) :
  keeps_environment m → (∀ x, keeps_environment (k x)) →
  keeps_environment (m ≫= k).
Proof.
  intros Hm Hk s. rewrite M_bind_run.
  specialize (Hm s). destruct (m s) as [[x|e] s1]; cbn [snd] in *.
  - specialize (Hk x s1). destruct Hk as [Hk1 Hk2], Hm as [Hm1 Hm2].
    unfold same_environment in *. intuition congruence.
  - exact Hm.
Qed.

Lemma keeps_lift `{platform} {A} (o : outcome A) : keeps_environment (lift o).
Proof. intros s. repeat split. Qed.

Lemma keeps_ret `{platform} {A} (x : A) : keeps_environment (mret x).
Proof. intros s. repeat split. Qed.

Lemma keeps_set_config `{platform} (f : app_config → app_config) :
  keeps_environment (modify (set_config f)).
Proof. intros s. repeat split. Qed.

Lemma keeps_set_run_time `{platform} (f : run_time_config → run_time_config) :
  keeps_environment (modify (set_run_time f)).
Proof. intros s. repeat split. Qed.

Lemma keeps_set_gui_active `{platform} (v : bool) :
  keeps_environment (modify (set_gui_active v)).
Proof. intros s. repeat split. Qed.

Lemma keeps_when `{platform} (c : bool) (m : M app ()) :
  keeps_environment m → keeps_environment (when c m).
Proof. destruct c; [done|]. intros _. apply keeps_ret. Qed.

Lemma on_load_keeps `{platform} (j : json) : keeps_environment (on_load j).
Proof.
  unfold on_load.
  repeat first
    [ apply keeps_bind; [|intros ?]
    | apply keeps_when
    | apply keeps_lift
    | apply keeps_set_config
    | apply keeps_set_run_time
    | apply keeps_set_gui_active ].
Qed.

Lemma keeps_gets `{platform} {A} (f : app → A) : keeps_environment (gets f).
Proof. intros s. repeat split. Qed.

Lemma json_file_load_keeps `{platform} (o : io) (path : string)
    (callback : json → M app ()) :
  (∀ j, keeps_environment (callback j)) →
  keeps_environment (json_file_load o path callback).
Proof.
  intros Hcallback. unfold json_file_load.
  apply keeps_bind; [apply keeps_gets|]. intros fs.
  destruct (load_file_data o fs path); [|apply keeps_ret].
  apply keeps_bind; [apply keeps_lift|]. intros j.
  apply keeps_bind; [apply Hcallback|]. intros _. apply keeps_ret.
Qed.

Lemma handle_config_run `{platform} (p : oracle) (s : app) :
  ∃ (r : outcome ()) (s1 : app),
    handle_config p s = (r, s1) ∧ same_environment s s1 ∧
    trace s1 = trace s ++ [ev_config_file_load].
Proof.
  unfold handle_config. rewrite M_bind_run, emit_run.
  rewrite M_bind_run. cbn [gets].
  set (s0 := set_trace (trace s ++ [ev_config_file_load]) s).
  rewrite M_bind_run.
  destruct (json_file_load_keeps (config_io p) (config_file_path s0) on_load
              on_load_keeps s0) as [Henv Htrace].
  destruct (json_file_load _ _ _ s0) as [[b|e] s1]; cbn [snd] in *;
    do 2 eexists; (split; [reflexivity|]); split; assumption.
Qed.

Lemma create_block_run `{platform} (p : oracle) (a : app) :
  ∃ (result : bool) (done : list event),
    create_block p a = (Ret result, set_trace (trace a ++ done) a) ∧
    done `prefix_of` create_block_sequence ∧
    (result = true → done = create_block_sequence).
Proof.
  unfold create_block, create_block_sequence.
  destruct (block_create_ok p);
    run_step; do 2 eexists;
    (split; [reflexivity|]);
    (split; [by eexists|]); done.
Qed.

Ltac use_create_block :=
  match goal with
  | |- context [create_block ?p ?s] =>
      let r := fresh "block_ok" in
      let d := fresh "block_done" in
      let Hp := fresh "Hblock_prefix" in
      let Hf := fresh "Hblock_full" in
      destruct (create_block_run p s) as (r & d & -> & Hp & Hf);
      run_step; destruct r; [specialize (Hf eq_refl); subst d|]
  end.

(** The only device and target creations in a [setup] are those with the
    settings of its sequence. *)
Lemma setup_sequence_settings (applied : option window.state)
    (has_device : bool) (pd : Z) (v : bool) (with_on_create : bool) :
  let full := setup_sequence applied has_device pd v with_on_create in
  (∀ v', ev_create_target v' ∈ full → v' = v) ∧
  (∀ pd', ev_create_device pd' ∈ full → pd' = pd) ∧
  occurs_in_order [ev_config_file_load; ev_window_create applied;
                   ev_create_target v] full = true ∧
  (has_device = false →
   occurs_in_order [ev_config_file_load; ev_window_create applied;
                    ev_create_device pd; ev_create_target v] full = true).
Proof.
  cbn zeta. split; [|split; [|split]].
  - intros v' Hmem. apply list_elem_of_In in Hmem.
    destruct has_device, with_on_create; cbn in Hmem;
      intuition (try discriminate; congruence).
  - intros pd' Hmem. apply list_elem_of_In in Hmem.
    destruct has_device, with_on_create; cbn in Hmem;
      intuition (try discriminate; congruence).
  - unfold setup_sequence, create_target_sequence.
    destruct has_device; cbn [List.app occurs_in_order];
      repeat (first [rewrite decide_True by reflexivity
                    | rewrite decide_False by discriminate];
              cbn [occurs_in_order]); reflexivity.
  - intros ->. unfold setup_sequence, create_target_sequence.
    cbn [List.app occurs_in_order];
      repeat (first [rewrite decide_True by reflexivity
                    | rewrite decide_False by discriminate];
              cbn [occurs_in_order]); reflexivity.
Qed.

(** Closes a leaf of [setup]: the calls made are a prefix of the full
    sequence; all of them were made, with the settings in place, when
    [setup] returned [true]; and the config the overrides were applied to is
    the one the config load left. *)
Ltac close_setup loaded applied :=
  do 3 eexists; exists loaded, applied;
  split; [reflexivity|]; run_step;
  repeat match goal with
         | Htrace : trace _ = _ |- _ => rewrite Htrace
         end;
  rewrite <- ?app_assoc; cbn [List.app];
  split; [first [reflexivity | symmetry; apply app_nil_r]|];
  unfold setup_sequence, registration_sequence; cbn [List.app];
  split;
  [ repeat first [ apply prefix_cons | apply prefix_app | apply prefix_nil
                 | assumption | apply prefix_app_r; assumption
                 | reflexivity ]
  | split;
    [ intros Hresult;
      first [discriminate Hresult | repeat split; reflexivity]
    | intros Hready Hinit;
      first [discriminate Hready | discriminate Hinit | reflexivity] ] ].

(** [setup] call by call. [loaded] is the config as the load of the config
    file left it; the overrides are extracted on top of it. *)
Lemma setup_run `{platform} (p : oracle) (a : app) :
  ∃ (r : outcome bool) (a' : app) (done : list event)
    (loaded : app_config) (applied : option window.state),
    setup p a = (r, a') ∧
    trace a' = trace a ++ done ∧
    let v :=
      extract (cmd_line_stream (cmd_line a) ["-vs"; "--v_sync"])
              extract_bool (v_sync loaded) in
    let pd :=
      extract (cmd_line_stream (cmd_line a) ["-pd"; "--physical_device"])
              extract_index (physical_device loaded) in
    let full :=
      setup_sequence applied (device a) pd v
                     (bool_decide (is_Some (on_create p))) in
    done `prefix_of` full ∧
    (r = Ret true →
     done = full ∧ v_sync (config a') = v ∧
     physical_device (config a') = pd) ∧
    (frame_ready p = true → file_system_initialize_ok p = true →
     loaded =
     config ((emit ev_file_system_initialize;; emit ev_mount_res;;
              handle_config p) a).2).
Proof.
  unfold setup.
  destruct (frame_ready p); cbn [negb];
    [|close_setup (config a) (@None window.state)].
  run_step.
  destruct (file_system_initialize_ok p); cbn [negb];
    [|close_setup (config a) (@None window.state)].
  run_step.
  match goal with
  | |- context [handle_config p ?s] =>
      destruct (handle_config_run p s)
        as (rc & s1 & Hcfg & (Hcmd & Hdev & _) & Htrace);
      rewrite Hcfg
  end.
  simpl_state_in Hcmd. simpl_state_in Hdev. simpl_state_in Htrace.
  destruct rc as [[]|e]; run_step;
    [|close_setup (config s1) (@None window.state)].
  rewrite Hcmd.
  unfold app_load_window_state. run_step.
  destruct (load_window_state _ _ _) as [ws|e]; run_step;
    [|close_setup (config s1) (@None window.state)].
  destruct (window_create_ok p); run_step;
    [|close_setup (config s1) ws].
  unfold set_window_icon. run_step. rewrite Hdev.
  destruct (device a) eqn:Hdevice; run_step;
    [|destruct (create_device_ok p); run_step;
      [|close_setup (config s1) ws]];
    (use_create_target; [|close_setup (config s1) ws]);
    (destruct (camera_create_ok p); run_step;
     [|close_setup (config s1) ws]);
    (use_create_gui; [|close_setup (config s1) ws]);
    (use_create_block; [|close_setup (config s1) ws]);
    unfold handle_input, handle_window, update, render; run_step;
    close_setup (config s1) ws.
Qed.

(** C7. The command line overrides of v-sync and physical device are
    applied after the config file was loaded and before the window, the
    device and the target are created: the calls of [setup] follow its
    sequence, in which the config load precedes the window, device and target
    creation; the settings the device and the target are created with, and
    that [config] holds when [setup] returns [true], are extracted from the
    command line on top of the config as loaded; so a supplied value that
    extracts is the one used, whatever the config file says. *)
Theorem command_line_overrides `{platform} (p : oracle) (a : app) :
  ∃ (r : outcome bool) (a' : app) (done : list event)
    (loaded : app_config) (applied : option window.state),
    setup p a = (r, a') ∧
    trace a' = trace a ++ done ∧
    let v :=
      extract (cmd_line_stream (cmd_line a) ["-vs"; "--v_sync"])
              extract_bool (v_sync loaded) in
    let pd :=
      extract (cmd_line_stream (cmd_line a) ["-pd"; "--physical_device"])
              extract_index (physical_device loaded) in
    let full :=
      setup_sequence applied (device a) pd v
                     (bool_decide (is_Some (on_create p))) in
    (done `prefix_of` full ∧
     (r = Ret true →
      done = full ∧ v_sync (config a') = v ∧
      physical_device (config a') = pd) ∧
     (frame_ready p = true → file_system_initialize_ok p = true →
      loaded =
      config ((emit ev_file_system_initialize;; emit ev_mount_res;;
               handle_config p) a).2)) ∧
    (occurs_in_order [ev_config_file_load; ev_window_create applied;
                      ev_create_target v] full = true ∧
     (device a = false →
      occurs_in_order [ev_config_file_load; ev_window_create applied;
                       ev_create_device pd; ev_create_target v] full
      = true)) ∧
    ((∀ v', ev_create_target v' ∈ done → v' = v) ∧
     (∀ pd', ev_create_device pd' ∈ done → pd' = pd)) ∧
    (∀ text supplied,
       cmd_line_stream (cmd_line a) ["-vs"; "--v_sync"] = Some text →
       extract_bool text = Some supplied → v = supplied) ∧
    (∀ text supplied,
       cmd_line_stream (cmd_line a) ["-pd"; "--physical_device"] = Some text →
       extract_index text = Some supplied → pd = supplied).
Proof.
  destruct (setup_run p a)
    as (r & a' & done & loaded & applied & Hrun & Htrace & Horder).
  exists r, a', done, loaded, applied.
  split; [exact Hrun|]. split; [exact Htrace|]. cbn zeta in *.
  split; [exact Horder|].
  destruct Horder as ((rest & Hfull) & _).
  destruct (setup_sequence_settings applied (device a)
    (extract (cmd_line_stream (cmd_line a) ["-pd"; "--physical_device"])
             extract_index (physical_device loaded))
    (extract (cmd_line_stream (cmd_line a) ["-vs"; "--v_sync"])
             extract_bool (v_sync loaded))
    (bool_decide (is_Some (on_create p))))
    as (Htarget & Hdevice & Hbefore & Hbefore_device).
  split; [split; assumption|].
  split; [split|].
  - intros v' Hmem. apply Htarget. rewrite Hfull.
    apply elem_of_app. by left.
  - intros pd' Hmem. apply Hdevice. rewrite Hfull.
    apply elem_of_app. by left.
  - split; intros text supplied Hstream Hextract;
      unfold extract; by rewrite Hstream, Hextract.
Qed.

(** The config file says v-sync on and physical device 3; the command line
    says [v_sync=0] and [pd=1]; the device and the target are created with
    the command line's values. *)
Lemma command_line_overrides_witness :
  ∃ (r : outcome bool) (a' : app) (done : list event) (loaded : app_config),
    setup quiet_oracle overriding_app = (r, a') ∧
    trace a' = done ∧
    r = Ret true ∧
    v_sync loaded = true ∧ physical_device loaded = 3 ∧
    v_sync (config a') = false ∧ physical_device (config a') = 1 ∧
    (∀ v', ev_create_target v' ∈ done → v' = false) ∧
    (∀ pd', ev_create_device pd' ∈ done → pd' = 1).
Proof.
  destruct (command_line_overrides quiet_oracle overriding_app)
    as (r & a' & done & loaded & applied & Hrun & Htrace &
        (Hprefix & Hfull & Hloaded) & _ & (Htarget & Hdevice) &
        Hv_sync & Hpd).
  cbn zeta in *.
  assert (Hr : r = Ret true).
  { assert (Hfst : (setup quiet_oracle overriding_app).1 = Ret true)
      by (vm_compute; reflexivity).
    rewrite Hrun in Hfst. exact Hfst. }
  specialize (Hv_sync "0"%string false eq_refl eq_refl).
  specialize (Hpd "1"%string 1 eq_refl eq_refl).
  specialize (Hloaded eq_refl eq_refl).
  destruct (Hfull Hr) as (_ & Hconfig_v & Hconfig_pd).
  exists r, a', done, loaded.
  split; [exact Hrun|]. split; [exact Htrace|]. split; [exact Hr|].
  split; [rewrite Hloaded; vm_compute; reflexivity|].
  split; [rewrite Hloaded; vm_compute; reflexivity|].
  split; [by rewrite Hconfig_v|]. split; [by rewrite Hconfig_pd|].
  split.
  - intros v' Hmem. rewrite <- Hv_sync. by apply Htarget.
  - intros pd' Hmem. rewrite <- Hpd. by apply Hdevice.
Defined.

(** Alt+backspace sets the flag; the next run of the window step consumes
    it, turning v-sync on; three runs in a row invert the setting once. *)
Lemma v_sync_toggle_consumed_once_witness :
  (∃ a', key_listener quiet_oracle alt_backspace example_app = (Ret true, a') ∧
         toggle_v_sync a' = true ∧
         v_sync (config a') = v_sync (config example_app)) ∧
  (∃ (r : outcome bool) (a' : app),
     handle_window_run quiet_oracle toggling_app = (r, a') ∧
     toggle_v_sync a' = false ∧ v_sync (config a') = true) ∧
  (v_sync_inversions [quiet_oracle; quiet_oracle; quiet_oracle] toggling_app
   ≤ 1)%nat.
Proof.
  destruct (@v_sync_toggle_consumed_once reference_platform)
    as (Hkey & Hstep & Hbound).
  split;
    [exact (Hkey quiet_oracle alt_backspace example_app
                 eq_refl eq_refl eq_refl eq_refl eq_refl)|].
  split; [|exact (Hbound [quiet_oracle; quiet_oracle; quiet_oracle]
                         toggling_app)].
  destruct (Hstep quiet_oracle toggling_app) as (r & a' & Hrun & _ & Hset).
  exists r, a'. split; [exact Hrun|].
  destruct (Hset eq_refl) as [[Hflag Hsync] | (_ & _ & [Hclose | Hresult])].
  - split; [exact Hflag | exact Hsync].
  - discriminate Hclose.
  - exfalso. apply Hresult.
    assert (Hfst : (handle_window_run quiet_oracle toggling_app).1 = Ret true)
      by (vm_compute; reflexivity).
    rewrite Hrun in Hfst. exact Hfst.
Defined.

(** A tick with a frame index and every call succeeding: the step returns
    [true] and the counter advances by one. *)
Lemma render_step_witness :
  (∃ a', render_run (example_oracle reference_io) example_app
         = (Ret true, a') ∧
         trace a' = [ev_begin_frame; ev_block_process 0; ev_end_frame] ∧
         frame_counter a' = 1) ∧
  (∃ a', render_run (failing_render_oracle false true) example_app
         = (Ret false, a') ∧
         trace a' = [ev_begin_frame; ev_block_process 2] ∧
         frame_counter a' = 1) ∧
  (∃ a', render_run (failing_render_oracle true false) example_app
         = (Ret false, a') ∧
         trace a' = [ev_begin_frame; ev_block_process 2; ev_end_frame]).
Proof.
  split; [|split].
  - destruct (render_step (example_oracle reference_io) example_app)
      as (result & a' & done & Hrun & Htrace & _ & _ & Hadvance & Hcalls & _).
    destruct (Hcalls 0 eq_refl eq_refl) as [-> ->].
    exists a'. split; [exact Hrun|]. split; [exact Htrace|].
    apply Hadvance; [reflexivity | by eexists].
  - destruct (render_step (failing_render_oracle false true) example_app)
      as (result & a' & done & Hrun & Htrace & _ & _ & Hadvance & Hcalls & _).
    destruct (Hcalls 2 eq_refl eq_refl) as [-> ->].
    exists a'. split; [exact Hrun|]. split; [exact Htrace|].
    apply Hadvance; [reflexivity | by eexists].
  - destruct (render_step (failing_render_oracle true false) example_app)
      as (result & a' & done & Hrun & Htrace & _ & _ & _ & Hcalls & _).
    destruct (Hcalls 2 eq_refl eq_refl) as [-> ->].
    exists a'. split; [exact Hrun | exact Htrace].
Defined.

(** ** File names *)

Lemma append_nil (s : string) : ("" ++ s)%string = s.
Proof. reflexivity. Qed.

Lemma append_cons (a : ascii) (s t : string) :
  (String a s ++ t)%string = String a (s ++ t).
Proof. reflexivity. Qed.

Lemma last_index_none (s : string) (c : ascii) :
  last_index s c = None → ∀ pre post, s ≠ (pre ++ String c post)%string.
Proof.
  induction s as [|a rest IH]; intros Hnone pre post Heq.
  - by destruct pre.
  - cbn in Hnone. destruct (last_index rest c) eqn:Hrest; [done|].
    destruct (Ascii.eqb_spec a c) as [->|Hne]; [done|].
    destruct pre as [|a' pre']; rewrite ?append_nil, ?append_cons in Heq;
      injection Heq as Ha Hrest'.
    + done.
    + by eapply IH.
Qed.

Lemma last_index_some (s : string) (c : ascii) (i : nat) :
  last_index s c = Some i →
  ∃ pre post, s = (pre ++ String c post)%string ∧ String.length pre = i ∧
              last_index post c = None.
Proof.
  revert i. induction s as [|a rest IH]; intros i Hsome; [done|].
  cbn in Hsome. destruct (last_index rest c) as [j|] eqn:Hrest.
  - injection Hsome as <-.
    destruct (IH j eq_refl) as (pre & post & -> & Hlen & Hpost).
    exists (String a pre), post. rewrite append_cons. cbn. by rewrite Hlen.
  - destruct (Ascii.eqb_spec a c) as [->|Hne]; [|done].
    injection Hsome as <-. by exists EmptyString, rest.
Qed.

Lemma last_index_app (pre post : string) (c : ascii) :
  last_index post c = None →
  last_index (pre ++ String c post) c = Some (String.length pre).
Proof.
  intros Hpost. induction pre as [|a pre IH].
  - rewrite append_nil. cbn. by rewrite Hpost, Ascii.eqb_refl.
  - rewrite append_cons. cbn. by rewrite IH.
Qed.

Lemma drop_chars_app (pre post : string) (c : ascii) :
  drop_chars (S (String.length pre)) (pre ++ String c post) = post.
Proof.
  induction pre as [|a pre IH]; [done|]. rewrite append_cons. exact IH.
Qed.

Lemma length_app (pre post : string) :
  String.length (pre ++ post) = (String.length pre + String.length post)%nat.
Proof.
  induction pre as [|a pre IH]; [done|].
  rewrite append_cons. cbn. by rewrite IH.
Qed.

Lemma no_dot_last_index (s : string) :
  ¬ has_dot s ↔ last_index s "." = None.
Proof.
  split.
  - intros Hno. destruct (last_index s ".") as [i|] eqn:Hidx; [|done].
    destruct (last_index_some _ _ _ Hidx) as (pre & post & -> & _).
    exfalso. apply Hno. by exists pre, post.
  - intros Hnone (pre & post & Heq). by eapply last_index_none.
Qed.


Lemma after_last_dot_checked_part (file_name t : string) :
  after_last_dot file_name t ↔ t = checked_part file_name.
Proof.
  unfold after_last_dot, checked_part. split.
  - intros [(pre & -> & Hno) | (Hno & ->)].
    + apply no_dot_last_index in Hno.
      by rewrite (last_index_app _ _ _ Hno), drop_chars_app.
    + apply no_dot_last_index in Hno. by rewrite Hno.
  - intros ->. destruct (last_index file_name ".") as [i|] eqn:Hidx.
    + destruct (last_index_some _ _ _ Hidx) as (pre & post & -> & <- & Hpost).
      left. exists pre. rewrite drop_chars_app.
      split; [done|]. by apply no_dot_last_index.
    + right. split; [|done]. by apply no_dot_last_index.
Qed.

Lemma substr_after_last_dot (file_name : string) :
  Z.of_nat (String.length file_name) < npos →
  substr file_name (size_t_add (find_last_of file_name ".") 1)
  = Ret (checked_part file_name).
Proof.
  intros Hlen. unfold find_last_of, checked_part, substr, size_t_add.
  unfold npos in *.
  destruct (last_index file_name ".") as [i|] eqn:Hidx.
  - destruct (last_index_some _ _ _ Hidx) as (pre & post & Heq & Hi & _).
    assert (Hlt : (i < String.length file_name)%nat).
    { rewrite Heq, length_app. cbn. lia. }
    rewrite Z.mod_small by lia.
    destruct (Z.ltb_spec (Z.of_nat (String.length file_name))
                         (Z.of_nat i + 1)); [lia|].
    f_equal. f_equal. lia.
  - change ((2 ^ 64 - 1 + 1) mod 2 ^ 64) with 0.
    destruct (Z.ltb_spec (Z.of_nat (String.length file_name)) 0); [lia|].
    cbn. by destruct file_name.
Qed.

Lemma N_of_ascii_inj (a b : ascii) : N_of_ascii a = N_of_ascii b → a = b.
Proof.
  intros Heq. rewrite <- (ascii_N_embedding a), <- (ascii_N_embedding b).
  by rewrite Heq.
Qed.

Lemma lower_of_code (a : ascii) :
  is_upper a = true → N_of_ascii (lower_of a) = (N_of_ascii a + 32)%N.
Proof.
  unfold is_upper, lower_of. intros Hup.
  apply andb_true_iff in Hup as [Hlo Hhi].
  apply N.leb_le in Hlo, Hhi.
  apply N_ascii_embedding. lia.
Qed.

Lemma lower_of_not_upper (a : ascii) :
  is_upper a = true → is_upper (lower_of a) = false.
Proof.
  intros Hup. unfold is_upper at 1. rewrite (lower_of_code _ Hup).
  unfold is_upper in Hup.
  apply andb_true_iff in Hup as [Hlo Hhi]. apply N.leb_le in Hlo, Hhi.
  apply andb_false_iff. right. apply N.leb_gt. lia.
Qed.

Lemma tolower_same_letter (a b : ascii) :
  tolower a = tolower b ↔ same_letter a b.
Proof.
  unfold same_letter, tolower. fold (lower_of a). fold (lower_of b). split.
  - destruct (is_upper a) eqn:Ha, (is_upper b) eqn:Hb; intros Heq.
    + left. apply N_of_ascii_inj.
      apply (f_equal N_of_ascii) in Heq.
      rewrite !lower_of_code in Heq by done. lia.
    + right. left. by split.
    + right. right. by split.
    + by left.
  - intros [-> | [[Ha ->] | [Hb ->]]]; [done| |].
    + by rewrite Ha, (lower_of_not_upper _ Ha).
    + by rewrite Hb, (lower_of_not_upper _ Hb).
Qed.

Lemma transform_tolower_equal (s t : string) :
  transform_tolower s = transform_tolower t ↔ equal_ignoring_case s t.
Proof.
  revert t. induction s as [|a s IH]; intros [|b t]; cbn;
    [done | split; [discriminate | done] | split; [discriminate | done] |].
  rewrite <- IH, <- tolower_same_letter. split.
  - intros Heq. by injection Heq.
  - intros [-> ->]. done.
Qed.

(** C9. [extension(file_name, extension)] returns [true] exactly when the
    part of [file_name] after its last dot (the whole name when it has no
    dot) equals the extension up to the case of ASCII letters, and the
    overload over a list returns [true] exactly when the single-extension
    overload does for some listed extension. Neither raises. The name is
    shorter than [npos], as every [std::string] is. *)
Theorem extension_spec (file_name ext : string) (extensions : list string) :
  Z.of_nat (String.length file_name) < npos →
  (∃ b, extension file_name ext = Ret b ∧
        (b = true ↔
         ∃ t, after_last_dot file_name t ∧ equal_ignoring_case t ext)) ∧
  (∃ b, extension_of file_name extensions = Ret b ∧
        (b = true ↔
         ∃ ex, ex ∈ extensions ∧ extension file_name ex = Ret true)).
Proof.
  intros Hlen.
  assert (Hone : ∀ ex,
    extension file_name ex =
    Ret (bool_decide (transform_tolower (checked_part file_name)
                      = transform_tolower ex))).
  { intros ex. unfold extension. by rewrite substr_after_last_dot. }
  split.
  - rewrite Hone. eexists. split; [reflexivity|].
    rewrite bool_decide_eq_true, transform_tolower_equal. split.
    + intros Heq. exists (checked_part file_name).
      split; [by apply after_last_dot_checked_part | done].
    + intros (t & Ht & Heq).
      apply after_last_dot_checked_part in Ht. by subst t.
  - induction extensions as [|ex extensions IH]; cbn [extension_of].
    + exists false. split; [done|]. split; [done|].
      intros (ex & Hmem & _). by apply elem_of_nil in Hmem.
    + destruct IH as (b & Hrest & Hb).
      rewrite Hone. cbn [mbind outcome_bind].
      destruct (bool_decide _) eqn:Hfound.
      * exists true. split; [done|]. split; [|done].
        intros _. exists ex. split; [apply elem_of_cons; by left|].
        by rewrite Hone, Hfound.
      * exists b. split; [exact Hrest|]. rewrite Hb. split.
        -- intros (ex' & Hmem & Hmatch). exists ex'.
           split; [apply elem_of_cons; by right | done].
        -- intros (ex' & Hmem & Hmatch).
           apply elem_of_cons in Hmem as [-> | Hmem].
           ++ rewrite Hone, Hfound in Hmatch. discriminate.
           ++ by exists ex'.
Qed.

Lemma extension_spec_witness :
  (∃ b, extension "shader.tar.GZ" "gz" = Ret b ∧
        (b = true ↔
         ∃ t, after_last_dot "shader.tar.GZ" t ∧ equal_ignoring_case t "gz")) ∧
  (∃ b, extension_of "shader.tar.GZ" ["zip"; "gz"]%string = Ret b ∧
        (b = true ↔
         ∃ ex, ex ∈ ["zip"; "gz"]%string ∧
               extension "shader.tar.GZ" ex = Ret true)).
Proof.
  apply (extension_spec "shader.tar.GZ" "gz" ["zip"; "gz"]%string).
  vm_compute. reflexivity.
Defined.

Example extension_last_dot : extension "shader.tar.GZ" "gz" = Ret true.
Proof. reflexivity. Qed.

Example extension_inner_part : extension "shader.tar.GZ" "tar" = Ret false.
Proof. reflexivity. Qed.

Example extension_no_dot : extension "Makefile" "makefile" = Ret true.
Proof. reflexivity. Qed.

Example extension_trailing_dot : extension "archive." "" = Ret true.
Proof. reflexivity. Qed.

(** ** Pipelines *)

(** C10. A freshly constructed pipeline is not ready, is active and is not
    auto-bound; a freshly constructed graphics pipeline, besides, has size
    type [input], [auto_size] set, [auto_line_width] clear and line width 1;
    and [toggle] applied twice gives the pipeline back, its active flag
    included. *)
Theorem fresh_pipeline_flags (device pipeline_cache : option Z)
    (p : pipeline.t) (g : graphics_pipeline.t) :
  (pipeline.is_ready (pipeline.make device pipeline_cache) = false ∧
   pipeline.is_active (pipeline.make device pipeline_cache) = true ∧
   pipeline.is_auto_bind (pipeline.make device pipeline_cache) = false) ∧
  (graphics_pipeline.is_ready (graphics_pipeline.make device pipeline_cache)
   = false ∧
   graphics_pipeline.is_active (graphics_pipeline.make device pipeline_cache)
   = true ∧
   graphics_pipeline.is_auto_bind
     (graphics_pipeline.make device pipeline_cache) = false ∧
   graphics_pipeline.get_size_type
     (graphics_pipeline.make device pipeline_cache) = graphics_pipeline.input ∧
   graphics_pipeline.is_auto_size
     (graphics_pipeline.make device pipeline_cache) = true ∧
   graphics_pipeline.is_auto_line_width
     (graphics_pipeline.make device pipeline_cache) = false ∧
   graphics_pipeline.get_line_width
     (graphics_pipeline.make device pipeline_cache) = 1%float) ∧
  (pipeline.is_active (pipeline.toggle (pipeline.toggle p))
   = pipeline.is_active p ∧
   pipeline.toggle (pipeline.toggle p) = p ∧
   graphics_pipeline.is_active
     (graphics_pipeline.toggle (graphics_pipeline.toggle g))
   = graphics_pipeline.is_active g).
Proof.
  repeat split.
  - destruct p as [? ? ? active ?]. cbn. apply negb_involutive.
  - destruct p as [? ? ? active ?]. unfold pipeline.toggle. cbn.
    by rewrite negb_involutive.
  - destruct g as [[? ? ? active ?] ? ? ? ? ?]. cbn. apply negb_involutive.
Qed.

(** ** The definitions on concrete inputs *)

Example wrap_int_overflow : wrap i32 2147483648 = -2147483648.
Proof. reflexivity. Qed.

Example wrap_unsigned_negative : wrap u32 (-1) = 4294967295.
Proof. reflexivity. Qed.

(** A null member erases, another member is set, the rest stays. *)
Example merge_patch_members :
  merge_patch
    (JObject (list_to_map [("a", JInt 1); ("b", JInt 2)]))
    (JObject (list_to_map [("a", JNull); ("c", JInt 3)]))
  = JObject (list_to_map [("b", JInt 2); ("c", JInt 3)]).
Proof. vm_compute. reflexivity. Qed.

(** An entry with two fields: the other eight are those of the
    default-constructed state. *)
Example partial_entry_state :
  @get_window_state reference_platform partial_window_entry
  = Ret (window.State 7 0 0 0 true false true true false 0).
Proof. vm_compute. reflexivity. Qed.

(** A number with a fraction converts to an [int] by truncation; a string
    where a number is expected raises. *)
Example fraction_entry_state :
  @get_window_state reference_platform
    (JObject {[ _x_ := JFloat 2.75%float ]})
  = Ret (window.State 2 0 0 0 false false true true false 0).
Proof. vm_compute. reflexivity. Qed.

Example string_entry_raises :
  @get_window_state reference_platform (JObject {[ _x_ := JString "left" ]})
  = Throw json_type_error.
Proof. vm_compute. reflexivity. Qed.

(** A window file whose bytes do not parse makes the load and the save
    raise the parse error. *)
Example garbage_file_load :
  load_window_state reference_io garbage_files "main" = Throw json_parse_error.
Proof. vm_compute. reflexivity. Qed.

Example garbage_file_save :
  save_window_file reference_io (WindowRef example_state "main") garbage_files
  = (Throw json_parse_error, garbage_files).
Proof. vm_compute. reflexivity. Qed.

(** A window file that exists but whose read fails is written anew, with the
    saved entry only. *)
Example unread_file_save :
  (save_window_file read_failing_io (WindowRef example_state "main")
                    secondary_files).2 !! _window_file_
  = Some (Some (JObject {[ "main" := to_json example_state ]})).
Proof. vm_compute. reflexivity. Qed.

Example first_name_found :
  cmd_line_stream override_params ["-pd"; "--physical_device"] = Some "1"%string.
Proof. reflexivity. Qed.

Example no_name_found :
  cmd_line_stream override_params ["-x"; "--width"] = None.
Proof. reflexivity. Qed.

(** * Further properties of the code *)

(** ** Loading a document: which loads raise, and what a load leaves *)

(** The conversions raise nothing but the JSON library's [type_error]. *)
Lemma get_bool_raises (v : json) (e : exn) :
  get_bool v = Throw e → e = json_type_error.
Proof. destruct v; cbn; congruence. Qed.

Lemma get_integral_raises `{platform} (t : integral) (v : json) (e : exn) :
  get_integral t v = Throw e → e = json_type_error.
Proof. destruct v; cbn; congruence. Qed.

Lemma get_i64_raises `{platform} (v : json) (e : exn) :
  get_i64 v = Throw e → e = json_type_error.
Proof. destruct v; cbn; congruence. Qed.

Lemma get_r32_raises `{platform} (v : json) (e : exn) :
  get_r32 v = Throw e → e = json_type_error.
Proof. destruct v; cbn; congruence. Qed.

(** A guarded assignment whose member does not convert raises what the
    conversion raises and leaves the record as it is. *)
Lemma load_step_at_raises {S A} (get : json → outcome A) (set : A → S → S)
    (j : json) (key : string) (s : S) (v : json) (e : exn) :
  member j key = Some v → get v = Throw e →
  when (nonzero (json_count j key))
    (x ← lift (json_at j key ≫= get); modify (set x)) s
  = (Throw e, s).
Proof.
  intros Hm He. destruct (member_some _ _ _ Hm) as (-> & Hat & _).
  cbn. unfold lift. rewrite M_bind_run, Hat. cbn. by rewrite He.
Qed.

Lemma load_step_index_raises {S A} (get : json → outcome A) (set : A → S → S)
    (j : json) (key : string) (s : S) (v : json) (e : exn) :
  member j key = Some v → get v = Throw e →
  when (nonzero (json_count j key))
    (x ← lift (json_index j key ≫= get); modify (set x)) s
  = (Throw e, s).
Proof.
  intros Hm He. destruct (member_some _ _ _ Hm) as (-> & _ & Hidx).
  cbn. unfold lift. rewrite M_bind_run, Hidx. cbn. by rewrite He.
Qed.

Lemma converts_cases {A} (get : json → outcome A) (j : json) (key : string) :
  converts get j key ∨ ∃ v e, member j key = Some v ∧ get v = Throw e.
Proof.
  unfold converts. destruct (member j key) as [v|]; [|by left].
  destruct (get v) as [x|e] eqn:Hg; [left; by exists x | right; eauto].
Qed.

Lemma not_converts {A} (get : json → outcome A) (j : json) (key : string)
    (v : json) (e : exn) :
  member j key = Some v → get v = Throw e → ¬ converts get j key.
Proof. unfold converts. intros -> He [x Hx]. congruence. Qed.

(** One guarded assignment of a load: either its member converts and the
    load goes on, or the load raises here. *)
Ltac load_field j getter key raising :=
  destruct (converts_cases getter j key) as [?|(?v & ?e & ?Hm & ?He)];
  [ try (erewrite M_bind_ret
           by first [by apply load_step_at | by apply load_step_index])
  | right; split;
    [ intros (?&?&?&?&?&?&?&?&?&?); by eapply not_converts
    | rewrite ?M_bind_run;
      first [ erewrite load_step_at_raises by eassumption
            | erewrite load_step_index_raises by eassumption ];
      match goal with
      | Hraise : _ = Throw _ |- _ => apply raising in Hraise as ->
      end; eauto ] ].

Lemma from_json_cases `{platform} (j : json) (w : window.state) :
  (window_document j ∧ ∃ w', from_json j w = (Ret (), w')) ∨
  (¬ window_document j ∧ ∃ w', from_json j w = (Throw json_type_error, w')).
Proof.
  unfold from_json, at_int, at_bool, window_document.
  load_field j (@get_int _) _x_ (@get_integral_raises _ i32).
  load_field j (@get_int _) _y_ (@get_integral_raises _ i32).
  load_field j (@get_int _) _width_ (@get_integral_raises _ i32).
  load_field j (@get_int _) _height_ (@get_integral_raises _ i32).
  load_field j get_bool _fullscreen_ get_bool_raises.
  load_field j get_bool _floating_ get_bool_raises.
  load_field j get_bool _resizable_ get_bool_raises.
  load_field j get_bool _decorated_ get_bool_raises.
  load_field j get_bool _maximized_ get_bool_raises.
  load_field j (@get_int _) _monitor_ (@get_integral_raises _ i32).
  left. split; [done|]. eexists. by apply load_step_at.
Qed.

Lemma field_update_value {S A} (proj : S → A) (get : json → outcome A)
    (set : A → S → S) (j : json) (key : string) (s : S) :
  (∀ x s, proj (set x s) = x) →
  proj (field_update get set j key s) = loaded_value get j key (proj s).
Proof.
  intros Hset. unfold field_update, loaded_value.
  destruct (member j key); [destruct (get _)|]; auto.
Qed.

Lemma loaded_value_twice {A} (get : json → outcome A) (j : json)
    (key : string) (old : A) :
  loaded_value get j key (loaded_value get j key old)
  = loaded_value get j key old.
Proof.
  unfold loaded_value. destruct (member j key); [destruct (get _)|]; auto.
Qed.

Lemma loaded_value_member {A} (get : json → outcome A) (j : json)
    (key : string) (v : json) (x old : A) :
  member j key = Some v → get v = Ret x → loaded_value get j key old = x.
Proof. unfold loaded_value. by intros -> ->. Qed.

Lemma loaded_value_missing {A} (get : json → outcome A) (j : json)
    (key : string) (old : A) :
  member j key = None → loaded_value get j key old = old.
Proof. unfold loaded_value. by intros ->. Qed.

Ltac field_value proj :=
  peel proj;
  rewrite (field_update_value proj) by (intros; reflexivity);
  peel proj; reflexivity.

Lemma state_eta (w : window.state) :
  w = window.State (window.x w) (window.y w) (window.width w)
        (window.height w) (window.fullscreen w) (window.floating w)
        (window.resizable w) (window.decorated w) (window.maximized w)
        (window.monitor w).
Proof. by destruct w. Qed.

Lemma from_json_decoded `{platform} (j : json) (w : window.state) :
  window_document j → from_json j w = (Ret (), decoded j w).
Proof.
  intros Hdoc. rewrite (from_json_run j w Hdoc). f_equal.
  match goal with |- ?l = _ => rewrite (state_eta l) end.
  unfold decoded. f_equal.
  - field_value window.x.
  - field_value window.y.
  - field_value window.width.
  - field_value window.height.
  - field_value window.fullscreen.
  - field_value window.floating.
  - field_value window.resizable.
  - field_value window.decorated.
  - field_value window.maximized.
  - field_value window.monitor.
Qed.

(** X1 ([from_json]). A load of a window state returns exactly when every
    field the document has holds a value of a kind that converts; it then
    leaves each field at its converted member, or at its old value when the
    document lacks the key. Otherwise it raises, and what it raises is
    always the JSON library's [type_error] (the guarded [at] never raises
    [out_of_range]). *)
Theorem from_json_outcome `{platform} (j : json) (w : window.state) :
  (window_document j ∧ from_json j w = (Ret (), decoded j w)) ∨
  (¬ window_document j ∧ ∃ w', from_json j w = (Throw json_type_error, w')).
Proof.
  destruct (from_json_cases j w) as [[Hdoc _] | Hraise]; [left|by right].
  split; [done|]. by apply from_json_decoded.
Qed.

(** X2 ([from_json]). Loading the same document a second time changes
    nothing: the state a load returns is a fixed point of that load. *)
Theorem from_json_idempotent `{platform} (j : json) (w w' : window.state) :
  from_json j w = (Ret (), w') → from_json j w' = (Ret (), w').
Proof.
  intros Hrun.
  destruct (from_json_cases j w) as [[Hdoc _] | [_ [w'' Hraise]]];
    [|congruence].
  rewrite (from_json_decoded j w Hdoc) in Hrun. injection Hrun as <-.
  rewrite (from_json_decoded j _ Hdoc). f_equal.
  unfold decoded. cbn [window.x window.y window.width window.height
    window.fullscreen window.floating window.resizable window.decorated
    window.maximized window.monitor].
  by rewrite !loaded_value_twice.
Qed.

Lemma from_json_idempotent_witness :
  @from_json reference_platform partial_window_entry
    (window.State 7 50 800 600 true false true true false 0)
  = (Ret (), window.State 7 50 800 600 true false true true false 0).
Proof.
  apply (from_json_idempotent (H := reference_platform)
           partial_window_entry example_state).
  vm_compute. reflexivity.
Defined.

(** X3 ([to_json], [from_json]). Decoding an encoded state gives that state
    back, whatever state the decoding starts from: [to_json] writes all ten
    fields, so nothing of the target survives. The integer fields are C++
    [int] values. *)
Theorem from_json_to_json `{platform} (w w0 : window.state) :
  window.valid w → from_json (to_json w) w0 = (Ret (), w).
Proof.
  intros (Vx & Vy & Vw & Vh & Vm).
  pose proof (to_json_holds_state w) as Hholds.
  rewrite (from_json_decoded _ _ (holds_state_document _ _ Hholds)).
  destruct Hholds as (Hx&Hy&Hwi&Hh&Hfu&Hfl&Hr&Hd&Hma&Hmo).
  f_equal. etransitivity; [|symmetry; apply state_eta].
  unfold decoded. f_equal;
    (eapply loaded_value_member; [eassumption|]); cbn;
    rewrite ?wrap_in_range by assumption; reflexivity.
Qed.

Lemma from_json_to_json_witness :
  @from_json reference_platform (to_json example_state) secondary_state
  = (Ret (), example_state).
Proof.
  apply (from_json_to_json (H := reference_platform)).
  apply example_state_valid.
Defined.

(** X4 ([get<window::state>()] as used by [load_window_file]). An entry
    that is not an object (a number, a string, an array, null) has no
    members: it converts without an error to the default-constructed
    state. *)
Theorem get_window_state_not_object `{platform} (v : json) :
  is_object v = false → get_window_state v = Ret default_window_state.
Proof.
  intros Hv. unfold get_window_state.
  assert (Hnone : ∀ key, member v key = None) by by destruct v.
  assert (Hdoc : window_document v).
  { unfold window_document, converts. by rewrite !Hnone. }
  rewrite (from_json_decoded _ _ Hdoc). f_equal.
  etransitivity; [|symmetry; apply state_eta].
  unfold decoded. by rewrite !loaded_value_missing.
Qed.

Lemma get_window_state_not_object_witness :
  @get_window_state reference_platform (JArray [JInt 1; JInt 2])
  = Ret (window.State 0 0 0 0 false false true true false 0).
Proof.
  apply (get_window_state_not_object (H := reference_platform)). reflexivity.
Defined.

(** ** Parts of the object a computation leaves alone *)

Lemma preserves_bind {S A B C} (proj : S → C) (m : M S A) (k : A → M S B) :
  preserves proj m → (∀ x, preserves proj (k x)) → preserves proj (m ≫= k).
Proof.
  intros Hm Hk s. rewrite M_bind_run. specialize (Hm s).
  destruct (m s) as [[x|e] s1]; cbn [snd] in *; [|done].
  by rewrite Hk.
Qed.

Lemma preserves_ret {S A C} (proj : S → C) (x : A) : preserves proj (mret x).
Proof. by intros s. Qed.

Lemma preserves_lift {S A C} (proj : S → C) (o : outcome A) :
  preserves proj (lift o).
Proof. by intros s. Qed.

Lemma preserves_gets {S A C} (proj : S → C) (f : S → A) :
  preserves proj (gets f).
Proof. by intros s. Qed.

Lemma preserves_get_state {S C} (proj : S → C) :
  preserves proj (@get_state S).
Proof. by intros s. Qed.

Lemma preserves_modify {S C} (proj : S → C) (f : S → S) :
  (∀ s, proj (f s) = proj s) → preserves proj (modify f).
Proof. intros Hf s. apply Hf. Qed.

Lemma preserves_when {S C} (proj : S → C) (c : bool) (m : M S ()) :
  preserves proj m → preserves proj (when c m).
Proof. destruct c; [done|]. intros _. apply preserves_ret. Qed.

Lemma preserves_and_then {S C} (proj : S → C) (step rest : M S bool) :
  preserves proj step → preserves proj rest → preserves proj (step &> rest).
Proof.
  intros Hs Hr. apply preserves_bind; [done|].
  intros []; [done|apply preserves_ret].
Qed.

Lemma preserves_if {S A C} (proj : S → C) (c : bool) (m1 m2 : M S A) :
  preserves proj m1 → preserves proj m2 →
  preserves proj (if c then m1 else m2).
Proof. by destruct c. Qed.

(** Resolves [preserves] goals on straight-line monadic code. *)
Ltac preserved :=
  repeat first
    [ apply preserves_bind; [|intros ?]
    | apply preserves_and_then
    | apply preserves_when
    | apply preserves_lift
    | apply preserves_ret
    | apply preserves_gets
    | apply preserves_get_state
    | apply preserves_modify; intros ?; reflexivity
    | apply preserves_if ].

(** ** The config callbacks *)

Lemma on_load_cases `{platform} (j : json) (a : app) :
  (config_document j ∧ ∃ a', on_load j a = (Ret (), a')) ∨
  (¬ config_document j ∧ ∃ a', on_load j a = (Throw json_type_error, a')).
Proof.
  unfold on_load, config_document.
  load_field j get_bool _paused_ get_bool_raises.
  load_field j (@get_r32 _) _speed_ (@get_r32_raises _).
  load_field j get_bool _auto_save_ get_bool_raises.
  load_field j (@get_i64 _) _save_interval_ (@get_i64_raises _).
  load_field j get_bool _auto_load_ get_bool_raises.
  load_field j get_bool _fixed_delta_ get_bool_raises.
  load_field j (@get_i64 _) _delta_ (@get_i64_raises _).
  load_field j get_bool _gui_ get_bool_raises.
  load_field j get_bool _v_sync_ get_bool_raises.
  load_field j (@get_integral _ index_type) _physical_device_
    (@get_integral_raises _ index_type).
  left. split; [done|]. eexists.
  by apply (load_step_index _ (λ v, set_config (set_physical_device v))).
Qed.

Lemma on_load_preserves `{platform} {C} (proj : app → C) (j : json) :
  (∀ f s, proj (set_run_time f s) = proj s) →
  (∀ v s, proj (set_gui_active v s) = proj s) →
  (∀ v s, proj (set_config (set_auto_save v) s) = proj s) →
  (∀ v s, proj (set_config (set_save_interval v) s) = proj s) →
  (∀ v s, proj (set_config (set_auto_load v) s) = proj s) →
  (∀ v s, proj (set_config (set_v_sync v) s) = proj s) →
  (∀ v s, proj (set_config (set_physical_device v) s) = proj s) →
  preserves proj (on_load j).
Proof.
  intros. unfold on_load.
  repeat first
    [ apply preserves_bind; [|intros ?]
    | apply preserves_when
    | apply preserves_lift
    | apply preserves_modify; intros ?; auto ].
Qed.

Lemma on_load_keeps_gui `{platform} (j : json) :
  member j _gui_ = None → preserves gui_active (on_load j).
Proof.
  intros Hgui. unfold on_load. rewrite (member_none j _gui_ Hgui).
  cbn [when].
  repeat first
    [ apply preserves_bind; [|intros ?]
    | apply preserves_when
    | apply preserves_lift
    | apply preserves_ret
    | apply preserves_modify; intros ?; reflexivity ].
Qed.

(** X5 ([on_load]). The config callback returns exactly when every member
    the document has under one of its ten keys holds a value of a kind that
    converts; otherwise it raises the JSON library's [type_error]. Either
    way it leaves alone what it has no key for: [save_window],
    [handle_key_events], the pending v-sync toggle, the frame counter, the
    device and the files. The one collaborator it calls is the GUI, through
    [gui.set_active] for the [gui] key, which the model keeps as the
    [gui_active] member: it is not called when the document lacks the key,
    and no other call is recorded. *)
Theorem on_load_outcome `{platform} (j : json) (a : app) :
  ∃ (r : outcome ()) (a' : app),
    on_load j a = (r, a') ∧
    (config_document j ∧ r = Ret () ∨
     ¬ config_document j ∧ r = Throw json_type_error) ∧
    save_window (config a') = save_window (config a) ∧
    handle_key_events (config a') = handle_key_events (config a) ∧
    toggle_v_sync a' = toggle_v_sync a ∧
    frame_counter a' = frame_counter a ∧
    device a' = device a ∧
    files a' = files a ∧
    trace a' = trace a ∧
    (member j _gui_ = None → gui_active a' = gui_active a).
Proof.
  exists (on_load j a).1, (on_load j a).2.
  split; [by destruct (on_load j a)|]. split.
  { destruct (on_load_cases j a) as [[Hdoc [a' ->]] | [Hdoc [a' ->]]];
      [by left | by right]. }
  repeat split.
  - by apply (on_load_preserves (λ a, save_window (config a))).
  - by apply (on_load_preserves (λ a, handle_key_events (config a))).
  - by apply (on_load_preserves toggle_v_sync).
  - by apply (on_load_preserves frame_counter).
  - by apply (on_load_preserves device).
  - by apply (on_load_preserves files).
  - by apply (on_load_preserves trace).
  - intros Hgui. by apply on_load_keeps_gui.
Qed.

(** X6 ([on_load]). The load is not atomic: the assignments run in the
    order of the source and an exception stops them where it is raised, so
    a document whose [paused] converts and whose [speed] does not leaves
    [paused] assigned and every later setting unread. *)
Theorem on_load_not_atomic `{platform} (j : json) (a : app) (b : bool)
    (v : json) (e : exn) :
  member j _paused_ = Some (JBool b) →
  member j _speed_ = Some v →
  get_r32 v = Throw e →
  on_load j a = (Throw json_type_error, set_run_time (set_paused b) a).
Proof.
  intros Hp Hs He. unfold on_load.
  erewrite M_bind_ret; last first.
  { apply load_step_index. unfold converts. rewrite Hp. by eexists. }
  rewrite !M_bind_run.
  erewrite load_step_index_raises by eassumption.
  apply get_r32_raises in He as ->.
  unfold field_update. by rewrite Hp.
Qed.

Lemma on_load_not_atomic_witness :
  on_load half_loaded_document example_app
  = (Throw json_type_error,
     @set_run_time reference_platform (set_paused true) example_app).
Proof.
  apply (on_load_not_atomic (H := reference_platform) _ _ true
           (JString "fast") json_type_error); reflexivity.
Defined.

Lemma on_save_run `{platform} (a : app) (j : json) :
  j = JNull ∨ is_object j = true →
  on_save a j = Ret (JObject (saved_config a (object_map j))).
Proof.
  intros [-> | Hobj]; [|by destruct j].
  unfold on_save, saved_config. cbn. by rewrite insert_empty.
Qed.

Lemma on_save_raises `{platform} (a : app) (j : json) :
  ¬ (j = JNull ∨ is_object j = true) → on_save a j = Throw json_type_error.
Proof. intros Hj. destruct j; try reflexivity; destruct Hj; auto. Qed.

Lemma saved_config_other `{platform} (a : app) (m : gmap string json)
    (k : string) :
  k ∉ config_keys → saved_config a m !! k = m !! k.
Proof.
  intros Hk. unfold saved_config.
  rewrite !lookup_insert_ne; [done|..];
    intros <-; apply Hk; apply list_elem_of_In; cbn; tauto.
Qed.

Lemma saved_config_holds `{platform} (a : app) (m : gmap string json) :
  holds_config (JObject (saved_config a m)) a.
Proof.
  repeat split; unfold member, saved_config; cbn [object_map];
    rewrite ?lookup_insert_ne by done; apply lookup_insert_eq.
Qed.

(** X7 ([on_save]). Saving into a null or an object document returns an
    object with the ten settings under their keys and every other member of
    the document as it was: the save is not destructive. A document of any
    other kind (a number, a string, an array, a boolean) makes the first
    assignment raise [type_error]. *)
Theorem on_save_outcome `{platform} (a : app) (j : json) :
  ((j = JNull ∨ is_object j = true) ∧
   ∃ j', on_save a j = Ret j' ∧ is_object j' = true ∧ holds_config j' a ∧
         ∀ k, k ∉ config_keys → member j' k = member j k) ∨
  (¬ (j = JNull ∨ is_object j = true) ∧ on_save a j = Throw json_type_error).
Proof.
  assert (Hcases : (j = JNull ∨ is_object j = true)
                   ∨ ¬ (j = JNull ∨ is_object j = true)).
  { destruct j; first [by left; left | by left; right
                      | right; by intros [?|?]]. }
  destruct Hcases as [Hj|Hj].
  - left. split; [done|]. rewrite (on_save_run a j Hj). eexists.
    split; [reflexivity|]. split; [reflexivity|].
    split; [apply saved_config_holds|].
    intros k Hk. by apply saved_config_other.
  - right. split; [done|]. by apply on_save_raises.
Qed.

Lemma holds_config_document `{platform} (j : json) (a : app) :
  holds_config j a → config_document j.
Proof.
  intros (Hp&Hs&Has&Hsi&Hal&Hfd&Hd&Hg&Hv&Hpd).
  unfold config_document, converts.
  rewrite Hp, Hs, Has, Hsi, Hal, Hfd, Hd, Hg, Hv, Hpd.
  repeat split; eexists; reflexivity.
Qed.

Lemma field_update_value2 {S T A} (outer : S → T) (inner : T → A)
    (get : json → outcome A) (set : A → S → S) (j : json) (key : string)
    (s : S) :
  (∀ x s, inner (outer (set x s)) = x) →
  inner (outer (field_update get set j key s))
  = loaded_value get j key (inner (outer s)).
Proof. apply (field_update_value (λ s, inner (outer s))). Qed.

Ltac setting_value2 outer inner :=
  peel2 outer inner;
  rewrite (field_update_value2 outer inner) by (intros; reflexivity);
  (eapply loaded_value_member; [eassumption|]); cbn;
  rewrite ?wrap_in_range by assumption; first [reflexivity | by f_equal].

(** A document that holds the settings of [saved] loads as them. *)
Lemma on_load_holds_config `{platform} (j : json) (saved a : app) :
  valid_settings saved → holds_config j saved →
  ∃ a', on_load j a = (Ret (), a') ∧ same_settings saved a'.
Proof.
  intros (Vsi & Vd & Vpd & Vs) Hj.
  rewrite (on_load_run j a (holds_config_document j saved Hj)).
  destruct Hj as (Hp&Hs&Has&Hsi&Hal&Hfd&Hd&Hg&Hv&Hpd).
  eexists. split; [reflexivity|].
  unfold same_settings. repeat split.
  - setting_value2 (@run_time _) paused.
  - setting_value2 (@run_time _) speed.
  - setting_value2 (@config _) auto_save.
  - setting_value2 (@config _) save_interval.
  - setting_value2 (@config _) auto_load.
  - setting_value2 (@run_time _) use_fix_delta.
  - setting_value2 (@run_time _) fix_delta.
  - peel (@gui_active _).
    rewrite (field_update_value (@gui_active _)) by (intros; reflexivity).
    by eapply loaded_value_member.
  - setting_value2 (@config _) v_sync.
  - setting_value2 (@config _) physical_device.
Qed.

(** X8 ([on_save], [on_load]). What [on_save] writes, [on_load] reads
    back: loading the saved document into any application object gives it
    the ten settings of the saved one. The saved numbers are values of
    their C++ types, and the document saved into is null or an object. *)
Theorem on_save_on_load_round_trip `{platform} (saved a : app) (j : json) :
  valid_settings saved →
  j = JNull ∨ is_object j = true →
  ∃ j' a', on_save saved j = Ret j' ∧
           on_load j' a = (Ret (), a') ∧
           same_settings saved a'.
Proof.
  intros Hvalid Hj. rewrite (on_save_run saved j Hj).
  destruct (on_load_holds_config _ saved a Hvalid
              (saved_config_holds saved (object_map j))) as (a' & Hload & Hsame).
  by exists (JObject (saved_config saved (object_map j))), a'.
Qed.

Lemma example_app_valid_settings : valid_settings example_app.
Proof. repeat split; try (cbn; lia). Qed.

Lemma on_save_on_load_round_trip_witness :
  ∃ j' a', on_save example_app JNull = Ret j' ∧
           on_load j' other_app = (Ret (), a') ∧
           same_settings example_app a'.
Proof.
  apply (on_save_on_load_round_trip (H := reference_platform)).
  - apply example_app_valid_settings.
  - by left.
Defined.

(** ** Patching with a window state *)

Lemma merge_patch_scalars (target : json) (pm : gmap string json) :
  (∀ k v, pm !! k = Some v → is_scalar v = true) →
  merge_patch target (JObject pm) = JObject (pm ∪ object_map target).
Proof.
  intros Hpm. destruct (merge_patch_object target pm) as (m & -> & Hm).
  f_equal. apply map_eq. intros k. rewrite Hm, lookup_union.
  destruct (pm !! k) as [p|] eqn:Hp.
  - specialize (Hpm k p Hp).
    destruct p; try discriminate; by destruct (object_map target !! k).
  - by destruct (object_map target !! k).
Qed.

Lemma to_json_scalars (w : window.state) (k : string) (v : json) :
  object_map (to_json w) !! k = Some v → is_scalar v = true.
Proof.
  unfold to_json. cbn [object_map list_to_map foldr uncurry fst snd].
  intros Hk.
  repeat (apply lookup_insert_Some in Hk as [[<- <-]|[? Hk]]; [done|]).
  by rewrite lookup_empty in Hk.
Qed.

Lemma to_json_keys (w : window.state) (k : string) :
  k ∉ window_keys → object_map (to_json w) !! k = None.
Proof.
  intros Hk. unfold to_json.
  cbn [object_map list_to_map foldr uncurry fst snd].
  rewrite !lookup_insert_ne; [apply lookup_empty|..];
    intros <-; apply Hk; apply list_elem_of_In; cbn; tauto.
Qed.

(** Patching an entry with a state: the ten fields of the state, and the
    other members of the entry. *)
Lemma merge_patch_to_json (entry : json) (w : window.state) :
  merge_patch entry (to_json w)
  = JObject (object_map (to_json w) ∪ object_map entry).
Proof. apply (merge_patch_scalars entry), to_json_scalars. Qed.

Lemma merge_patch_singleton (target : json) (k : string) (p : json) :
  p ≠ JNull →
  merge_patch target (JObject {[k := p]})
  = JObject (<[k := merge_patch (default JNull (object_map target !! k)) p]>
               (object_map target)).
Proof.
  intros Hp. destruct (merge_patch_object target {[k := p]}) as (m & -> & Hm).
  f_equal. apply map_eq. intros i. rewrite Hm.
  destruct (decide (k = i)) as [->|Hne].
  - rewrite lookup_singleton_eq, lookup_insert_eq. by destruct p.
  - by rewrite lookup_singleton_ne, lookup_insert_ne.
Qed.

(** The document a save builds from the document it read. *)
Lemma saved_document_merge (j : json) (index : string) (w : window.state) :
  saved_document (Some j) index w
  = JObject (<[index := JObject (object_map (to_json w) ∪
                                 object_map (default JNull (member j index)))]>
               (object_map j)).
Proof.
  unfold saved_document. rewrite merge_patch_singleton by done.
  by rewrite merge_patch_to_json.
Qed.

Lemma saved_document_fresh (index : string) (w : window.state) :
  saved_document None index w
  = JObject (<[index := JObject (object_map (to_json w) ∪ ∅)]> ∅).
Proof.
  unfold saved_document. rewrite insert_empty.
  by rewrite (right_id_L ∅ (∪)).
Qed.

Lemma saved_document_twice (existing : option json) (index : string)
    (w : window.state) :
  saved_document (Some (saved_document existing index w)) index w
  = saved_document existing index w.
Proof.
  rewrite saved_document_merge.
  destruct existing as [j|];
    [rewrite saved_document_merge | rewrite saved_document_fresh];
    unfold member; cbn [object_map default];
    rewrite lookup_insert_eq; cbn [object_map default id];
    rewrite insert_insert_eq;
    by rewrite (assoc_L (∪)), (idemp_L (∪)).
Qed.

(** ** Saving the window file again, and into what it finds *)

(** A window file that is read but does not parse. *)
Lemma save_window_file_unparsed `{platform} (o : io) (window : window_ref)
    (fs : file_system) (data : bytes) :
  load_file_data o fs _window_file_ = Some data →
  json_parse data = None →
  save_window_file o window fs = (Throw json_parse_error, fs).
Proof.
  intros Hload Hparse. unfold save_window_file.
  rewrite M_bind_run. cbn [get_state]. rewrite Hload.
  rewrite !M_bind_run. unfold parse at 1. by rewrite Hparse.
Qed.

Lemma load_window_state_unparsed `{platform} (o : io) (fs : file_system)
    (name : string) (data : bytes) :
  load_file_data o fs _window_file_ = Some data →
  json_parse data = None →
  load_window_state o fs name = Throw json_parse_error.
Proof.
  intros Hload Hparse. unfold load_window_state, window_file, file_exists.
  rewrite (load_file_data_some _ _ _ _ Hload).
  rewrite bool_decide_true by eauto. cbn [negb].
  unfold load_window_file. rewrite Hload.
  rewrite M_bind_run. unfold parse, lift. by rewrite Hparse.
Qed.

(** What a save that returns has done. *)
Lemma save_window_file_returns `{platform} (o : io) (window : window_ref)
    (fs fs' : file_system) :
  save_window_file o window fs = (Ret (), fs') →
  ∃ existing,
    fs' = after_save o fs
            (saved_document existing (get_save_name window)
                            (get_window_state_of window)).
Proof.
  intros Hsave.
  destruct (load_file_data o fs _window_file_) as [data|] eqn:Hload.
  - destruct (json_parse data) as [j|] eqn:Hparse.
    + rewrite (save_window_file_merge o window fs data j Hload Hparse) in Hsave.
      exists (Some j). congruence.
    + rewrite (save_window_file_unparsed o window fs data Hload Hparse)
        in Hsave. discriminate.
  - rewrite (save_window_file_fresh o window fs Hload) in Hsave.
    exists None. congruence.
Qed.

(** X9 ([save_window_file]). Saving is idempotent: a second save of the
    same window into the file the first save wrote changes nothing. The
    file layer reads and writes, and parsing inverts dumping. *)
Theorem save_window_file_idempotent `{platform}
    (o : io) (window : window_ref) (fs fs' : file_system) :
  codec_round_trip → reads o → writes o →
  save_window_file o window fs = (Ret (), fs') →
  save_window_file o window fs' = (Ret (), fs').
Proof.
  intros Hcodec Hreads Hwrites Hsave.
  destruct (save_window_file_returns o window fs fs' Hsave) as [existing ->].
  erewrite save_window_file_merge; last first.
  - apply Hcodec.
  - rewrite (load_file_data_reads _ _ _ Hreads).
    by apply after_save_reads.
  - rewrite saved_document_twice. f_equal.
    unfold after_save. destruct Hwrites as [-> _].
    by rewrite insert_insert_eq.
Qed.

Lemma save_window_file_idempotent_witness :
  ∃ fs', save_window_file reference_io (WindowRef example_state "main")
           secondary_files = (Ret (), fs') ∧
         save_window_file reference_io (WindowRef example_state "main") fs'
         = (Ret (), fs').
Proof.
  eexists. split; [reflexivity|].
  apply (save_window_file_idempotent (H := reference_platform) reference_io
           (WindowRef example_state "main") secondary_files).
  - apply reference_codec_round_trip.
  - apply reference_io_reads.
  - apply reference_io_writes.
  - reflexivity.
Defined.

(** X10 ([save_window_file]). A save keeps what it does not know: a member
    of the window's own entry under a key that is not one of the ten fields
    is still there afterwards, next to the ten fields of the saved state. *)
Theorem save_keeps_unknown_members `{platform}
    (o : io) (window : window_ref) (fs : file_system)
    (data : bytes) (j entry : json) (key : string) (v : json) :
  load_file_data o fs _window_file_ = Some data →
  json_parse data = Some j →
  member j (get_save_name window) = Some entry →
  member entry key = Some v →
  key ∉ window_keys →
  ∃ j' own,
    save_window_file o window fs = (Ret (), after_save o fs j') ∧
    member j' (get_save_name window) = Some own ∧
    member own key = Some v ∧
    holds_state own (get_window_state_of window).
Proof.
  intros Hload Hparse Hentry Hkey Hunknown.
  rewrite (save_window_file_merge o window fs data j Hload Hparse).
  rewrite saved_document_merge, Hentry. cbn [default].
  eexists _, _. split; [reflexivity|].
  split; [unfold member; cbn [object_map]; apply lookup_insert_eq|].
  split.
  - unfold member. cbn [object_map].
    rewrite lookup_union_r by by apply to_json_keys. exact Hkey.
  - rewrite <- merge_patch_to_json. apply merge_patch_holds_state.
Qed.

Lemma save_keeps_unknown_members_witness :
  ∃ j' own,
    save_window_file reference_io (WindowRef example_state "main")
      extended_files = (Ret (), after_save reference_io extended_files j') ∧
    member j' "main" = Some own ∧
    member own "opacity" = Some (JInt 90) ∧
    holds_state own example_state.
Proof.
  apply (save_keeps_unknown_members (H := reference_platform) reference_io
           (WindowRef example_state "main") extended_files
           (Some extended_document) extended_document
           (JObject (list_to_map [ (_x_, JInt 1); ("opacity", JInt 90) ]))).
  - reflexivity.
  - reflexivity.
  - reflexivity.
  - reflexivity.
  - intros Hin. apply list_elem_of_In in Hin. cbn in Hin.
    intuition discriminate.
Defined.

(** X11 ([save_window_file]). A window file whose document is not an object
    (an array, a number, a string) is overwritten without an error: the
    document written holds the saved entry and nothing else. *)
Theorem save_replaces_other_kinds `{platform}
    (o : io) (window : window_ref) (fs : file_system)
    (data : bytes) (j : json) :
  load_file_data o fs _window_file_ = Some data →
  json_parse data = Some j →
  is_object j = false →
  save_window_file o window fs
  = (Ret (), after_save o fs
       (JObject {[ get_save_name window
                   := to_json (get_window_state_of window) ]})).
Proof.
  intros Hload Hparse Hkind.
  rewrite (save_window_file_merge o window fs data j Hload Hparse).
  rewrite saved_document_merge.
  assert (Hnone : ∀ key, member j key = None) by by destruct j.
  assert (Hmap : object_map j = ∅) by by destruct j.
  rewrite Hnone, Hmap. cbn [default object_map].
  rewrite (right_id_L ∅ (∪)), insert_empty. reflexivity.
Qed.

Lemma save_replaces_other_kinds_witness :
  save_window_file reference_io (WindowRef example_state "main") array_files
  = (Ret (), after_save reference_io array_files
       (JObject {[ "main" := to_json example_state ]})).
Proof.
  apply (save_replaces_other_kinds (H := reference_platform) reference_io
           (WindowRef example_state "main") array_files
           (Some (JArray [JInt 1])) (JArray [JInt 1])); reflexivity.
Defined.

(** X12 ([load_window_state], [save_window_file]). A window file that is
    read but does not parse is not treated as missing: the load and the save
    both raise the JSON library's [parse_error], and the save leaves the
    file as it is. *)
Theorem unparsed_window_file_raises `{platform}
    (o : io) (window : window_ref) (name : string) (fs : file_system)
    (data : bytes) :
  load_file_data o fs _window_file_ = Some data →
  json_parse data = None →
  load_window_state o fs name = Throw json_parse_error ∧
  save_window_file o window fs = (Throw json_parse_error, fs).
Proof.
  intros Hload Hparse. split.
  - by eapply load_window_state_unparsed.
  - by eapply save_window_file_unparsed.
Qed.

Lemma unparsed_window_file_raises_witness :
  load_window_state reference_io garbage_files "main"
  = Throw json_parse_error ∧
  save_window_file reference_io (WindowRef example_state "main") garbage_files
  = (Throw json_parse_error, garbage_files).
Proof.
  apply (unparsed_window_file_raises (H := reference_platform) reference_io
           (WindowRef example_state "main") "main" garbage_files None);
    reflexivity.
Defined.

(** X13 ([load_window_file]). The state a successful load stores does not
    depend on the state it is handed: the entry is converted into a
    default-constructed state, which then replaces the target as a whole. A
    load that returns false or raises leaves the target untouched. *)
Theorem load_window_file_replaces `{platform}
    (o : io) (fs : file_system) (save_name : string) :
  ∃ r : outcome bool,
    (∀ w, (load_window_file o fs save_name w).1 = r) ∧
    (r = Ret true → ∃ w', ∀ w, (load_window_file o fs save_name w).2 = w') ∧
    (r ≠ Ret true → ∀ w, (load_window_file o fs save_name w).2 = w).
Proof.
  unfold load_window_file.
  destruct (load_file_data o fs _window_file_) as [data|];
    [|exists (Ret false); split; [|split]; [reflexivity|discriminate|done]].
  cbv [mbind M_bind mret M_ret lift modify].
  destruct (parse data) as [j|e]; cbv beta iota;
    [|exists (Throw e); split; [|split]; [reflexivity|discriminate|done]].
  destruct (nonzero (json_count j save_name)); cbv beta iota delta [negb];
    [|exists (Ret false); split; [|split]; [reflexivity|discriminate|done]].
  destruct (json_index j save_name) as [v|e]; cbv beta iota;
    [|exists (Throw e); split; [|split]; [reflexivity|discriminate|done]].
  destruct (get_window_state v) as [w'|e]; cbv beta iota;
    [|exists (Throw e); split; [|split]; [reflexivity|discriminate|done]].
  exists (Ret true). split; [reflexivity|]. split; [|done].
  intros _. by exists w'.
Qed.

(** ** [remove_existing_path] *)

Lemma starts_with_app (p s : string) :
  starts_with p s = true ↔ ∃ post, s = (p ++ post)%string.
Proof.
  revert s. induction p as [|a p IH]; intros s.
  - split; [intros _; by exists s | done].
  - destruct s as [|b s]; cbn.
    + split; [done|]. intros [post Hpost]. by rewrite append_cons in Hpost.
    + rewrite andb_true_iff, IH. split.
      * intros [Hab [post ->]]. apply Ascii.eqb_eq in Hab as ->.
        by exists post.
      * intros [post Hpost]. rewrite append_cons in Hpost.
        injection Hpost as -> ->. split; [apply Ascii.eqb_refl | by exists post].
Qed.

Lemma first_index_some (s str : string) (i : nat) :
  first_index s str = Some i →
  ∃ pre post, first_occurrence s str pre post ∧ String.length pre = i.
Proof.
  revert i. induction s as [|a rest IH]; intros i; cbn [first_index].
  - destruct (starts_with str "") eqn:Hstart; [|done].
    intros [= <-]. apply starts_with_app in Hstart as [post Hpost].
    exists EmptyString, post. split; [|done]. split; [done|]. intros; cbn; lia.
  - destruct (starts_with str (String a rest)) eqn:Hstart.
    + intros [= <-]. apply starts_with_app in Hstart as [post Hpost].
      exists EmptyString, post. split; [|done]. split; [done|].
      intros; cbn; lia.
    + destruct (first_index rest str) as [k|] eqn:Hrest; [|done].
      intros [= <-].
      destruct (IH k eq_refl) as (pre & post & [-> Hfirst] & Hlen).
      exists (String a pre), post. split; [|cbn; by rewrite Hlen].
      split; [by rewrite append_cons|].
      intros pre' post' Heq. destruct pre' as [|a' pre'].
      * rewrite append_nil in Heq.
        assert (starts_with str (String a (pre ++ str ++ post)) = true)
          by (apply starts_with_app; by exists post').
        congruence.
      * rewrite append_cons in Heq. injection Heq as _ Heq.
        specialize (Hfirst pre' post' Heq). cbn. lia.
Qed.

Lemma first_index_none (s str : string) :
  first_index s str = None → ¬ occurs s str.
Proof.
  induction s as [|a rest IH]; cbn [first_index];
    destruct (starts_with str _) eqn:Hstart; try done;
    intros Hnone (pre & post & Heq).
  - destruct pre as [|a' pre]; [|by rewrite append_cons in Heq].
    rewrite append_nil in Heq.
    assert (starts_with str "" = true)
      by (apply starts_with_app; by exists post).
    congruence.
  - destruct (first_index rest str) eqn:Hrest; [done|].
    destruct pre as [|a' pre].
    + rewrite append_nil in Heq.
      assert (starts_with str (String a rest) = true)
        by (apply starts_with_app; by exists post).
      congruence.
    + rewrite append_cons in Heq. injection Heq as _ Heq.
      apply IH; [done|]. by exists pre, post.
Qed.

Lemma take_chars_app (pre post : string) :
  take_chars (String.length pre) (pre ++ post) = pre.
Proof.
  induction pre as [|a pre IH]; [by destruct post|].
  rewrite append_cons. cbn. by rewrite IH.
Qed.

Lemma drop_chars_length (pre post : string) :
  drop_chars (String.length pre) (pre ++ post) = post.
Proof.
  induction pre as [|a pre IH]; [by destruct post|].
  rewrite append_cons. exact IH.
Qed.

Lemma append_assoc (s t u : string) :
  ((s ++ t) ++ u)%string = (s ++ t ++ u)%string.
Proof.
  induction s as [|a s IH]; [done|]. rewrite !append_cons. by rewrite IH.
Qed.

Lemma erase_app (pre mid post : string) :
  Z.of_nat (String.length (pre ++ mid ++ post)) < npos →
  erase (Z.of_nat (String.length pre)) (Z.of_nat (String.length mid))
        (pre ++ mid ++ post)
  = Ret (pre ++ post)%string.
Proof.
  intros Hlen. unfold erase.
  rewrite length_app. destruct (Z.ltb_spec
    (Z.of_nat (String.length pre + String.length (mid ++ post)))
    (Z.of_nat (String.length pre))); [lia|].
  rewrite !Nat2Z.id, take_chars_app. f_equal. f_equal.
  rewrite <- length_app, <- append_assoc. apply drop_chars_length.
Qed.

(** X14 ([remove_existing_path]). When [path] occurs in [target], its first
    occurrence, and only that one, is cut out and the result is true (with
    [_WIN32] defined, the backslashes of what is left become slashes); when
    it does not occur, the result is false and [target] is left exactly as
    it was, backslashes included. Nothing is raised. The length of [target]
    is below [npos]. *)
Theorem remove_existing_path_spec (win32 : bool) (target path : string) :
  Z.of_nat (String.length target) < npos →
  (∃ pre post,
     first_occurrence target path pre post ∧
     remove_existing_path win32 path target
     = (Ret true, if win32 then replace "\" "/" (pre ++ post)
                  else (pre ++ post)%string)) ∨
  (¬ occurs target path ∧
   remove_existing_path win32 path target = (Ret false, target)).
Proof.
  intros Hlen. unfold remove_existing_path, find.
  cbv [mbind M_bind mret M_ret get_state lift modify].
  destruct (first_index target path) as [i|] eqn:Hfind.
  - left. destruct (first_index_some _ _ _ Hfind)
      as (pre & post & [Htarget Hfirst] & <-).
    exists pre, post. split; [done|].
    destruct (Z.eqb_spec (Z.of_nat (String.length pre)) npos) as [Heq|_].
    { subst target. rewrite length_app in Hlen. lia. }
    cbn [negb]. rewrite Htarget at 1. rewrite erase_app by by rewrite <- Htarget.
    by destruct win32.
  - right. split; [by apply first_index_none|].
    by rewrite Z.eqb_refl.
Qed.

Lemma remove_existing_path_spec_witness :
  (∃ pre post,
     first_occurrence "C:\res\a\res\b" "\res" pre post ∧
     remove_existing_path true "\res" "C:\res\a\res\b"
     = (Ret true, if true then replace "\" "/" (pre ++ post)
                  else (pre ++ post)%string)) ∨
  (¬ occurs "C:\res\a\res\b" "\res" ∧
   remove_existing_path true "\res" "C:\res\a\res\b"
   = (Ret false, "C:\res\a\res\b"%string)).
Proof.
  apply (remove_existing_path_spec true "C:\res\a\res\b" "\res").
  vm_compute. reflexivity.
Defined.

Example remove_existing_path_first_only :
  remove_existing_path true "\res" "C:\res\a\res\b"
  = (Ret true, "C:/a/res/b"%string) ∧
  remove_existing_path false "\res" "C:\res\a\res\b"
  = (Ret true, "C:\a\res\b"%string) ∧
  remove_existing_path true "/res" "C:\res\a"
  = (Ret false, "C:\res\a"%string) ∧
  remove_existing_path false "" "abc" = (Ret true, "abc"%string).
Proof. vm_compute. repeat split. Qed.

(** ** [read_file] and [write_file] *)

(** X15 ([write_file], [read_file]). What is written is what is read back:
    on a file layer that opens the file both ways and writes completely,
    writing returns true, reading the same name afterwards returns the data
    written, and no other file has changed; this in debug and in release
    builds alike. *)
Theorem write_file_read_file `{platform} `{streams} (ndebug : bool) (o : io)
    (fs : file_system) (filename : string) (data : bytes) :
  writes o → open_read_ok o = true →
  ∃ fs', write_file ndebug o filename data fs = (Ret true, fs') ∧
         read_file ndebug o fs' filename = Ret (Some data) ∧
         ∀ other, other ≠ filename → fs' !! other = fs !! other.
Proof.
  intros [Hopen Hwritten] Hread.
  exists (<[filename := data]> fs). split; [|split].
  - unfold write_file. rewrite Hopen, andb_false_r. cbn [negb].
    cbv [mbind M_bind modify mret M_ret]. by rewrite Hwritten.
  - unfold read_file. rewrite lookup_insert_eq, Hread.
    by rewrite andb_false_r.
  - intros other Hother. by rewrite lookup_insert_ne.
Qed.

Lemma write_file_read_file_witness :
  ∃ fs', write_file false reference_io "shader.spv" (Some (JInt 7))
           secondary_files = (Ret true, fs') ∧
         read_file false reference_io fs' "shader.spv"
         = Ret (Some (Some (JInt 7))) ∧
         ∀ other, other ≠ "shader.spv"%string →
                  fs' !! other = secondary_files !! other.
Proof.
  apply (write_file_read_file (H := reference_platform) false reference_io
           secondary_files "shader.spv" (Some (JInt 7))).
  - apply reference_io_writes.
  - reflexivity.
Defined.

(** X16 ([read_file], [write_file]). With assertions compiled in, neither
    function ever reports a failure by its result: a name that does not
    open aborts on the [assert] where the release build returns false (and
    neither build touches the file system then). A regular file that opens
    is read in both builds. A name that opens without being a regular file
    (a directory) has no size to give, and [out.resize] raises in both
    builds. *)
Theorem open_failure_asserts `{platform} `{streams} (o : io)
    (fs : file_system) (filename : string) (data : bytes) :
  ((∃ found, fs !! filename = Some found ∧ open_read_ok o = true ∧
             ∀ ndebug, read_file ndebug o fs filename = Ret (Some found)) ∨
   (fs !! filename = None ∧ opens_without_size filename = true ∧
    ∀ ndebug, read_file ndebug o fs filename = Throw std_length_error) ∨
   (read_file false o fs filename = Throw assertion_failed ∧
    read_file true o fs filename = Ret None)) ∧
  (write_file false o filename data fs = (Throw assertion_failed, fs) ∧
   write_file true o filename data fs = (Ret false, fs) ∨
   ∀ ndebug, write_file ndebug o filename data fs
             = (Ret true, <[filename := written o data]> fs)).
Proof.
  split.
  - unfold read_file.
    destruct (fs !! filename) as [found|] eqn:Hfound.
    + destruct (open_read_ok o); [left | by right; right].
      exists found. split; [done|]. split; [done|]. by intros [].
    + destruct (opens_without_size filename); [right; left | by right; right].
      split; [done|]. split; [done|]. by intros [].
  - unfold write_file. destruct (open_write_ok o); [right | by left].
    by intros [].
Qed.

(** A directory that opens: reading it raises in the release build and in
    the debug build. *)
Example read_directory_raises :
  @read_file reference_platform directory_streams true reference_io
    secondary_files "res" = Throw std_length_error ∧
  @read_file reference_platform directory_streams false reference_io
    secondary_files "res" = Throw std_length_error.
Proof. split; reflexivity. Qed.

(** ** The key listener *)

Lemma only_calls_set_trace `{platform} (a : app) (t : list event) :
  only_calls a (set_trace t a).
Proof. repeat split. Qed.

Lemma only_calls_refl `{platform} (a : app) : only_calls a a.
Proof. repeat split. Qed.

(** X17 (the key listener of [handle_input]). With key handling enabled and
    the keyboard not captured by the GUI, the keys are looked at in a fixed
    order, and a key that returns hides the ones after it: tab always
    toggles the GUI; escape shuts down; else alt+enter switches the
    fullscreen mode; else alt+backspace sets the v-sync toggle; only
    otherwise does space toggle the pause and the camera get the event. The
    listener never clears a pending v-sync toggle, never changes the config
    or the files, and never raises. *)
Theorem key_listener_keys `{platform} (p : oracle) (e : key_event) (a : app) :
  gui_capture_keyboard p = false →
  handle_key_events (config a) = true →
  let returned :=
    pressed_escape e || pressed_enter_alt e || pressed_backspace_alt e in
  ∃ (r : bool) (a' : app),
    key_listener p e a = (Ret r, a') ∧
    gui_active a' = xorb (gui_active a) (pressed_tab e) ∧
    toggle_v_sync a' =
      toggle_v_sync a ||
      (negb (pressed_escape e) && negb (pressed_enter_alt e) &&
       pressed_backspace_alt e) ∧
    run_time a' =
      set_paused (xorb (paused (run_time a))
                       (negb returned && pressed_space e)) (run_time a) ∧
    config a' = config a ∧ files a' = files a ∧
    r = (if pressed_escape e then shut_down_result p
         else if returned then true
         else camera_activated p && camera_handle_result p) ∧
    trace a' = trace a ++
      (if pressed_escape e then [ev_shut_down]
       else if pressed_enter_alt e
            then [ev_window_set_fullscreen (negb (window_fullscreen p))]
       else if pressed_backspace_alt e then []
       else if camera_activated p then [ev_camera_handle] else []).
Proof.
  intros Hcapture Hkeys returned. subst returned.
  unfold key_listener, shut_down. rewrite Hcapture. run_step. rewrite Hkeys.
  destruct a as [c [pa sp ufd fd] g t fc d wn cl cp fs tr].
  destruct e as [tab esc enter bs space].
  cbn [pressed_tab pressed_escape pressed_enter_alt pressed_backspace_alt
       pressed_space].
  destruct tab, esc, enter, bs, space, (camera_activated p), g, t, pa;
    run_step; cbn;
    do 2 eexists; (split; [reflexivity|]);
    cbn; rewrite ?app_nil_r; repeat split.
Qed.

Lemma key_listener_keys_witness :
  ∃ (r : bool) (a' : app),
    key_listener quiet_oracle all_keys example_app = (Ret r, a') ∧
    gui_active a' = false ∧ toggle_v_sync a' = false ∧
    paused (run_time a') = false ∧ r = true ∧
    trace a' = [ev_shut_down].
Proof.
  destruct (key_listener_keys (H := reference_platform) quiet_oracle all_keys
              example_app eq_refl eq_refl)
    as (r & a' & Hrun & Hgui & Htoggle & Hrt & _ & _ & Hr & Htrace).
  exists r, a'. rewrite Hrt. by repeat split.
Defined.

(** X18 (the key listener of [handle_input]). When the GUI captures the
    keyboard, or key handling is disabled, no key does anything to the
    application: captured, the camera is stopped and the event is reported
    unhandled; disabled, the event goes to the camera if it is active. *)
Theorem key_listener_inert `{platform} (p : oracle) (e : key_event) (a : app) :
  gui_capture_keyboard p = true ∨ handle_key_events (config a) = false →
  ∃ (r : bool) (a' : app),
    key_listener p e a = (Ret r, a') ∧
    only_calls a a' ∧
    trace a' = trace a ++
      (if gui_capture_keyboard p then [ev_camera_stop]
       else if camera_activated p then [ev_camera_handle] else []) ∧
    r = negb (gui_capture_keyboard p) &&
        camera_activated p && camera_handle_result p.
Proof.
  intros Hinert. unfold key_listener.
  destruct (gui_capture_keyboard p).
  - run_step. do 2 eexists. split; [reflexivity|].
    split; [apply only_calls_set_trace|]. by split.
  - destruct Hinert as [?|Hkeys]; [done|]. run_step. rewrite Hkeys.
    destruct (camera_activated p); run_step;
      do 2 eexists; (split; [reflexivity|]).
    + split; [apply only_calls_set_trace|]. by split.
    + split; [apply only_calls_refl|]. split; [|done].
      by rewrite app_nil_r.
Qed.

Lemma key_listener_inert_witness :
  ∃ (r : bool) (a' : app),
    key_listener capturing_oracle tab_and_space example_app = (Ret r, a') ∧
    only_calls example_app a' ∧
    trace a' = [ev_camera_stop] ∧ r = false.
Proof.
  destruct (key_listener_inert (H := reference_platform) capturing_oracle
              tab_and_space example_app (or_introl eq_refl))
    as (r & a' & Hrun & Hsame & Htrace & Hr).
  by exists r, a'.
Defined.

(** ** The window step, beyond the order of a rebuild *)

(** X19 (the step of [handle_window]). A close request wins over every
    other request: the step shuts down and rebuilds nothing, and a pending
    v-sync toggle stays pending. Without a close request and with no rebuild
    pending, a resize request updates the camera projection and lets the
    window handle the resize, whose answer is the result; with no request at
    all the step does nothing and returns true. In none of these cases does
    the application object change. *)
Theorem handle_window_run_no_rebuild `{platform} (p : oracle) (a : app) :
  close_request p = true ∨
  (switch_mode_request p = false ∧ toggle_v_sync a = false ∧
   reload_request p = false) →
  ∃ (r : bool) (a' : app),
    handle_window_run p a = (Ret r, a') ∧
    only_calls a a' ∧
    trace a' = trace a ++
      (if close_request p then [ev_shut_down]
       else if resize_request p
            then [ev_camera_update_projection; ev_window_handle_resize]
       else []) ∧
    r = (if close_request p then shut_down_result p
         else if resize_request p then handle_resize_ok p
         else true).
Proof.
  intros Hcase. unfold handle_window_run, shut_down.
  destruct (close_request p).
  { run_step. do 2 eexists. split; [reflexivity|].
    split; [apply only_calls_set_trace|]. by split. }
  destruct Hcase as [?|(Hswitch & Htoggle & Hreload)]; [done|].
  run_step. rewrite Hswitch, Htoggle, Hreload. cbn [orb].
  destruct (resize_request p); run_step;
    do 2 eexists; (split; [reflexivity|]); run_step.
  - split; [by repeat split|]. by split.
  - split; [apply only_calls_refl|]. split; [|done]. by rewrite app_nil_r.
Qed.

Lemma handle_window_run_no_rebuild_witness :
  ∃ (r : bool) (a' : app),
    handle_window_run (requesting_oracle true true true true true)
      toggling_app = (Ret r, a') ∧
    only_calls toggling_app a' ∧
    trace a' = [ev_shut_down] ∧ r = true.
Proof.
  destruct (handle_window_run_no_rebuild (H := reference_platform)
              (requesting_oracle true true true true true) toggling_app
              (or_introl eq_refl))
    as (r & a' & Hrun & Hsame & Htrace & Hr).
  by exists r, a'.
Defined.

(** Closes a leaf of the window step when only the files and the result
    are looked at. *)
Ltac close_files :=
  do 2 eexists; split; [reflexivity|]; run_step; by repeat split.

(** X20 (the step of [handle_window]). Without a mode switch the window
    step touches no file and cannot raise: a rebuild for a v-sync toggle or
    a reload request only calls collaborators, and the run-time settings and
    the GUI activation are as before. *)
Theorem handle_window_run_files `{platform} (p : oracle) (a : app) :
  switch_mode_request p = false →
  ∃ (r : bool) (a' : app),
    handle_window_run p a = (Ret r, a') ∧
    files a' = files a ∧ run_time a' = run_time a ∧
    gui_active a' = gui_active a.
Proof.
  intros Hswitch. unfold handle_window_run, shut_down. rewrite Hswitch.
  destruct (close_request p); [run_step; close_files|].
  run_step. cbn [orb].
  destruct (toggle_v_sync a) eqn:Htoggle; cbn [orb];
    [|destruct (reload_request p);
      [|destruct (resize_request p); run_step; close_files]];
    rewrite destroy_target_run; run_step; rewrite destroy_gui_run; run_step;
    rewrite ?Htoggle; run_step;
    (use_create_target; [use_create_gui|]); close_files.
Qed.

Lemma handle_window_run_files_witness :
  ∃ (r : bool) (a' : app),
    handle_window_run (requesting_oracle false false true false true)
      toggling_app = (Ret r, a') ∧
    files a' = files toggling_app ∧ run_time a' = run_time toggling_app ∧
    gui_active a' = gui_active toggling_app.
Proof.
  exact (handle_window_run_files (H := reference_platform)
           (requesting_oracle false false true false true) toggling_app
           eq_refl).
Defined.

(** Closes a leaf of a failed mode switch. *)
Ltac close_failed_switch :=
  do 3 eexists; split; [reflexivity|]; run_step;
  split; [discriminate|]; split; [reflexivity|];
  split;
  [ unfold teardown_sequence, destroy_gui_sequence; cbn [List.app];
    repeat first [ apply prefix_cons | apply prefix_app | apply prefix_nil ]
  | split;
    [ let Hin := fresh "Hin" in intros ? Hin; not_in_trace Hin
    | split;
      [ let Hin := fresh "Hin" in intros Hin; not_in_trace Hin
      | by split ] ] ].

(** X21 (the step of [handle_window]). A mode switch that the window
    refuses leaves the application without a target and without a GUI: both
    were torn down before the switch, and the step returns false (or raises,
    when the window file does not load) without recreating either. A
    pending v-sync toggle is not consumed and the config is as before. *)
Theorem handle_window_run_failed_switch `{platform} (p : oracle) (a : app) :
  close_request p = false →
  switch_mode_request p = true →
  switch_mode_ok p = false →
  ∃ (r : outcome bool) (a' : app) (done : list event),
    handle_window_run p a = (r, a') ∧
    r ≠ Ret true ∧
    trace a' = trace a ++ done ∧
    teardown_sequence (has_on_destroy p) `prefix_of` done ∧
    (∀ v, ev_create_target v ∉ done) ∧
    (ev_gui_create ∉ done) ∧
    toggle_v_sync a' = toggle_v_sync a ∧ config a' = config a.
Proof.
  intros Hclose Hswitch Hrefused.
  unfold handle_window_run. rewrite Hclose. run_step.
  rewrite Hswitch. cbn [orb].
  rewrite destroy_target_run. run_step. rewrite destroy_gui_run. run_step.
  unfold destroy_target_sequence, destroy_gui_sequence.
  destruct (has_on_destroy p); cbn [List.app];
    (destruct (save_window (config a)) eqn:Hsave; run_step; rewrite ?Hsave;
     [ unfold app_save_window_file; run_step;
       destruct (save_window_file _ _ _) as [[[]|?] ?]; run_step;
       [|close_failed_switch]
     | run_step ]);
    unfold app_load_window_state; run_step;
    (destruct (load_window_state _ _ _) as [ws|?]; run_step;
     [rewrite Hrefused; run_step|]);
    close_failed_switch.
Qed.

Lemma handle_window_run_failed_switch_witness :
  ∃ (r : outcome bool) (a' : app) (done : list event),
    handle_window_run (requesting_oracle false true false false false)
      toggling_app = (r, a') ∧
    r ≠ Ret true ∧
    trace a' = trace toggling_app ++ done ∧
    teardown_sequence true `prefix_of` done ∧
    (∀ v, ev_create_target v ∉ done) ∧
    (ev_gui_create ∉ done) ∧
    toggle_v_sync a' = true ∧ config a' = config toggling_app.
Proof.
  exact (handle_window_run_failed_switch (H := reference_platform)
           (requesting_oracle false true false false false) toggling_app
           eq_refl eq_refl eq_refl).
Defined.

(** A save followed by a load of the same name, on a file layer that writes
    and one that reads. *)
Lemma save_then_load `{platform} (o1 o2 : io) (window : window_ref)
    (fs : file_system) :
  codec_round_trip →
  window.valid (get_window_state_of window) →
  (∀ data, load_file_data o1 fs _window_file_ = Some data →
           is_Some (json_parse data)) →
  writes o1 → reads o2 →
  ∃ fs', save_window_file o1 window fs = (Ret (), fs') ∧
         load_window_state o2 fs' (get_save_name window)
         = Ret (Some (get_window_state_of window)).
Proof.
  intros Hcodec Hvalid Hparses Hwrites Hreads.
  assert (∃ existing,
    save_window_file o1 window fs =
    (Ret (), after_save o1 fs
       (saved_document existing (get_save_name window)
                       (get_window_state_of window)))) as [existing Hsave].
  { destruct (load_file_data o1 fs _window_file_) as [data|] eqn:Hload.
    - destruct (Hparses data eq_refl) as [j Hj].
      exists (Some j). by eapply save_window_file_merge.
    - exists None. by apply save_window_file_fresh. }
  eexists. split; [exact Hsave|].
  destruct (saved_document_entry existing (get_save_name window)
              (get_window_state_of window)) as (entry & Hentry & Hholds).
  erewrite load_window_state_parsed.
  - rewrite Hentry. by rewrite (get_window_state_holds entry _ Hvalid Hholds).
  - rewrite load_file_data_reads by done. by apply after_save_reads.
  - apply Hcodec.
Qed.

(** Closes a leaf of a mode switch that saved and loaded. *)
Ltac close_applied :=
  do 3 eexists; split; [reflexivity|]; run_step;
  split; [reflexivity|];
  split; [in_trace | assumption].

(** X22 (the step of [handle_window]). On a mode switch with
    [config.save_window] set, the window is switched to its own current
    state with the fullscreen flag inverted: the state is saved, read back
    from the file just written, and handed to [window.switch_mode] with
    [fullscreen] set to the opposite of what the window reports. The window
    file afterwards holds the current state under the window's save name,
    whatever the rest of the rebuild does. The file layer writes and reads,
    parsing inverts dumping, and an existing window file parses. *)
Theorem mode_switch_applies_saved_state `{platform} (p : oracle) (a : app) :
  codec_round_trip →
  window.valid (window_get_state p) →
  (∀ data, load_file_data (save_io p) (files a) _window_file_ = Some data →
           is_Some (json_parse data)) →
  writes (save_io p) → reads (load_io p) →
  close_request p = false →
  switch_mode_request p = true →
  save_window (config a) = true →
  ∃ (r : bool) (a' : app) (done : list event),
    handle_window_run p a = (Ret r, a') ∧
    trace a' = trace a ++ done ∧
    ev_switch_mode
      (Some (window.set_fullscreen (negb (window_fullscreen p))
                                   (window_get_state p))) ∈ done ∧
    load_window_state (load_io p) (files a') (window_save_name a)
    = Ret (Some (window_get_state p)).
Proof.
  intros Hcodec Hvalid Hparses Hwrites Hreads Hclose Hswitch Hsave.
  destruct (save_then_load (save_io p) (load_io p)
              (WindowRef (window_get_state p) (window_save_name a)) (files a)
              Hcodec Hvalid Hparses Hwrites Hreads)
    as (fs' & Hsaved & Hloaded).
  cbn [get_save_name get_window_state_of] in Hloaded.
  unfold handle_window_run. rewrite Hclose. run_step.
  rewrite Hswitch. cbn [orb].
  rewrite destroy_target_run. run_step. rewrite destroy_gui_run. run_step.
  unfold destroy_target_sequence, destroy_gui_sequence.
  rewrite Hsave. unfold app_save_window_file. run_step. rewrite Hsaved.
  run_step. unfold app_load_window_state. run_step. rewrite Hloaded.
  run_step. cbn [fmap option_fmap option_map].
  destruct (has_on_destroy p); cbn [List.app].
  - destruct (switch_mode_ok p); run_step; [|close_applied].
    unfold set_window_icon. run_step.
    destruct (toggle_v_sync a) eqn:Htoggle; run_step.
    + use_create_target; [|close_applied].
      use_create_gui; close_applied.
    + use_create_target; [|close_applied].
      use_create_gui; close_applied.
  - destruct (switch_mode_ok p); run_step; [|close_applied].
    unfold set_window_icon. run_step.
    destruct (toggle_v_sync a) eqn:Htoggle; run_step.
    + use_create_target; [|close_applied].
      use_create_gui; close_applied.
    + use_create_target; [|close_applied].
      use_create_gui; close_applied.
Qed.

Lemma mode_switch_applies_saved_state_witness :
  ∃ (r : bool) (a' : app) (done : list event),
    handle_window_run (requesting_oracle false true false false true)
      toggling_app = (Ret r, a') ∧
    trace a' = trace toggling_app ++ done ∧
    ev_switch_mode
      (Some (window.State 100 50 800 600 true false true true false 0))
    ∈ done ∧
    load_window_state reference_io (files a') "main"
    = Ret (Some example_state).
Proof.
  apply (mode_switch_applies_saved_state (H := reference_platform)
           (requesting_oracle false true false false true) toggling_app).
  - apply reference_codec_round_trip.
  - apply example_state_valid.
  - intros data Hdata. vm_compute in Hdata. discriminate.
  - apply reference_io_writes.
  - apply reference_io_reads.
  - reflexivity.
  - reflexivity.
  - reflexivity.
Defined.

(** ** Creating the target *)

(** X23 ([create_target]). The target is created with the v-sync setting
    of the config, and the steps stop at the first that fails. The input is
    assigned to the window exactly when target, shading pass and plotter
    were all created, and the [on_create] callback is called exactly then,
    if one is installed; its answer is the result. Without a callback a
    built target gives true. Nothing but the calls is recorded in the
    application object, and nothing is raised. *)
Theorem create_target_on_create `{platform} (p : oracle) (a : app) :
  let built :=
    create_target_ok p && shading_create_ok p && plotter_create_ok p in
  ∃ (r : bool) (done : list event),
    create_target p a
    = (Ret r, set_trace (trace a ++ ev_create_target (v_sync (config a))
                                   :: done) a) ∧
    (ev_window_assign_input ∈ done ↔ built = true) ∧
    (ev_on_create ∈ done ↔ built = true ∧ is_Some (on_create p)) ∧
    r = built && default true (on_create p).
Proof.
  unfold create_target. run_step.
  destruct (create_target_ok p), (shading_create_ok p),
    (plotter_create_ok p), (on_create p) as [answer|];
    run_step; do 2 eexists; (split; [reflexivity|]); cbn;
    (split; [|split; [|reflexivity]]);
    (split;
     [ let Hin := fresh "Hin" in
       intros Hin;
       first [ by split; [|eexists]
             | reflexivity
             | apply list_elem_of_In in Hin; cbn in Hin;
               intuition discriminate ]
     | let Hyes := fresh "Hyes" in
       intros Hyes;
       first [ in_trace
             | discriminate Hyes
             | destruct Hyes as [? [? ?]]; discriminate ] ]).
Qed.

(** ** What [setup] leaves *)

(** Closes a leaf of [setup] when its effects on the application object
    are looked at. *)
Ltac close_effects :=
  do 2 eexists; split; [reflexivity|]; run_step;
  split; [assumption || reflexivity|];
  split; [assumption || reflexivity|];
  split;
  [ let Hr := fresh "Hr" in
    intros Hr; first [discriminate Hr | split; [reflexivity|]];
    first [reflexivity | congruence]
  | let Hready := fresh "Hready" in
    intros Hready; first [discriminate Hready | by split] ].

(** X24 ([setup]). Setting up never writes a file and never touches a
    pending v-sync toggle, whatever its outcome. When it returns true the
    application has a device and the frame counter is zero. When the frame
    is not ready it returns false at once, with the application object
    untouched and no collaborator called. *)
Theorem setup_effects `{platform} (p : oracle) (a : app) :
  ∃ (r : outcome bool) (a' : app),
    setup p a = (r, a') ∧
    files a' = files a ∧
    toggle_v_sync a' = toggle_v_sync a ∧
    (r = Ret true → frame_counter a' = 0 ∧ device a' = true) ∧
    (frame_ready p = false → r = Ret false ∧ a' = a).
Proof.
  unfold setup.
  destruct (frame_ready p); cbn [negb]; [|close_effects].
  run_step.
  destruct (file_system_initialize_ok p); cbn [negb]; [|close_effects].
  run_step.
  match goal with
  | |- context [handle_config p ?s] =>
      destruct (handle_config_run p s)
        as (rc & s1 & Hcfg & (Hcmd & Hdev & Hfiles & _ & _ & Htoggle & _)
            & Htrace);
      rewrite Hcfg
  end.
  simpl_state_in Hcmd. simpl_state_in Hdev. simpl_state_in Hfiles.
  simpl_state_in Htoggle.
  destruct rc as [[]|e]; run_step; [|close_effects].
  rewrite Hcmd.
  unfold app_load_window_state. run_step.
  destruct (load_window_state _ _ _) as [ws|e]; run_step; [|close_effects].
  destruct (window_create_ok p); run_step; [|close_effects].
  unfold set_window_icon. run_step. rewrite Hdev.
  destruct (device a) eqn:Hdevice; run_step.
  - use_create_target; [|close_effects].
    destruct (camera_create_ok p); run_step; [|close_effects].
    use_create_gui; [|close_effects].
    use_create_block; [|close_effects].
    unfold handle_input, handle_window, update, render. run_step.
    close_effects.
  - destruct (create_device_ok p); run_step; [|close_effects].
    use_create_target; [|close_effects].
    destruct (camera_create_ok p); run_step; [|close_effects].
    use_create_gui; [|close_effects].
    use_create_block; [|close_effects].
    unfold handle_input, handle_window, update, render. run_step.
    close_effects.
Qed.

(** ** The end of the run *)

Lemma json_file_save_run `{platform} (o : io) (path : string) (s : app) :
  ∃ (r : outcome bool) (s1 : app),
    json_file_save o path on_save s = (r, s1) ∧
    trace s1 = trace s ∧ config s1 = config s ∧ run_time s1 = run_time s ∧
    gui_active s1 = gui_active s.
Proof.
  unfold json_file_save. run_step.
  destruct (load_file_data o (files s) path) as [data|]; run_step;
    [destruct (parse data) as [j|e]; run_step|];
    try (by do 2 eexists);
    (destruct (on_save s _) as [j'|e]; run_step; [|by do 2 eexists]);
    destruct (open_write_ok o); run_step; by do 2 eexists.
Qed.

(** Closes a leaf of the teardown. *)
Ltac close_run_end :=
  do 3 eexists; split; [reflexivity|]; run_step;
  repeat match goal with
         | Htrace : trace _ = _ |- _ => rewrite Htrace
         end;
  run_step;
  split; [reflexivity|];
  unfold run_end_sequence, destroy_sequence, destroy_gui_sequence;
  cbn [List.app]; rewrite <- ?app_assoc; cbn [List.app];
  split;
  [ repeat first [ apply prefix_cons | apply prefix_app | apply prefix_nil
                 | by apply prefix_app_r ]
  | split;
    [ repeat first [ apply prefix_cons | apply prefix_app | apply prefix_nil
                   | reflexivity ]
    | split;
      [ let Hr := fresh "Hr" in
        intros Hr; first [discriminate Hr | reflexivity]
      | repeat split; congruence ] ] ].

(** X25 (the teardown [setup] registers for the end of the run). The
    collaborators are destroyed first and in this order: camera, GUI and
    fonts, Render Block, target (after [on_destroy], if installed); this part
    cannot fail. Only then is the window state saved (if
    [config.save_window] is set), the window destroyed, the config saved
    and the file system terminated; an exception from the window file or
    the config file stops the calls where it is raised. The settings in
    memory are not changed. ([config_file.save()] is the modelled
    [json_file_save].) *)
Theorem run_end_teardown `{platform} (p : oracle) (a : app) :
  ∃ (r : outcome ()) (a' : app) (done : list event),
    run_end p a = (r, a') ∧
    trace a' = trace a ++ done ∧
    destroy_sequence (has_on_destroy p) `prefix_of` done ∧
    done `prefix_of`
      run_end_sequence (has_on_destroy p) (save_window (config a)) ∧
    (r = Ret () →
     done = run_end_sequence (has_on_destroy p) (save_window (config a))) ∧
    config a' = config a ∧ run_time a' = run_time a ∧
    gui_active a' = gui_active a.
Proof.
  unfold run_end. run_step. rewrite destroy_gui_run. run_step.
  rewrite destroy_target_run. run_step.
  destruct (save_window (config a)) eqn:Hsave; run_step.
  - unfold app_save_window_file. run_step.
    destruct (save_window_file _ _ _) as [[[]|e] fs']; run_step;
      [|close_run_end].
    match goal with
    | |- context [json_file_save ?o ?path on_save ?s] =>
        destruct (json_file_save_run o path s)
          as (rs & s1 & -> & Htrace & Hconfig & Hrt & Hgui)
    end.
    simpl_state_in Htrace. simpl_state_in Hconfig. simpl_state_in Hrt.
    simpl_state_in Hgui.
    destruct rs as [saved|e]; run_step; close_run_end.
  - match goal with
    | |- context [json_file_save ?o ?path on_save ?s] =>
        destruct (json_file_save_run o path s)
          as (rs & s1 & -> & Htrace & Hconfig & Hrt & Hgui)
    end.
    simpl_state_in Htrace. simpl_state_in Hconfig. simpl_state_in Hrt.
    simpl_state_in Hgui.
    destruct rs as [saved|e]; run_step; close_run_end.
Qed.

(** ** The update step *)

Lemma update_run_clocks (scale : Z → float → Z)
    (on_update : option (Z → bool)) (r : run_time_config) (time : Z)
    (c : clocks) :
  let u := update_run scale on_update r time c in
  system (update_clocks u) = time ∧
  delta (update_clocks u) = time - system c ∧
  current (update_clocks u) = current c + update_delta u.
Proof.
  unfold update_run.
  destruct (Z.eqb_spec (system c) time) as [->|Hne]; cbn [negb];
    destruct (paused r); cbn; repeat split; lia.
Qed.

(** X26 (the step of [app::update]). After a tick the system clock is the
    time of the tick and the real-time delta is the time since the last
    tick, whichever branch ran. The simulated clock advances by exactly the
    delta handed to [on_update]: nothing while paused, the scaled fixed
    delta when fixed stepping is on (whatever time has passed), the scaled
    real delta otherwise. Pausing does not stop the real-time delta. The
    result is that of [on_update], true without a callback. *)
Theorem update_step (scale : Z → float → Z) (on_update : option (Z → bool))
    (r : run_time_config) (time : Z) (c : clocks) :
  let u := update_run scale on_update r time c in
  system (update_clocks u) = time ∧
  delta (update_clocks u) = time - system c ∧
  current (update_clocks u) = current c + update_delta u ∧
  update_delta u =
    (if paused r then 0
     else scale (if use_fix_delta r then fix_delta r else time - system c)
                (speed r)) ∧
  update_result u =
    match on_update with
    | Some callback => callback (update_delta u)
    | None => true
    end.
Proof.
  cbn zeta.
  destruct (update_run_clocks scale on_update r time c) as (Hs & Hd & Hc).
  split; [exact Hs|]. split; [exact Hd|]. split; [exact Hc|].
  unfold update_run.
  destruct (Z.eqb_spec (system c) time) as [->|Hne]; cbn [negb];
    destruct (paused r), (use_fix_delta r), on_update; cbn;
    rewrite ?Z.sub_diag; by split.
Qed.

(** X27 (the step of [app::update], over consecutive ticks). No real time
    is lost or counted twice: the real-time deltas of consecutive ticks add
    up to the time from the system clock before the first tick to the last
    tick, and the simulated clock has advanced by the sum of the deltas
    handed to [on_update]. *)
Theorem run_updates_elapsed (scale : Z → float → Z)
    (on_update : option (Z → bool)) (r : run_time_config)
    (times : list Z) (c : clocks) :
  let '(c', real, simulated) := run_updates scale on_update r times c in
  system c' = List.last times (system c) ∧
  sum_ms real = List.last times (system c) - system c ∧
  current c' = current c + sum_ms simulated ∧
  length real = length times ∧ length simulated = length times.
Proof.
  revert c. induction times as [|time times IH]; intros c.
  - cbn. repeat split; lia.
  - cbn [run_updates].
    destruct (update_run_clocks scale on_update r time c) as (Hs & Hd & Hc).
    cbn zeta in Hs, Hd, Hc.
    specialize (IH (update_clocks (update_run scale on_update r time c))).
    destruct (run_updates scale on_update r times _) as [[c' real] simulated].
    destruct IH as (IHs & IHr & IHc & IHl1 & IHl2).
    rewrite Hs in IHs, IHr. rewrite Hc in IHc.
    assert (Hlast : List.last (time :: times) (system c)
                    = List.last times time).
    { clear. destruct times as [|t times]; [done|].
      change (List.last (time :: t :: times) (system c))
        with (List.last (t :: times) (system c)).
      revert t. induction times as [|t' times IH]; intros t; [done|].
      change (List.last (t :: t' :: times) (system c))
        with (List.last (t' :: times) (system c)).
      change (List.last (t :: t' :: times) time)
        with (List.last (t' :: times) time).
      apply IH. }
    rewrite Hlast. cbn [sum_ms foldr length]. fold (sum_ms real).
    fold (sum_ms simulated). rewrite Hd.
    repeat split; lia.
Qed.

(** ** Saving several windows *)

Lemma saved_document_insert (existing : option json) (index : string)
    (w : window.state) :
  saved_document existing index w
  = JObject (<[index := saved_entry (object_map (default JNull existing))
                                    index w]>
               (object_map (default JNull existing))).
Proof.
  destruct existing as [j|]; cbn [default].
  - apply saved_document_merge.
  - rewrite saved_document_fresh. unfold saved_entry. cbn [object_map].
    by rewrite lookup_empty.
Qed.

Lemma saved_entry_holds (m : gmap string json) (index : string)
    (w : window.state) :
  holds_state (saved_entry m index w) w.
Proof.
  unfold saved_entry. rewrite <- merge_patch_to_json.
  apply merge_patch_holds_state.
Qed.

(** The document after the saves of two windows with different names. *)
Lemma saved_document_two (existing : option json) (n1 n2 : string)
    (w1 w2 : window.state) :
  n1 ≠ n2 →
  saved_document (Some (saved_document existing n1 w1)) n2 w2
  = JObject (<[n2 := saved_entry (object_map (default JNull existing)) n2 w2]>
            (<[n1 := saved_entry (object_map (default JNull existing)) n1 w1]>
               (object_map (default JNull existing)))).
Proof.
  intros Hne. rewrite (saved_document_insert (Some _)). cbn [default].
  rewrite saved_document_insert. cbn [object_map id].
  f_equal. f_equal. unfold saved_entry at 1.
  by rewrite lookup_insert_ne.
Qed.

(** A save on a file layer that reads and writes, into a file that parses
    if it exists. *)
Lemma save_window_file_document `{platform} (o : io) (fs : file_system) :
  (∀ data, fs !! _window_file_ = Some data → is_Some (json_parse data)) →
  reads o →
  ∃ existing,
    (∀ other : window_ref,
       save_window_file o other fs
       = (Ret (), after_save o fs
            (saved_document existing (get_save_name other)
                            (get_window_state_of other)))).
Proof.
  intros Hparses Hreads.
  destruct (fs !! _window_file_) as [data|] eqn:Hfile.
  - destruct (Hparses data eq_refl) as [j Hj]. exists (Some j).
    intros other. eapply save_window_file_merge; [|exact Hj].
    by rewrite load_file_data_reads.
  - exists None. intros other. apply save_window_file_fresh.
    by rewrite load_file_data_reads.
Qed.

Lemma save_window_file_again `{platform} (o : io) (window : window_ref)
    (fs : file_system) (j : json) :
  codec_round_trip → reads o → writes o →
  save_window_file o window (after_save o fs j)
  = (Ret (), after_save o fs
       (saved_document (Some j) (get_save_name window)
                       (get_window_state_of window))).
Proof.
  intros Hcodec Hreads Hwrites.
  erewrite save_window_file_merge; last first.
  - apply Hcodec.
  - rewrite (load_file_data_reads _ _ _ Hreads). by apply after_save_reads.
  - f_equal. unfold after_save. destruct Hwrites as [-> _].
    by rewrite insert_insert_eq.
Qed.

Lemma load_window_state_saved `{platform} (o : io) (fs : file_system)
    (m : gmap string json) (name : string) (entry : json) (w : window.state) :
  codec_round_trip → reads o → writes o → window.valid w →
  m !! name = Some entry → holds_state entry w →
  load_window_state o (after_save o fs (JObject m)) name = Ret (Some w).
Proof.
  intros Hcodec Hreads Hwrites Hvalid Hentry Hholds.
  rewrite (load_window_state_parsed o _ name
             (json_dump (Some 4%nat) (JObject m)) (JObject m)).
  - unfold member. cbn [object_map]. rewrite Hentry.
    by rewrite (get_window_state_holds entry w Hvalid Hholds).
  - rewrite (load_file_data_reads _ _ _ Hreads). by apply after_save_reads.
  - apply Hcodec.
Qed.

(** X28 ([save_window_file], [load_window_state]). Saves of two windows
    with different save names commute and do not disturb each other: saving
    the one and then the other gives the same window file in either order,
    and each window then loads as the state it was saved with. The file
    layer reads and writes, parsing inverts dumping, an existing window
    file parses, and the states hold C++ [int] values. *)
Theorem saves_of_two_windows `{platform} (o : io) (w1 w2 : window_ref)
    (fs : file_system) :
  codec_round_trip → reads o → writes o →
  (∀ data, fs !! _window_file_ = Some data → is_Some (json_parse data)) →
  window.valid (get_window_state_of w1) →
  window.valid (get_window_state_of w2) →
  get_save_name w1 ≠ get_save_name w2 →
  ∃ fs',
    (save_window_file o w1;; save_window_file o w2) fs = (Ret (), fs') ∧
    (save_window_file o w2;; save_window_file o w1) fs = (Ret (), fs') ∧
    load_window_state o fs' (get_save_name w1)
    = Ret (Some (get_window_state_of w1)) ∧
    load_window_state o fs' (get_save_name w2)
    = Ret (Some (get_window_state_of w2)).
Proof.
  intros Hcodec Hreads Hwrites Hparses Hv1 Hv2 Hne.
  destruct (save_window_file_document o fs Hparses Hreads)
    as [existing Hsave].
  set (m := object_map (default JNull existing)).
  exists (after_save o fs (JObject
    (<[get_save_name w2 := saved_entry m (get_save_name w2)
                             (get_window_state_of w2)]>
    (<[get_save_name w1 := saved_entry m (get_save_name w1)
                             (get_window_state_of w1)]> m)))).
  split; [|split; [|split]].
  - rewrite M_bind_run, Hsave.
    rewrite save_window_file_again by done.
    by rewrite saved_document_two.
  - rewrite M_bind_run, Hsave.
    rewrite save_window_file_again by done.
    rewrite saved_document_two by done. fold m.
    by rewrite insert_insert_ne.
  - eapply load_window_state_saved; try done.
    + rewrite lookup_insert_ne by done. apply lookup_insert_eq.
    + apply saved_entry_holds.
  - eapply load_window_state_saved; try done.
    + apply lookup_insert_eq.
    + apply saved_entry_holds.
Qed.

Lemma saves_of_two_windows_witness :
  ∃ fs',
    (save_window_file reference_io (WindowRef example_state "main");;
     save_window_file reference_io secondary_window) ∅ = (Ret (), fs') ∧
    (save_window_file reference_io secondary_window;;
     save_window_file reference_io (WindowRef example_state "main")) ∅
    = (Ret (), fs') ∧
    load_window_state reference_io fs' "main" = Ret (Some example_state) ∧
    load_window_state reference_io fs' "secondary"
    = Ret (Some secondary_state).
Proof.
  apply (saves_of_two_windows (H := reference_platform) reference_io
           (WindowRef example_state "main") secondary_window ∅).
  - apply reference_codec_round_trip.
  - apply reference_io_reads.
  - apply reference_io_writes.
  - intros data Hdata. by rewrite lookup_empty in Hdata.
  - apply example_state_valid.
  - repeat split; cbn; lia.
  - discriminate.
Defined.

(** ** Pipeline layouts and pipeline flags *)

Lemma pipeline_layout_run_all_snoc (calls : list pipeline_layout.call)
    (c : pipeline_layout.call) (p : pipeline_layout.t) :
  pipeline_layout.run_all (calls ++ [c]) p
  = pipeline_layout.run c (pipeline_layout.run_all calls p).
Proof. unfold pipeline_layout.run_all. by rewrite foldl_app. Qed.

(** X29 ([pipeline_layout]). Whatever the mix of [add], [add_layout] and
    [add_range] calls on a fresh layout, [get_descriptors] is the
    descriptors handed over, in the order of the calls, and
    [get_push_constant_ranges] the ranges, in the order of the calls; the
    two lists do not disturb each other, and adding never creates the
    Vulkan layout ([get] stays null). *)
Theorem pipeline_layout_adds (calls : list pipeline_layout.call) :
  let p := pipeline_layout.run_all calls pipeline_layout.make in
  pipeline_layout.get_descriptors p = pipeline_layout.descriptors_of calls ∧
  pipeline_layout.get_push_constant_ranges p
  = pipeline_layout.ranges_of calls ∧
  pipeline_layout.get p = None.
Proof.
  cbn zeta. induction calls as [|c calls IH] using rev_ind; [done|].
  rewrite pipeline_layout_run_all_snoc.
  unfold pipeline_layout.descriptors_of, pipeline_layout.ranges_of.
  rewrite !omap_app.
  destruct IH as (IHd & IHr & IHg).
  unfold pipeline_layout.get_descriptors,
    pipeline_layout.get_push_constant_ranges, pipeline_layout.get in *.
  destruct c; cbn; rewrite ?IHd, ?IHr, ?IHg, ?app_nil_r; done.
Qed.

Lemma pipeline_calls_run_all_snoc (calls : list pipeline_calls.call)
    (c : pipeline_calls.call) (p : pipeline.t) :
  pipeline_calls.run_all (calls ++ [c]) p
  = pipeline_calls.run c (pipeline_calls.run_all calls p).
Proof. unfold pipeline_calls.run_all. by rewrite foldl_app. Qed.

(** X30 ([pipeline]). No sequence of [set_active], [toggle] and
    [set_auto_bind] calls changes whether a pipeline is ready, nor its
    device or its cache: readiness is only a matter of the Vulkan handle.
    The two flags are independent: the active flag afterwards is what the
    calls about it alone would leave. *)
Theorem pipeline_flag_calls (calls : list pipeline_calls.call)
    (p : pipeline.t) :
  let p' := pipeline_calls.run_all calls p in
  pipeline.is_ready p' = pipeline.is_ready p ∧
  pipeline.dev p' = pipeline.dev p ∧
  pipeline.pipeline_cache p' = pipeline.pipeline_cache p ∧
  pipeline.is_active p'
  = pipeline.is_active
      (pipeline_calls.run_all (filter pipeline_calls.about_active calls) p).
Proof.
  cbn zeta. induction calls as [|c calls IH] using rev_ind; [done|].
  rewrite pipeline_calls_run_all_snoc, filter_app.
  destruct IH as (IHr & IHd & IHc & IHa).
  unfold pipeline.is_ready, pipeline.is_active in *.
  destruct c;
    [ rewrite filter_cons_True by done
    | rewrite filter_cons_True by done
    | rewrite filter_cons_False by (cbn; auto) ];
    rewrite filter_nil, ?app_nil_r, ?pipeline_calls_run_all_snoc; cbn;
    rewrite ?IHr, ?IHd, ?IHc, ?IHa; done.
Qed.

(** ** Persistence errors, and what is fatal *)

Lemma save_window_file_unwritable `{platform} (o : io) (window : window_ref)
    (fs : file_system) :
  open_write_ok o = false →
  (∀ data, load_file_data o fs _window_file_ = Some data →
           is_Some (json_parse data)) →
  save_window_file o window fs = (Ret (), fs).
Proof.
  intros Hopen Hparses.
  destruct (load_file_data o fs _window_file_) as [data|] eqn:Hload.
  - destruct (Hparses data eq_refl) as [j Hj].
    rewrite (save_window_file_merge _ _ _ _ _ Hload Hj).
    unfold after_save. by rewrite Hopen.
  - rewrite (save_window_file_fresh _ _ _ Hload).
    unfold after_save. by rewrite Hopen.
Qed.

Lemma json_file_save_unwritable `{platform} (o : io) (path : string)
    (a : app) :
  open_write_ok o = false →
  (∀ data, load_file_data o (files a) path = Some data →
           ∃ j, json_parse data = Some j ∧ (j = JNull ∨ is_object j = true)) →
  json_file_save o path on_save a = (Ret false, a).
Proof.
  intros Hopen Hparses. unfold json_file_save, get_state.
  rewrite M_bind_run.
  destruct (load_file_data o (files a) path) as [data|] eqn:Hload.
  - destruct (Hparses data eq_refl) as (j & Hj & Hkind).
    rewrite M_bind_run. unfold parse, lift. rewrite Hj.
    destruct (on_save_returns a j Hkind) as [j' Hj'].
    rewrite M_bind_run, Hj', Hopen. reflexivity.
  - rewrite M_bind_run. cbn [mret M_ret].
    destruct (on_save_returns a JNull (or_introl eq_refl)) as [j' Hj'].
    rewrite M_bind_run. unfold lift. rewrite Hj', Hopen. reflexivity.
Qed.

Lemma handle_config_unread `{platform} (p : oracle) (a : app) :
  load_file_data (config_io p) (files a) (config_file_path a) = None →
  handle_config p a
  = (Ret (), set_trace (trace a ++ [ev_config_file_load]) a).
Proof.
  intros Hload.
  unfold handle_config, json_file_load, emit, modify, gets.
  rewrite !M_bind_run. cbn [files set_trace config_file_path].
  rewrite Hload. reflexivity.
Qed.

(** A leaf of [setup] after the window was created without a loaded
    state. *)
Ltac close_startup :=
  do 3 eexists; split; [reflexivity|]; run_step;
  split; [reflexivity|];
  split;
  [ unfold startup_sequence;
    repeat first [ apply prefix_cons | apply prefix_nil ]
  | by split ].

Lemma setup_unread `{platform} (p : oracle) (a : app) :
  frame_ready p = true →
  file_system_initialize_ok p = true →
  load_file_data (config_io p) (files a) (config_file_path a) = None →
  load_file_data (load_io p) (files a) _window_file_ = None →
  ∃ (b : bool) (a' : app) (done : list event),
    setup p a = (Ret b, a') ∧
    trace a' = trace a ++ done ∧
    startup_sequence None `prefix_of` done ∧
    run_time a' = run_time a ∧ gui_active a' = gui_active a.
Proof.
  intros Hready Hinit Hconfig Hwindow.
  unfold setup. rewrite Hready, Hinit. cbn [negb]. run_step.
  rewrite handle_config_unread by exact Hconfig. run_step.
  unfold app_load_window_state. run_step.
  rewrite (load_window_state_unread _ _ _ Hwindow). run_step.
  destruct (window_create_ok p); run_step; [|close_startup].
  unfold set_window_icon. run_step.
  destruct (device a) eqn:Hdevice; run_step.
  - use_create_target; [|close_startup].
    destruct (camera_create_ok p); run_step; [|close_startup].
    use_create_gui; [|close_startup].
    use_create_block; [|close_startup].
    unfold handle_input, handle_window, update, render. run_step.
    close_startup.
  - destruct (create_device_ok p); run_step; [|close_startup].
    use_create_target; [|close_startup].
    destruct (camera_create_ok p); run_step; [|close_startup].
    use_create_gui; [|close_startup].
    use_create_block; [|close_startup].
    unfold handle_input, handle_window, update, render. run_step.
    close_startup.
Qed.

Lemma run_end_unwritable `{platform} (p : oracle) (a : app) :
  open_write_ok (save_io p) = false →
  open_write_ok (config_io p) = false →
  (∀ data, load_file_data (save_io p) (files a) _window_file_ = Some data →
           is_Some (json_parse data)) →
  (∀ data, load_file_data (config_io p) (files a) (config_file_path a)
           = Some data →
           ∃ j, json_parse data = Some j ∧ (j = JNull ∨ is_object j = true)) →
  ∃ a', run_end p a = (Ret (), a') ∧
        trace a' = trace a ++
          run_end_sequence (has_on_destroy p) (save_window (config a)) ∧
        files a' = files a.
Proof.
  intros Hwindow Hconfig Hparses Hconfig_parses.
  unfold run_end. run_step. rewrite destroy_gui_run. run_step.
  rewrite destroy_target_run. run_step.
  destruct (save_window (config a)) eqn:Hsave; run_step.
  - unfold app_save_window_file. run_step.
    rewrite save_window_file_unwritable by done. run_step.
    rewrite json_file_save_unwritable by done. run_step.
    eexists. split; [reflexivity|]. run_step.
    unfold run_end_sequence, destroy_sequence, destroy_gui_sequence.
    cbn [List.app]. rewrite <- ?app_assoc. cbn [List.app]. by split.
  - rewrite json_file_save_unwritable by done. run_step.
    eexists. split; [reflexivity|]. run_step.
    unfold run_end_sequence, destroy_sequence, destroy_gui_sequence.
    cbn [List.app]. rewrite <- ?app_assoc. cbn [List.app]. by split.
Qed.

(** C4, as the code has it. A window file or config file that cannot be
    opened or read, or cannot be opened for writing, is not fatal as long as
    whatever is read of it parses: [load_window_state] answers with the
    empty optional; [save_window_file] returns, with a document of the one
    entry when the file was not read and without writing when the file does
    not open for writing; loading the config leaves the record in memory as
    it was, and saving the config reports [false]; [setup] goes on to create
    the window without a loaded state, and the teardown at the end of the run
    runs to its last call. Content that is read and does not parse is
    another matter: [load_window_state] and [save_window_file] raise the
    JSON library's [parse_error], the save also when the file does not open
    for writing. [read_file] reports a name that does not open by [false] in
    a release build; with assertions compiled in it aborts. (The config
    file's [load] and [save] are modelled from the spec.) *)
Theorem persistence_errors_outcome `{platform} `{streams}
    (o : io) (window : window_ref) (name filename : string)
    (fs : file_system) (p : oracle) (a : app) :
  (load_file_data o fs _window_file_ = None →
   load_window_state o fs name = Ret None ∧
   save_window_file o window fs
   = (Ret (), after_save o fs
        (JObject {[ get_save_name window
                    := to_json (get_window_state_of window) ]}))) ∧
  (open_write_ok o = false →
   (∀ data, load_file_data o fs _window_file_ = Some data →
            is_Some (json_parse data)) →
   save_window_file o window fs = (Ret (), fs)) ∧
  (∀ data, load_file_data o fs _window_file_ = Some data →
           json_parse data = None →
           load_window_state o fs name = Throw json_parse_error ∧
           save_window_file o window fs = (Throw json_parse_error, fs)) ∧
  (load_file_data (config_io p) (files a) (config_file_path a) = None →
   ∃ a', handle_config p a = (Ret (), a') ∧
         config a' = config a ∧ run_time a' = run_time a ∧
         gui_active a' = gui_active a ∧ files a' = files a) ∧
  (open_write_ok (config_io p) = false →
   (∀ data, load_file_data (config_io p) (files a) (config_file_path a)
            = Some data →
            ∃ j, json_parse data = Some j ∧ (j = JNull ∨ is_object j = true)) →
   json_file_save (config_io p) (config_file_path a) on_save a
   = (Ret false, a)) ∧
  (frame_ready p = true →
   file_system_initialize_ok p = true →
   load_file_data (config_io p) (files a) (config_file_path a) = None →
   load_file_data (load_io p) (files a) _window_file_ = None →
   ∃ (b : bool) (a' : app) (done : list event),
     setup p a = (Ret b, a') ∧
     trace a' = trace a ++ done ∧
     startup_sequence None `prefix_of` done ∧
     run_time a' = run_time a ∧ gui_active a' = gui_active a) ∧
  (open_write_ok (save_io p) = false →
   open_write_ok (config_io p) = false →
   (∀ data, load_file_data (save_io p) (files a) _window_file_ = Some data →
            is_Some (json_parse data)) →
   (∀ data, load_file_data (config_io p) (files a) (config_file_path a)
            = Some data →
            ∃ j, json_parse data = Some j ∧ (j = JNull ∨ is_object j = true)) →
   ∃ a', run_end p a = (Ret (), a') ∧
         trace a' = trace a ++
           run_end_sequence (has_on_destroy p) (save_window (config a)) ∧
         files a' = files a) ∧
  (match fs !! filename with
   | Some _ => open_read_ok o
   | None => opens_without_size filename
   end = false →
   read_file true o fs filename = Ret None ∧
   read_file false o fs filename = Throw assertion_failed).
Proof.
  split; [|split; [|split; [|split; [|split; [|split; [|split]]]]]].
  - intros Hload. split; [by apply load_window_state_unread|].
    by rewrite (save_window_file_fresh _ _ _ Hload).
  - apply save_window_file_unwritable.
  - intros data Hload Hparse. split.
    + by eapply load_window_state_unparsed.
    + by eapply save_window_file_unparsed.
  - intros Hload. eexists. split; [by apply handle_config_unread|]. done.
  - apply json_file_save_unwritable.
  - apply setup_unread.
  - apply run_end_unwritable.
  - intros Hopen. by destruct (read_file_unopened o fs filename Hopen).
Qed.

Lemma persistence_errors_outcome_witness :
  (load_window_state failing_io secondary_files "secondary" = Ret None ∧
   save_window_file failing_io (WindowRef example_state "main")
     secondary_files = (Ret (), secondary_files)) ∧
  (load_window_state reference_io garbage_files "main"
   = Throw json_parse_error ∧
   save_window_file reference_io (WindowRef example_state "main")
     garbage_files = (Throw json_parse_error, garbage_files)) ∧
  (∃ a', handle_config (example_oracle failing_io) app_with_files
         = (Ret (), a') ∧
         config a' = config app_with_files ∧
         run_time a' = run_time app_with_files) ∧
  json_file_save failing_io "config.json" on_save app_with_files
  = (Ret false, app_with_files) ∧
  (∃ (b : bool) (a' : app) (done : list event),
     setup (example_oracle failing_io) app_with_files = (Ret b, a') ∧
     trace a' = trace app_with_files ++ done ∧
     startup_sequence None `prefix_of` done) ∧
  (∃ a', run_end (example_oracle failing_io) app_with_files = (Ret (), a') ∧
         files a' = files app_with_files) ∧
  @read_file reference_platform regular_streams true failing_io
    secondary_files _window_file_ = Ret None.
Proof.
  destruct (persistence_errors_outcome (H := reference_platform)
              (H0 := regular_streams) failing_io
              (WindowRef example_state "main") "secondary" _window_file_
              secondary_files (example_oracle failing_io) app_with_files)
    as (Hunread & Hunwritable & _ & Hconfig & Hconfig_save & Hsetup & Hend
        & Hread).
  destruct (persistence_errors_outcome (H := reference_platform)
              (H0 := regular_streams) reference_io
              (WindowRef example_state "main") "main" _window_file_
              garbage_files (example_oracle failing_io) app_with_files)
    as (_ & _ & Hunparsed & _).
  split.
  { split; [apply Hunread; reflexivity|].
    apply Hunwritable; [reflexivity|]. intros data Hdata. discriminate. }
  split; [by apply (Hunparsed None)|].
  split.
  { destruct (Hconfig eq_refl) as (a' & Ha' & Hc & Hr & _). eauto. }
  split.
  { apply Hconfig_save; [reflexivity|]. intros data Hdata. discriminate. }
  split.
  { destruct (Hsetup eq_refl eq_refl eq_refl eq_refl)
      as (b & a' & done & Hrun & Htrace & Hprefix & _).
    by exists b, a', done. }
  split.
  { destruct Hend as (a' & Hrun & _ & Hfiles);
      [reflexivity | reflexivity | intros data Hdata; discriminate
      | intros data Hdata; discriminate |].
    by exists a'. }
  by apply Hread.
Defined.

(** C4, as specified, fails: a window file that does not open for writing
    is a persistence error, and the save of a window into it raises when
    what is read of the file does not parse; nothing catches the exception.
    With assertions compiled in, [read_file] aborts on a file that does not
    open. *)
Lemma unwritable_window_file_raises :
  open_write_ok unwritable_io = false ∧
  save_window_file unwritable_io (WindowRef example_state "main")
    garbage_files = (Throw json_parse_error, garbage_files) ∧
  @read_file reference_platform regular_streams false failing_io
    secondary_files _window_file_ = Throw assertion_failed.
Proof. repeat split. Qed.

(** ** Stream extraction on the reference platform *)

(** The number a text begins with is read, what follows it is left: a
    negative number is negated in the unsigned type, a number that does not
    fit gives the largest value, and a text without a number gives zero. *)
Example extract_index_texts :
  reference_extract_index "1" = Some 1 ∧
  reference_extract_index "12abc" = Some 12 ∧
  reference_extract_index "-1" = Some 4294967295 ∧
  reference_extract_index "4294967296" = Some 4294967295 ∧
  reference_extract_index "abc" = Some 0 ∧
  reference_extract_index "" = None.
Proof. repeat split. Qed.

Example extract_bool_texts :
  reference_extract_bool "0" = Some false ∧
  reference_extract_bool "1" = Some true ∧
  reference_extract_bool "1x" = Some true ∧
  reference_extract_bool "abc" = Some false ∧
  reference_extract_bool "" = None.
Proof. repeat split. Qed.
